(** * The manga inference service (inference/src/main.py)

    A shallow embedding of the request path of the service: the guarded
    model initialisation, the tight bounding box computed from the per-line
    polygons of a text block, the per-line crop / rotate / OCR loop, the
    response dictionary and the rendering of the debug image.

    The two pretrained models, OpenCV, NumPy, Pillow and pathlib are outside
    the program.  Their results are taken from an environment record, every
    call into them may raise (an oracle of the environment decides), and the
    images they build are kept as terms recording which library calls
    produced them.

    The outcome of a library call is a function of its arguments.  Loading
    the OCR model may write files (it downloads the model on first use);
    no other library call but [cv2.imwrite] does.
    Left out: what is printed, the function-level imports (taken to
    succeed), the text of the traceback in wrapped exceptions, and which
    font file is picked for the labels of the debug image. *)

From Stdlib Require Import QArith Qminmax ZArith List Ascii String DecimalString.
From stdpp Require Import gmap strings list fin_maps.

Set Warnings "-register-all".
Set Default Proof Using "Type".

(** ** Python values *)

(** A Python [str] is a sequence of code points; [len] and slicing count
    code points, which matters for the Japanese text the OCR model returns. *)
Definition pystr : Type := list N.

(** A string literal of the source. *)
Definition lit (s : string) : pystr :=
  List.map N_of_ascii (String.list_ascii_of_string s).

(** [f"{n}"] for a non-negative integer. *)
Definition decimal (n : nat) : pystr :=
  lit (NilEmpty.string_of_uint (Nat.to_uint n)).

(** [s.startswith(prefix)]. *)
Fixpoint startswith (prefix s : pystr) : bool :=
  match prefix, s with
  | [], _ => true
  | _ :: _, [] => false
  | a :: prefix', b :: s' => if N.eqb a b then startswith prefix' s' else false
  end.

(** [int(x)] on a finite number: truncation towards zero. *)
Definition py_int (q : Q) : Z := Z.quot (Qnum q) (Z.pos (Qden q)).

(** ** Text blocks of the detector *)

Definition point : Type := Q * Q.

(** Modelled from the spec: the [TextBlock] class of the comic text detector
    is not part of the sources.  A text block has a block-level box [xyxy],
    per-line polygons, an orientation and an estimated font size;
    [lines_array] is the array of the per-line polygons, whose entries NumPy
    holds as floating-point numbers (finite ones, taken here as rationals). *)
Record TextBlock : Type := {
  xyxy : Q * Q * Q * Q;
  lines : list (list point);
  vertical : bool;
  font_size : option Q
}.

Definition lines_array (blk : TextBlock) : list (list point) := lines blk.

(** [np.min] and [np.max] of a non-empty column, given as head and tail. *)
Definition np_min (x : Q) (xs : list Q) : Q := fold_left Qmin xs x.
Definition np_max (x : Q) (xs : list Q) : Q := fold_left Qmax xs x.

(** [for line in lines: all_points.extend(line)]. *)
Definition extend_all (lines : list (list point)) : list point :=
  fold_left (fun all_points line => all_points ++ line) lines [].

Definition calculate_tight_bbox_from_lines (blk : TextBlock) : Q * Q * Q * Q :=
  let lines := lines_array blk in
  if Nat.eqb (length lines) 0 then xyxy blk
  else
    let all_points := extend_all lines in
    match all_points with
    | [] => xyxy blk
    | p :: rest =>
        let x_min := np_min (fst p) (List.map fst rest) in
        let y_min := np_min (snd p) (List.map snd rest) in
        let x_max := np_max (fst p) (List.map fst rest) in
        let y_max := np_max (snd p) (List.map snd rest) in
        (x_min, y_min, x_max, y_max)
    end.

(** [x1, y1, x2, y2 = int(x1), int(y1), int(x2), int(y2)]. *)
Definition int_box (b : Q * Q * Q * Q) : Z * Z * Z * Z :=
  let '(x1, y1, x2, y2) := b in (py_int x1, py_int y1, py_int x2, py_int y2).

(** [blk.font_size or 20]: [None] and zero are falsy. *)
Definition font_size_or_20 (blk : TextBlock) : Q :=
  match font_size blk with
  | None => 20
  | Some f => if Qeq_bool f 0 then 20 else f
  end.

(** ** Exceptions and debug notes *)

Inductive Exn : Type :=
| Error (msg : pystr)
| HTTPException (status_code : Z) (detail : pystr).

Definition str_exn (e : Exn) : pystr :=
  match e with
  | Error msg => msg
  | HTTPException code detail => decimal (Z.to_nat code) ++ lit ": " ++ detail
  end.

(** The entries of [debug_info] are f-strings; they are kept as the template
    that built them together with its arguments, and formatted (by the
    environment) when they go into the response. *)
Inductive DebugMsg : Type :=
| MsgFound (n : nat)
| MsgLineFailed (line_idx blk_no : nat) (line_e : Exn)
| MsgBlock (blk_no : nat) (box : Z * Z * Z * Z) (vert : bool)
    (fsz : option Q) (nlines : nat) (text50 : pystr)
| MsgFinal (n : nat)
| MsgDebugSaved (debug_path : pystr)
| MsgDebugSaveFailed (debug_path : pystr)
| MsgDebugFailed (e : Exn).

(** The values that go into the JSON response. *)
Inductive pyval : Type :=
| VNone
| VBool (b : bool)
| VInt (z : Z)
| VFloat (q : Q)
| VStr (s : pystr)
| VList (l : list pyval)
| VDict (d : gmap string pyval).

(** ** Images *)

Inductive RotateCode : Type := ROTATE_90_CLOCKWISE.
Inductive ColorCode : Type := COLOR_BGR2RGB | COLOR_RGB2BGR.

(** One in-place drawing call on an image buffer. *)
Inductive DrawCmd : Type :=
| Rectangle (box : list Z) (outline fill : option (list Z)) (width : Z)
| DrawText (xy : Z * Z) (text : pystr) (fill : list Z)
| Polylines (pts : list (list (Z * Z))) (is_closed : bool)
    (color : list Z) (thickness : Z).

(** The content of an image buffer, as the history of the calls that made it. *)
Inductive Image : Type :=
| Bitmap (id : N)
| Region (src : Image) (blk : TextBlock) (line_idx : nat) (sz : Q)
| Rotate (code : RotateCode) (src : Image)
| CvtColor (code : ColorCode) (src : Image)
| FromArray (src : Image)
| AsArray (src : Image)
| Drawn (src : Image) (cmd : DrawCmd).

(** What a file holds: bytes that decode to an image, or anything else. *)
Inductive File : Type :=
| ImageFile (img : Image)
| OtherFile (bytes : list N).

(** The models held in the two module-level globals. *)
Inductive Model : Type :=
| TextDetectorObj (id : nat) (device : string)
| MangaOcrObj (id : nat).

(** ** The environment: configuration and the libraries *)

Inductive Call : Type :=
| TextDetector_new (device : string)
| MangaOcr_new
| text_detector_call (img : Image)
| get_transformed_region (img : Image) (blk : TextBlock) (line_idx : nat) (sz : Q)
| cv2_rotate (img : Image) (code : RotateCode)
| cv2_cvtColor (img : Image) (code : ColorCode)
| Image_fromarray (img : Image)
| np_array (img : Image)
| manga_ocr_call (img : Image)
| ndarray_copy (img : Image)
| ImageFont_load
| draw_call (img : Image) (cmd : DrawCmd)
| draw_textbbox (xy : Z * Z) (text : pystr)
| cv2_imwrite (path : pystr) (img : Image).

Record Env : Type := {
  GENERATE_DEBUG_IMAGES : bool;
  model_path_exists : bool;
  cuda_is_available : bool;
  raises : Call -> option Exn;
  detect : Image -> list TextBlock;
  recognize : Image -> pystr;
  shape : Image -> Z * Z;
  textbbox : Z * Z -> pystr -> Z * Z * Z * Z;
  imwrite_result : pystr -> Image -> bool;
  path_parent : pystr -> pystr;
  path_stem : pystr -> pystr;
  path_suffix : pystr -> pystr;
  tmp_file_name : pystr;
  fstring : DebugMsg -> pystr;
  (* the files once [MangaOcr()] has loaded, model download included *)
  manga_ocr_cache : gmap pystr File -> gmap pystr File;
  (* what the conversion to [int32] gives for a number that does not fit *)
  int32_overflow : Q -> Z
}.

(** ** The state of the process *)

Record World : Type := {
  text_detector : option Model;
  manga_ocr : option Model;
  constructed : list Model;
  heap : list Image;
  fs : gmap pystr File;
  ocr_inputs : list Image;
  imwrites : list (pystr * Image * bool)
}.

Definition set_text_detector (m : option Model) (w : World) : World :=
  {| text_detector := m; manga_ocr := manga_ocr w;
     constructed := constructed w; heap := heap w; fs := fs w;
     ocr_inputs := ocr_inputs w; imwrites := imwrites w |}.

Definition set_manga_ocr (m : option Model) (w : World) : World :=
  {| text_detector := text_detector w; manga_ocr := m;
     constructed := constructed w; heap := heap w; fs := fs w;
     ocr_inputs := ocr_inputs w; imwrites := imwrites w |}.

Definition set_constructed (l : list Model) (w : World) : World :=
  {| text_detector := text_detector w; manga_ocr := manga_ocr w;
     constructed := l; heap := heap w; fs := fs w;
     ocr_inputs := ocr_inputs w; imwrites := imwrites w |}.

Definition set_heap (h : list Image) (w : World) : World :=
  {| text_detector := text_detector w; manga_ocr := manga_ocr w;
     constructed := constructed w; heap := h; fs := fs w;
     ocr_inputs := ocr_inputs w; imwrites := imwrites w |}.

Definition set_fs (f : gmap pystr File) (w : World) : World :=
  {| text_detector := text_detector w; manga_ocr := manga_ocr w;
     constructed := constructed w; heap := heap w; fs := f;
     ocr_inputs := ocr_inputs w; imwrites := imwrites w |}.

Definition set_ocr_inputs (l : list Image) (w : World) : World :=
  {| text_detector := text_detector w; manga_ocr := manga_ocr w;
     constructed := constructed w; heap := heap w; fs := fs w;
     ocr_inputs := l; imwrites := imwrites w |}.

Definition set_imwrites (l : list (pystr * Image * bool)) (w : World) : World :=
  {| text_detector := text_detector w; manga_ocr := manga_ocr w;
     constructed := constructed w; heap := heap w; fs := fs w;
     ocr_inputs := ocr_inputs w; imwrites := l |}.

(** ** Computations: state passing with exceptions *)

(** A raised exception keeps the state changes made before it. *)
Definition M (A : Type) : Type := World -> (Exn + A) * World.

Definition ret {A} (a : A) : M A := fun w => (inr a, w).
Definition raise {A} (e : Exn) : M A := fun w => (inl e, w).

Definition bind {A B} (m : M A) (k : A -> M B) : M B :=
  fun w =>
    match m w with
    | (inl e, w') => (inl e, w')
    | (inr a, w') => k a w'
    end.

Definition try_except {A} (m : M A) (handler : Exn -> M A) : M A :=
  fun w =>
    match m w with
    | (inl e, w') => handler e w'
    | (inr a, w') => (inr a, w')
    end.

Definition try_finally {A} (m : M A) (cleanup : M unit) : M A :=
  fun w =>
    match m w with
    | (r, w') =>
        match cleanup w' with
        | (inl e, w'') => (inl e, w'')
        | (inr _, w'') => (r, w'')
        end
    end.

Definition lift {A} (r : Exn + A) : M A := fun w => (r, w).

Declare Scope py_scope.
Delimit Scope py_scope with py.
Notation "x <- m ;; k" := (bind m (fun x => k))
  (at level 100, m at next level, right associativity) : py_scope.
Notation "m ;;; k" := (bind m (fun _ => k))
  (at level 100, right associativity) : py_scope.
Open Scope py_scope.

Section Service.

Variable env : Env.

(** A library call that touches no state: it raises when the oracle says so
    and returns [result] otherwise. *)
Definition lib {A} (c : Call) (result : A) : Exn + A :=
  match raises env c with
  | Some e => inl e
  | None => inr result
  end.

(** *** Image buffers *)

Definition alloc (c : Image) : M nat :=
  fun w => (inr (length (heap w)), set_heap (heap w ++ [c]) w).

Definition read (l : nat) : M Image :=
  fun w =>
    match heap w !! l with
    | Some c => (inr c, w)
    | None => (inl (Error (lit "invalid buffer")), w)
    end.

Definition write (l : nat) (c : Image) : M unit :=
  fun w => (inr tt, set_heap (<[l := c]> (heap w)) w).

(** [cv2.imread(path)]: [None] when the file is missing or is no image. *)
Definition cv2_imread (path : pystr) : M (option nat) :=
  fun w =>
    match fs w !! path with
    | Some (ImageFile c) => (l <- alloc c ;; ret (Some l)) w
    | _ => (inr None, w)
    end.

(** [cv2.imwrite(path, img)] on the content [c]. *)
Definition do_imwrite (path : pystr) (c : Image) : M bool :=
  fun w =>
    match raises env (cv2_imwrite path c) with
    | Some e => (inl e, w)
    | None =>
        let ok := imwrite_result env path c in
        let w1 := set_imwrites (imwrites w ++ [(path, c, ok)]) w in
        (inr ok, if ok then set_fs (<[path := ImageFile c]> (fs w1)) w1 else w1)
    end.

Definition path_exists (path : pystr) : M bool :=
  fun w => (inr (bool_decide (is_Some (fs w !! path))), w).

(** An in-place drawing call through a handle on the buffer [l]. *)
Definition draw (l : nat) (cmd : DrawCmd) : M unit :=
  c <- read l ;;
  lift (lib (draw_call c cmd) tt) ;;;
  write l (Drawn c cmd).

(** *** Model initialisation *)

Definition construct (c : Call) (mk : nat -> Model) : M Model :=
  fun w =>
    match raises env c with
    | Some e => (inl e, w)
    | None =>
        let m := mk (length (constructed w)) in
        (inr m, set_constructed (constructed w ++ [m]) w)
    end.

(** [MangaOcr()]: the constructor downloads the model on first use, so a
    call that returns leaves the files as [manga_ocr_cache] has them.  A
    call that raises is taken to have written nothing. *)
Definition construct_manga_ocr : M Model :=
  mo <- construct MangaOcr_new MangaOcrObj ;;
  (fun w => (inr mo, set_fs (manga_ocr_cache env (fs w)) w)).

Definition initialize_models : M unit :=
  fun w =>
    if bool_decide (text_detector w = None) || bool_decide (manga_ocr w = None)
    then
      try_except
        (if negb (model_path_exists env)
         then raise (Error (lit "Model file not found"))
         else
           let device := if cuda_is_available env then "cuda"%string else "cpu"%string in
           td <- construct (TextDetector_new device)
                   (fun id => TextDetectorObj id device) ;;
           (fun w1 => (inr tt, set_text_detector (Some td) w1)) ;;;
           mo <- construct_manga_ocr ;;
           (fun w2 => (inr tt, set_manga_ocr (Some mo) w2)))
        (fun e => raise e) w
    else (inr tt, w).

(** *** The per-line OCR loop *)

(** [manga_ocr(line_pil)]; the call is recorded in [ocr_inputs]. *)
Definition call_manga_ocr (c : Image) : M pystr :=
  fun w =>
    let w1 := set_ocr_inputs (ocr_inputs w ++ [c]) w in
    (lib (manga_ocr_call c) (recognize env c), w1).

(** The image handed to the OCR model for one line: crop, rotate when the
    block is vertical, convert to a PIL image. *)
Definition prepare_line (c : Image) (blk : TextBlock) (line_idx : nat)
  : Exn + Image :=
  let sz := font_size_or_20 blk in
  match lib (get_transformed_region c blk line_idx sz) (Region c blk line_idx sz) with
  | inl e => inl e
  | inr line_crop =>
      match (if vertical blk
             then lib (cv2_rotate line_crop ROTATE_90_CLOCKWISE)
                      (Rotate ROTATE_90_CLOCKWISE line_crop)
             else inr line_crop) with
      | inl e => inl e
      | inr line_crop =>
          match lib (cv2_cvtColor line_crop COLOR_BGR2RGB)
                    (CvtColor COLOR_BGR2RGB line_crop) with
          | inl e => inl e
          | inr rgb => lib (Image_fromarray rgb) (FromArray rgb)
          end
      end
  end.

(** The body of the [try] for one line. *)
Definition ocr_line (img : nat) (blk : TextBlock) (line_idx : nat) : M pystr :=
  c <- read img ;;
  line_pil <- lift (prepare_line c blk line_idx) ;;
  call_manga_ocr line_pil.

(** [for line_idx in range(len(blk.lines))], over the indices still to do,
    with the two lists the loop appends to. *)
Fixpoint lines_loop (img : nat) (blk : TextBlock) (blk_idx : nat)
    (idxs : list nat) (extracted_lines : list pystr) (debug_info : list DebugMsg)
  : M (list pystr * list DebugMsg) :=
  match idxs with
  | [] => ret (extracted_lines, debug_info)
  | line_idx :: idxs' =>
      st <- try_except
              (line_text <- ocr_line img blk line_idx ;;
               ret (extracted_lines ++ [line_text], debug_info))
              (fun line_e =>
                 ret (extracted_lines ++ [[]],
                      debug_info ++ [MsgLineFailed line_idx (blk_idx + 1) line_e])) ;;
      lines_loop img blk blk_idx idxs' (fst st) (snd st)
  end.

(** [full_text[:50]] followed by ['...'] when the text is longer. *)
Definition text50 (full_text : pystr) : pystr :=
  take 50 full_text ++ (if Nat.ltb 50 (length full_text) then lit "..." else []).

Definition result_blk_of (blk : TextBlock) (box : Z * Z * Z * Z)
    (extracted_lines : list pystr) : gmap string pyval :=
  let '(x1, y1, x2, y2) := box in
  let full_text := concat extracted_lines in
  <["bbox" := VList [VInt x1; VInt y1; VInt x2; VInt y2]]> (
  <["width" := VInt (x2 - x1)]> (
  <["height" := VInt (y2 - y1)]> (
  <["vertical" := VBool (vertical blk)]> (
  <["font_size" := match font_size blk with Some f => VFloat f | None => VNone end]> (
  <["lines" := VInt (Z.of_nat (length (lines blk)))]> (
  <["confidence" := VFloat 1]> (
  <["text" := VStr full_text]> (
  <["text_lines" := VList (VStr <$> extracted_lines)]> ∅)))))))).

(** The body of [for blk_idx, blk in enumerate(blk_list)]. *)
Definition process_block (img : nat) (blk_idx : nat) (blk : TextBlock)
    (debug_info : list DebugMsg) : M (gmap string pyval * list DebugMsg) :=
  let box := int_box (calculate_tight_bbox_from_lines blk) in
  st <- lines_loop img blk blk_idx (seq 0 (length (lines blk))) [] debug_info ;;
  let extracted_lines := fst st in
  let debug_info := snd st in
  let full_text := concat extracted_lines in
  ret (result_blk_of blk box extracted_lines,
       debug_info ++ [MsgBlock (blk_idx + 1) box (vertical blk) (font_size blk)
                        (length (lines blk)) (text50 full_text)]).

Fixpoint blocks_loop (img : nat) (blk_idx : nat) (blks : list TextBlock)
    (results : list (gmap string pyval)) (debug_info : list DebugMsg)
  : M (list (gmap string pyval) * list DebugMsg) :=
  match blks with
  | [] => ret (results, debug_info)
  | blk :: blks' =>
      st <- process_block img blk_idx blk debug_info ;;
      blocks_loop img (S blk_idx) blks' (results ++ [fst st]) (snd st)
  end.

(** *** The debug image *)

(** Truth value of a [str]: the empty string is falsy. *)
Definition truthy (s : pystr) : bool :=
  match s with [] => false | _ :: _ => true end.

(** Truth value of any value. *)
Definition truth (v : pyval) : bool :=
  match v with
  | VNone => false
  | VBool b => b
  | VInt z => negb (Z.eqb z 0)
  | VFloat q => negb (Qeq_bool q 0)
  | VStr s => truthy s
  | VList l => match l with [] => false | _ :: _ => true end
  | VDict d => match map_to_list d with [] => false | _ :: _ => true end
  end.

(** [extracted_text[:30] + "..." if len(extracted_text) > 30 else extracted_text]. *)
Definition display_text_of (extracted_text : pystr) : pystr :=
  if Nat.ltb 30 (length extracted_text)
  then take 30 extracted_text ++ lit "..."
  else extracted_text.

(** [line.astype(np.int32)]: a coordinate is cut toward zero; one that
    does not fit in 32 bits after that gives what the conversion of the
    platform gives. *)
Definition in_int32 (z : Z) : bool :=
  ((-2147483648 <=? z) && (z <=? 2147483647))%Z.

Definition to_int32 (x : Q) : Z :=
  if in_int32 (py_int x) then py_int x else int32_overflow env x.

Definition astype_int32 (line : list point) : list (Z * Z) :=
  List.map (fun p => (to_int32 (fst p), to_int32 (snd p))) line.

(** [parent / name] of pathlib, as the string of the resulting path. *)
Definition path_join (parent name : pystr) : pystr :=
  if bool_decide (parent = lit ".") then name
  else if bool_decide (last parent = Some 47%N) then parent ++ name
  else parent ++ lit "/" ++ name.

Definition debug_path_of (original_image_path : pystr) : pystr :=
  path_join (path_parent env original_image_path)
            (path_stem env original_image_path ++ lit "_debug"
               ++ path_suffix env original_image_path).

(** [for j, line in enumerate(blk.lines_array())]: the loop carries the two
    variables it rebinds, [debug_pil] and [draw]. *)
Fixpoint debug_lines_loop (lines : list (list point)) (st : nat * nat)
  : M (nat * nat) :=
  match lines with
  | [] => ret st
  | line :: lines' =>
      let debug_pil := fst st in
      let line := astype_int32 line in
      pc <- read debug_pil ;;
      arr <- lift (lib (np_array pc) (AsArray pc)) ;;
      bgr <- lift (lib (cv2_cvtColor arr COLOR_RGB2BGR) (CvtColor COLOR_RGB2BGR arr)) ;;
      debug_cv2 <- alloc bgr ;;
      draw debug_cv2 (Polylines [line] true [255; 165; 0]%Z 2) ;;;
      cc <- read debug_cv2 ;;
      rgb <- lift (lib (cv2_cvtColor cc COLOR_BGR2RGB) (CvtColor COLOR_BGR2RGB cc)) ;;
      pil <- lift (lib (Image_fromarray rgb) (FromArray rgb)) ;;
      debug_pil <- alloc pil ;;
      debug_lines_loop lines' (debug_pil, debug_pil)
  end.

(** The text label of a block, under [if extracted_text:].  [text_results]
    holds the dictionaries built by [run_ocr_detection], whose ["text"] is a
    [str]; a truthy value of another type fails in [len], in the slice or in
    Pillow. *)
Definition draw_extracted_text (d : nat) (x1 y1 y2 : Z) (extracted_text : pyval)
  : M unit :=
  if truth extracted_text then
    match extracted_text with
    | VStr s =>
        let text_y := if Z.ltb 50 y1 then (y1 - 50)%Z else (y2 + 10)%Z in
        let display_text := display_text_of s in
        bbox <- lift (lib (draw_textbbox (x1, text_y) display_text)
                          (textbbox env (x1, text_y) display_text)) ;;
        (let '(b0, b1, b2, b3) := bbox in
         draw d (Rectangle [b0 - 2; b1 - 2; b2 + 2; b3 + 2]%Z None
                   (Some [255; 255; 255; 200]%Z) 1)) ;;;
        draw d (DrawText (x1, text_y) display_text [255; 0; 0]%Z)
    | _ => raise (Error (lit "TypeError"))
    end
  else ret tt.

(** The body of [for i, (blk, text_result) in enumerate(zip(...))]. *)
Definition debug_block (i : nat) (blk : TextBlock)
    (text_result : gmap string pyval) (st : nat * nat) : M (nat * nat) :=
  let '(x1, y1, x2, y2) := int_box (calculate_tight_bbox_from_lines blk) in
  match text_result !! "text"%string with
  | None => raise (Error (lit "KeyError: 'text'"))
  | Some _ =>
      let color := [0; 255; 0]%Z in
      draw (snd st) (Rectangle [x1; y1; x2; y2] (Some color) None 3) ;;;
      draw (snd st) (DrawText (x1, Z.max (y1 - 25) 5) (decimal (i + 1)) color) ;;;
      draw_extracted_text (snd st) x1 y1 y2
        (default (VStr []) (text_result !! "text"%string)) ;;;
      debug_lines_loop (lines_array blk) st
  end.

Fixpoint debug_blocks_loop (i : nat)
    (pairs : list (TextBlock * gmap string pyval)) (st : nat * nat)
  : M (nat * nat) :=
  match pairs with
  | [] => ret st
  | (blk, text_result) :: pairs' =>
      st <- debug_block i blk text_result st ;;
      debug_blocks_loop (S i) pairs' st
  end.

Definition generate_debug_image_with_text (img : nat) (blk_list : list TextBlock)
    (text_results : list (gmap string pyval)) (original_image_path : pystr)
    (debug_info : list DebugMsg) : M (option pystr * list DebugMsg) :=
  try_except
    (c <- read img ;;
     lift (lib (ndarray_copy c) tt) ;;;
     debug_img <- alloc c ;;
     dc <- read debug_img ;;
     rgb <- lift (lib (cv2_cvtColor dc COLOR_BGR2RGB) (CvtColor COLOR_BGR2RGB dc)) ;;
     pil <- lift (lib (Image_fromarray rgb) (FromArray rgb)) ;;
     debug_pil <- alloc pil ;;
     lift (lib ImageFont_load tt) ;;;
     st <- debug_blocks_loop 0 (zip blk_list text_results) (debug_pil, debug_pil) ;;
     pc <- read (fst st) ;;
     arr <- lift (lib (np_array pc) (AsArray pc)) ;;
     final_debug_img <- lift (lib (cv2_cvtColor arr COLOR_RGB2BGR)
                                  (CvtColor COLOR_RGB2BGR arr)) ;;
     let debug_path := debug_path_of original_image_path in
     success <- do_imwrite debug_path final_debug_img ;;
     saved <- (if success then path_exists debug_path else ret false) ;;
     if success && saved
     then ret (Some debug_path, debug_info ++ [MsgDebugSaved debug_path])
     else ret (None, debug_info ++ [MsgDebugSaveFailed debug_path]))
    (fun e => ret (None, debug_info ++ [MsgDebugFailed e])).

(** [generate_debug_image]: the legacy entry point. *)
Definition generate_debug_image (img : nat) (blk_list : list TextBlock)
    (original_image_path : pystr) (debug_info : list DebugMsg)
  : M (option pystr * list DebugMsg) :=
  generate_debug_image_with_text img blk_list [] original_image_path debug_info.

(** *** Detection of a page *)

(** [a if a else b] on an optional string. *)
Definition or_else (a : option pystr) (b : pystr) : pystr :=
  match a with
  | Some p => if truthy p then p else b
  | None => b
  end.

Definition response_of (results : list (gmap string pyval)) (im_w im_h : Z)
    (debug_info : list DebugMsg) (debug_image_path : option pystr)
  : gmap string pyval :=
  let response_data : gmap string pyval :=
    <["success" := VBool true]> (
    <["textBlocks" := VList (VDict <$> results)]> (
    <["imageSize" := VDict (<["width" := VInt im_w]> (<["height" := VInt im_h]> ∅))]> (
    <["debug" := VList ((fun m => VStr (fstring env m)) <$> debug_info)]> ∅))) in
  match debug_image_path with
  | Some p => if truthy p then <["debugImagePath" := VStr p]> response_data
              else response_data
  | None => response_data
  end.

Definition run_ocr_detection (image_path : pystr)
    (debug_image_base_path : option pystr) : M (gmap string pyval) :=
  try_except
    (fun w =>
       if bool_decide (text_detector w = None) || bool_decide (manga_ocr w = None)
       then (inl (Error (lit "Models not initialized. Call initialize_models() first.")), w)
       else
         (img <- cv2_imread image_path ;;
          match img with
          | None => raise (Error (lit "Failed to load image"))
          | Some img =>
              c <- read img ;;
              let '(im_h, im_w) := shape env c in
              blk_list <- lift (lib (text_detector_call c) (detect env c)) ;;
              st <- blocks_loop img 0 blk_list [] [MsgFound (length blk_list)] ;;
              let results := fst st in
              let debug_info := snd st ++ [MsgFinal (length results)] in
              dbg <- (if GENERATE_DEBUG_IMAGES env
                      then generate_debug_image_with_text img blk_list results
                             (or_else debug_image_base_path image_path) debug_info
                      else ret (None, debug_info)) ;;
              ret (response_of results im_w im_h (snd dbg) (fst dbg))
          end) w)
    (fun e => raise (Error (lit "OCR detection failed: " ++ str_exn e))).

(** *** The endpoint /ocr/detect *)

Record UploadFile : Type := {
  filename : pystr;
  content_type : option pystr;
  content : File
}.

(** [not file.content_type or not file.content_type.startswith('image/')]. *)
Definition not_an_image (file : UploadFile) : bool :=
  match content_type file with
  | None => true
  | Some ct => negb (truthy ct) || negb (startswith (lit "image/") ct)
  end.

Definition write_file (path : pystr) (f : File) : M unit :=
  fun w => (inr tt, set_fs (<[path := f]> (fs w)) w).

(** [if os.path.exists(path): os.unlink(path)]. *)
Definition unlink_if_exists (path : pystr) : M unit :=
  fun w => (inr tt, set_fs (delete path (fs w)) w).

Definition detect_text (file : UploadFile) (original_path : option pystr)
  : M (gmap string pyval) :=
  initialize_models ;;;
  if not_an_image file
  then raise (HTTPException 400 (lit "File must be an image"))
  else
    let tmp_file_path := tmp_file_name env in
    write_file tmp_file_path (content file) ;;;
    try_finally
      (try_except
         (let debug_image_base_path := or_else original_path tmp_file_path in
          run_ocr_detection tmp_file_path (Some debug_image_base_path))
         (fun e => raise (HTTPException 500
                            (lit "OCR processing failed: " ++ str_exn e))))
      (unlink_if_exists tmp_file_path).

End Service.

(** ** What one line, one block and one request produce

    The functions below read off the code what a line and a block come to,
    for a page whose content is [c]; the loops are proved to compute them. *)

Section Outcomes.

Variable env : Env.
Variable c : Image.

(** The outcome of the [try] body for one line. *)
Definition line_result (blk : TextBlock) (line_idx : nat) : Exn + pystr :=
  match prepare_line env c blk line_idx with
  | inl e => inl e
  | inr line_pil => lib env (manga_ocr_call line_pil) (recognize env line_pil)
  end.

(** The entry of [extracted_lines] for one line. *)
Definition line_text (blk : TextBlock) (line_idx : nat) : pystr :=
  match line_result blk line_idx with
  | inr line_text => line_text
  | inl _ => []
  end.

(** The image given to the OCR model for one line, if the line gets there. *)
Definition line_ocr_input (blk : TextBlock) (line_idx : nat) : option Image :=
  match prepare_line env c blk line_idx with
  | inr line_pil => Some line_pil
  | inl _ => None
  end.

(** The debug note of one line, if it failed. *)
Definition line_note (blk_idx : nat) (blk : TextBlock) (line_idx : nat)
  : option DebugMsg :=
  match line_result blk line_idx with
  | inl line_e => Some (MsgLineFailed line_idx (blk_idx + 1) line_e)
  | inr _ => None
  end.

Definition line_indices (blk : TextBlock) : list nat := seq 0 (length (lines blk)).

Definition block_texts (blk : TextBlock) : list pystr :=
  line_text blk <$> line_indices blk.

Definition block_ocr_inputs (blk : TextBlock) : list Image :=
  omap (line_ocr_input blk) (line_indices blk).

Definition block_result (blk : TextBlock) : gmap string pyval :=
  result_blk_of blk (int_box (calculate_tight_bbox_from_lines blk)) (block_texts blk).

Definition block_notes (blk_idx : nat) (blk : TextBlock) : list DebugMsg :=
  omap (line_note blk_idx blk) (line_indices blk)
  ++ [MsgBlock (blk_idx + 1) (int_box (calculate_tight_bbox_from_lines blk))
        (vertical blk) (font_size blk) (length (lines blk))
        (text50 (concat (block_texts blk)))].

Fixpoint blocks_notes (blk_idx : nat) (blks : list TextBlock) : list DebugMsg :=
  match blks with
  | [] => []
  | blk :: blks' => block_notes blk_idx blk ++ blocks_notes (S blk_idx) blks'
  end.

(** The same for the whole page: the blocks the detector returns on [c]. *)
Definition page_results : list (gmap string pyval) :=
  block_result <$> detect env c.

Definition page_ocr_inputs : list Image :=
  concat (block_ocr_inputs <$> detect env c).

Definition page_debug_info : list DebugMsg :=
  ([MsgFound (length (detect env c))] ++ blocks_notes 0 (detect env c))
  ++ [MsgFinal (length (detect env c))].

End Outcomes.

(** ** The lines of a page, as the specification describes them

    Written from the description of the per-line loop (crop the line region,
    rotate it when the block is vertical, run OCR), to be compared with
    what [prepare_line] and the loops of the source compute. *)

(** The crop of line [i] of [blk] on the page [c]. *)
Definition line_crop (c : Image) (blk : TextBlock) (i : nat) : Image :=
  Region c blk i (font_size_or_20 blk).

(** The crop, turned by 90 degrees clockwise when the block is vertical. *)
Definition line_turned (c : Image) (blk : TextBlock) (i : nat) : Image :=
  if vertical blk then Rotate ROTATE_90_CLOCKWISE (line_crop c blk i)
  else line_crop c blk i.

(** What is to go to the OCR model for the line: the RGB PIL image of it. *)
Definition line_image (c : Image) (blk : TextBlock) (i : nat) : Image :=
  FromArray (CvtColor COLOR_BGR2RGB (line_turned c blk i)).

(** The library calls that lead from the page to that image, in order; the
    rotation is called for a vertical block only. *)
Definition line_prep_calls (c : Image) (blk : TextBlock) (i : nat) : list Call :=
  get_transformed_region c blk i (font_size_or_20 blk)
  :: (if vertical blk then [cv2_rotate (line_crop c blk i) ROTATE_90_CLOCKWISE] else [])
  ++ [cv2_cvtColor (line_turned c blk i) COLOR_BGR2RGB;
      Image_fromarray (CvtColor COLOR_BGR2RGB (line_turned c blk i))].

(** The same with the call of the OCR model at the end. *)
Definition line_calls (c : Image) (blk : TextBlock) (i : nat) : list Call :=
  line_prep_calls c blk i ++ [manga_ocr_call (line_image c blk i)].

(** The images of all lines of a list of blocks: block after block, and
    within a block in the order of the line index. *)
Definition lines_images (c : Image) (blks : list TextBlock) : list Image :=
  concat ((fun blk => line_image c blk <$> seq 0 (length (lines blk))) <$> blks).

(** ** Reading an image term *)

(** The drawing calls applied to a buffer, oldest first. *)
Fixpoint overlays (c : Image) : list DrawCmd :=
  match c with
  | CvtColor _ s | FromArray s | AsArray s => overlays s
  | Drawn s cmd => overlays s ++ [cmd]
  | _ => []
  end.

(** The picture under the drawings and conversions. *)
Fixpoint underlying (c : Image) : Image :=
  match c with
  | CvtColor _ s | FromArray s | AsArray s | Drawn s _ => underlying s
  | _ => c
  end.

(** Whether the red and blue channels are exchanged with respect to
    [underlying]; both colour codes exchange them. *)
Fixpoint swapped (c : Image) : bool :=
  match c with
  | CvtColor _ s => negb (swapped s)
  | FromArray s | AsArray s | Drawn s _ => swapped s
  | _ => false
  end.

(** The ["text"] of a result dictionary when it is a [str]. *)
Definition text_of (text_result : gmap string pyval) : pystr :=
  match text_result !! "text"%string with
  | Some (VStr s) => s
  | _ => []
  end.

(** The outline of one line polygon. *)
Definition polyline_of (env : Env) (line : list point) : DrawCmd :=
  Polylines [astype_int32 env line] true [255; 165; 0]%Z 2.

(** The text label: a filled background box and the text, cut to 30
    characters, when the text is not empty. *)
Definition text_overlays (env : Env) (x1 y1 y2 : Z) (text : pystr) : list DrawCmd :=
  if truthy text then
    let text_y := if Z.ltb 50 y1 then (y1 - 50)%Z else (y2 + 10)%Z in
    let '(b0, b1, b2, b3) := textbbox env (x1, text_y) (display_text_of text) in
    [Rectangle [b0 - 2; b1 - 2; b2 + 2; b3 + 2]%Z None
       (Some [255; 255; 255; 200]%Z) 1;
     DrawText (x1, text_y) (display_text_of text) [255; 0; 0]%Z]
  else [].

(** The overlays of block [i] (counted from 0): the rectangle of the tight
    box, the label [i+1], the text label, and the outline of every line
    polygon. *)
Definition block_overlays (env : Env) (i : nat) (blk : TextBlock) (text : pystr)
  : list DrawCmd :=
  let '(x1, y1, x2, y2) := int_box (calculate_tight_bbox_from_lines blk) in
  [Rectangle [x1; y1; x2; y2] (Some [0; 255; 0]%Z) None 3;
   DrawText (x1, Z.max (y1 - 25) 5) (decimal (i + 1)) [0; 255; 0]%Z]
  ++ text_overlays env x1 y1 y2 text
  ++ (polyline_of env <$> lines_array blk).

Fixpoint debug_overlays (env : Env) (i : nat)
    (pairs : list (TextBlock * gmap string pyval)) : list DrawCmd :=
  match pairs with
  | [] => []
  | (blk, text_result) :: pairs' =>
      block_overlays env i blk (text_of text_result)
      ++ debug_overlays env (S i) pairs'
  end.

(** The overlays of a page: those of its blocks, each with the text
    recognised in it. *)
Fixpoint blocks_overlays (env : Env) (c : Image) (i : nat) (blks : list TextBlock)
  : list DrawCmd :=
  match blks with
  | [] => []
  | blk :: blks' =>
      block_overlays env i blk (concat (block_texts env c blk))
      ++ blocks_overlays env c (S i) blks'
  end.

Definition page_overlays (env : Env) (c : Image) : list DrawCmd :=
  blocks_overlays env c 0 (detect env c).

(** The state once the blocks of the page [c] are processed, and the debug
    stage of [run_ocr_detection] from there. *)
Definition after_ocr (env : Env) (c : Image) (w : World) : World :=
  set_ocr_inputs (ocr_inputs w ++ page_ocr_inputs env c)
                 (set_heap (heap w ++ [c]) w).

Definition debug_stage (env : Env) (c : Image) (base : pystr) (w : World)
  : (Exn + option pystr * list DebugMsg) * World :=
  if GENERATE_DEBUG_IMAGES env
  then generate_debug_image_with_text env (length (heap w)) (detect env c)
         (page_results env c) base (page_debug_info env c) (after_ocr env c w)
  else (inr (None, page_debug_info env c), after_ocr env c w).

(** The state in which [run_ocr_detection] starts: models ready, upload
    saved under the temporary name. *)
Definition uploaded (env : Env) (file : UploadFile) (w0 : World) : World :=
  set_fs (<[tmp_file_name env := content file]> (fs w0)) w0.

Definition unlinked (env : Env) (w2 : World) : World :=
  set_fs (delete (tmp_file_name env) (fs w2)) w2.

(** ** Assertions on buffers *)

(** [w'] differs from [w] in the buffers only, and the buffers below [n]
    are kept. *)
Definition heap_only (n : nat) (w w' : World) : Prop :=
  w' = set_heap (heap w') w /\
  length (heap w) <= length (heap w') /\
  forall l, l < n -> l < length (heap w) -> heap w' !! l = heap w !! l.

(** A step from [w] that ends in [r]: it stays within [heap_only], and when
    it returns, [Q] holds of the value and the state. *)
Definition step_ok {A} (n : nat) (w : World) (r : (Exn + A) * World)
    (Q : A -> World -> Prop) : Prop :=
  heap_only n w (snd r) /\
  match fst r with
  | inl _ => True
  | inr a => Q a (snd r)
  end.

Definition cell (l : nat) (c : Image) (w : World) : Prop := heap w !! l = Some c.

(** [c'] shows the picture of [c] with the drawings [extra] added on top;
    [flip] tells whether the colour channels are exchanged in between. *)
Definition annotated (flip : bool) (c : Image) (extra : list DrawCmd) (c' : Image)
  : Prop :=
  underlying c' = underlying c /\
  swapped c' = xorb flip (swapped c) /\
  overlays c' = overlays c ++ extra.

(** What holds of the loop variables [(debug_pil, draw)] after a loop that
    started from the picture [c] and was to add [extra]. *)
Definition drawn_on (n0 : nat) (c : Image) (extra : list DrawCmd)
    (st : nat * nat) (w : World) : Prop :=
  exists d' c', st = (d', d') /\ n0 <= d' /\ cell d' c' w /\
                annotated false c extra c'.

(** The outcome [r] of the debug stage started in [w] on a page showing
    [c]: it returns, it touches neither the models nor the OCR record, it
    keeps every buffer that existed, and it writes at most one file, at [p],
    showing [c] with [expected] drawn on it; it returns the path exactly
    when that write succeeded. *)
Definition debug_outcome (c : Image) (expected : list DrawCmd) (p : pystr)
    (debug_info : list DebugMsg) (w : World)
    (r : (Exn + option pystr * list DebugMsg) * World) : Prop :=
  let w' := snd r in
  text_detector w' = text_detector w /\
  manga_ocr w' = manga_ocr w /\
  constructed w' = constructed w /\
  ocr_inputs w' = ocr_inputs w /\
  length (heap w) <= length (heap w') /\
  (forall l, l < length (heap w) -> heap w' !! l = heap w !! l) /\
  exists res debug_info' ws,
    fst r = inr (res, debug_info') /\
    imwrites w' = imwrites w ++ ws /\
    (exists extra, debug_info' = debug_info ++ extra) /\
    match res with
    | Some p' => p' = p /\ exists f, ws = [(p, f, true)] /\ annotated false c expected f
    | None => ws = [] \/ exists f, ws = [(p, f, false)] /\ annotated false c expected f
    end.

(** The environment with the debug flag set to [b]. *)
Definition with_flag (b : bool) (env : Env) : Env :=
  {| GENERATE_DEBUG_IMAGES := b;
     model_path_exists := model_path_exists env;
     cuda_is_available := cuda_is_available env;
     raises := raises env; detect := detect env; recognize := recognize env;
     shape := shape env; textbbox := textbbox env;
     imwrite_result := imwrite_result env;
     path_parent := path_parent env; path_stem := path_stem env;
     path_suffix := path_suffix env; tmp_file_name := tmp_file_name env;
     fstring := fstring env;
     manga_ocr_cache := manga_ocr_cache env;
     int32_overflow := int32_overflow env |}.

(** The environment with another oracle for the exceptions, and with
    another outcome of [cv2.imwrite]. *)
Definition with_raises (f : Call -> option Exn) (env : Env) : Env :=
  {| GENERATE_DEBUG_IMAGES := GENERATE_DEBUG_IMAGES env;
     model_path_exists := model_path_exists env;
     cuda_is_available := cuda_is_available env;
     raises := f; detect := detect env; recognize := recognize env;
     shape := shape env; textbbox := textbbox env;
     imwrite_result := imwrite_result env;
     path_parent := path_parent env; path_stem := path_stem env;
     path_suffix := path_suffix env; tmp_file_name := tmp_file_name env;
     fstring := fstring env;
     manga_ocr_cache := manga_ocr_cache env;
     int32_overflow := int32_overflow env |}.

Definition with_imwrite_result (f : pystr -> Image -> bool) (env : Env) : Env :=
  {| GENERATE_DEBUG_IMAGES := GENERATE_DEBUG_IMAGES env;
     model_path_exists := model_path_exists env;
     cuda_is_available := cuda_is_available env;
     raises := raises env; detect := detect env; recognize := recognize env;
     shape := shape env; textbbox := textbbox env;
     imwrite_result := f;
     path_parent := path_parent env; path_stem := path_stem env;
     path_suffix := path_suffix env; tmp_file_name := tmp_file_name env;
     fstring := fstring env;
     manga_ocr_cache := manga_ocr_cache env;
     int32_overflow := int32_overflow env |}.

(** A step from [w] that returns: it stays within [heap_only], and [Q]
    holds of the value and the state. *)
Definition step_tot {A} (n : nat) (w : World) (r : (Exn + A) * World)
    (Q : A -> World -> Prop) : Prop :=
  heap_only n w (snd r) /\ exists a, fst r = inr a /\ Q a (snd r).

(** The library calls made while the debug image is drawn and saved. *)
Definition debug_call (call : Call) : bool :=
  match call with
  | ndarray_copy _ | cv2_cvtColor _ _ | Image_fromarray _ | np_array _
  | ImageFont_load | draw_call _ _ | draw_textbbox _ _ | cv2_imwrite _ _ => true
  | _ => false
  end.

(** ** A sample page

    A page with three blocks: a vertical block of two lines whose second
    line fails in the OCR model, a block without lines, and a horizontal
    block with one line, fractional coordinates and a long text. *)

Module Sample.

Definition blkA : TextBlock :=
  {| xyxy := (0, 0, 100, 100)%Q;
     lines := [[(10, 20); (30, 20); (30, 80); (10, 80)];
               [(40, 25); (55, 25); (55, 90); (40, 90)]]%Q;
     vertical := true;
     font_size := Some 24%Q |}.

Definition blkB : TextBlock :=
  {| xyxy := (5, 6, 70, 80)%Q; lines := []; vertical := false; font_size := None |}.

Definition blkC : TextBlock :=
  {| xyxy := (1, 2, 3, 4)%Q;
     lines := [[(7 # 2, 9 # 2); (-5 # 2, 1)]]%Q;
     vertical := false;
     font_size := Some 0%Q |}.

Definition page : Image := Bitmap 7.

Definition env0 : Env :=
  {| GENERATE_DEBUG_IMAGES := true;
     model_path_exists := true;
     cuda_is_available := false;
     raises := fun call =>
       match call with
       | manga_ocr_call (FromArray (CvtColor _ (Rotate _ (Region _ _ 1 _)))) =>
           Some (Error (lit "ocr"))
       | _ => None
       end;
     detect := fun _ => [blkA; blkB; blkC];
     recognize := fun img =>
       match img with
       | FromArray (CvtColor _ (Rotate _ _)) => [12354; 12356]%N
       | _ => lit "abcdefghijklmnopqrstuvwxyz0123456789"
       end;
     shape := fun _ => (300, 200)%Z;
     textbbox := fun xy s =>
       (fst xy, snd xy, fst xy + 12 * Z.of_nat (length s), snd xy + 24)%Z;
     imwrite_result := fun _ _ => true;
     path_parent := fun _ => lit "/data";
     path_stem := fun _ => lit "page";
     path_suffix := fun _ => lit ".jpg";
     tmp_file_name := lit "/tmp/upload.jpg";
     fstring := fun m =>
       match m with
       | MsgFound n => lit "Found " ++ decimal n ++ lit " text blocks"
       | MsgLineFailed line_idx blk_no line_e =>
           lit "Failed to extract text from line " ++ decimal line_idx
           ++ lit " in block " ++ decimal blk_no ++ lit ": " ++ str_exn line_e
       | MsgBlock blk_no _ _ _ nlines text50 =>
           lit "Block " ++ decimal blk_no ++ lit ": lines=" ++ decimal nlines
           ++ lit " text='" ++ text50 ++ lit "'"
       | MsgFinal n =>
           lit "Final results: " ++ decimal n ++ lit " text blocks with extracted text"
       | MsgDebugSaved debug_path => lit "Debug image with text saved to: " ++ debug_path
       | MsgDebugSaveFailed debug_path => lit "Failed to save debug image to: " ++ debug_path
       | MsgDebugFailed e => lit "Failed to generate debug image: " ++ str_exn e
       end;
     manga_ocr_cache := fun files =>
       <[lit "/root/.cache/huggingface/manga-ocr.bin" := OtherFile [109; 111]%N]> files;
     int32_overflow := fun _ => (-2147483648)%Z |}.

(** The same libraries when no call raises, when drawing a polygon
    raises, and when the image cannot be written. *)
Definition quiet : Env := with_raises (fun _ => None) env0.

Definition draw_fails : Env :=
  with_raises
    (fun call =>
       match call with
       | draw_call _ (Polylines _ _ _ _) => Some (Error (lit "cv2.error"))
       | _ => None
       end) env0.

Definition save_fails : Env := with_imwrite_result (fun _ _ => false) env0.

(** The process before start-up. *)
Definition w0 : World :=
  {| text_detector := None; manga_ocr := None; constructed := []; heap := [];
     fs := ∅; ocr_inputs := []; imwrites := [] |}.

(** The process after start-up, with the page loaded in buffer 0. *)
Definition w1 : World :=
  set_heap [page] (snd (initialize_models env0 w0)).

Definition upload : UploadFile :=
  {| filename := lit "p.jpg";
     content_type := Some (lit "image/jpeg");
     content := ImageFile page |}.

End Sample.

(** ** The rest of the service: start-up, health, and /ocr/text-only *)

Section TextOnly.

Variable env : Env.

(** [startup_event]: the models are loaded when the application starts. *)
Definition startup_event : M unit := initialize_models env.

(** [health_check]. *)
Definition health_check : gmap string pyval :=
  <["status" := VStr (lit "healthy")]> (
  <["service" := VStr (lit "manga-inference")]> (
  <["config" :=
      VDict (<["debug_images_enabled" := VBool (GENERATE_DEBUG_IMAGES env)]> ∅)]> ∅)).

Definition direct_response (extracted_text : pystr) (im_w im_h : Z)
  : gmap string pyval :=
  <["success" := VBool true]> (
  <["text" := VStr extracted_text]> (
  <["imageSize" := VDict (<["width" := VInt im_w]> (<["height" := VInt im_h]> ∅))]> (
  <["method" := VStr (lit "direct_ocr")]> ∅))).

Definition run_direct_ocr (image_path : pystr) : M (gmap string pyval) :=
  try_except
    (fun w =>
       if bool_decide (manga_ocr w = None)
       then (inl (Error (lit "Manga OCR not initialized. Call initialize_models() first.")), w)
       else
         (img <- cv2_imread image_path ;;
          match img with
          | None => raise (Error (lit "Failed to load image"))
          | Some img =>
              c <- read img ;;
              let '(im_h, im_w) := shape env c in
              rgb <- lift (lib env (cv2_cvtColor c COLOR_BGR2RGB)
                                   (CvtColor COLOR_BGR2RGB c)) ;;
              img_pil <- lift (lib env (Image_fromarray rgb) (FromArray rgb)) ;;
              extracted_text <- call_manga_ocr env img_pil ;;
              ret (direct_response extracted_text im_w im_h)
          end) w)
    (fun e => raise (Error (lit "Direct OCR failed: " ++ str_exn e))).

Definition extract_text_only (file : UploadFile) : M (gmap string pyval) :=
  initialize_models env ;;;
  if not_an_image file
  then raise (HTTPException 400 (lit "File must be an image"))
  else
    let tmp_file_path := tmp_file_name env in
    write_file tmp_file_path (content file) ;;;
    try_finally
      (try_except
         (run_direct_ocr tmp_file_path)
         (fun e => raise (HTTPException 500
                            (lit "OCR processing failed: " ++ str_exn e))))
      (unlink_if_exists tmp_file_path).

End TextOnly.

(** What the debug stage does to the files: when it returns a path, that is
    [p], the image now stored there is the one written last, with success;
    otherwise no file has changed. *)
Definition files_outcome (p : pystr) (w : World)
    (r : (Exn + option pystr * list DebugMsg) * World) : Prop :=
  let w' := snd r in
  match fst r with
  | inr (Some p', _) =>
      p' = p /\
      exists f, fs w' = <[p := ImageFile f]> (fs w) /\
                imwrites w' = imwrites w ++ [(p, f, true)]
  | _ => fs w' = fs w
  end.

(** The device the text detector is put on. *)
Definition device_of (env : Env) : string :=
  if cuda_is_available env then "cuda"%string else "cpu"%string.

(** ** Further cases *)

Module Cases.

(** The process after a start-up in which the text detector loaded and the
    OCR model did not. *)
Definition half_loaded : World :=
  {| text_detector := Some (TextDetectorObj 0 "cpu"); manga_ocr := None;
     constructed := [TextDetectorObj 0 "cpu"]; heap := [];
     fs := ∅; ocr_inputs := []; imwrites := [] |}.

(** The sample libraries when the OCR model cannot be loaded, when the OCR
    model raises on every image, and when the detector finds nothing. *)
Definition no_ocr_model : Env :=
  with_raises
    (fun call =>
       match call with
       | MangaOcr_new => Some (Error (lit "download failed"))
       | _ => None
       end) Sample.env0.

Definition ocr_raises : Env :=
  with_raises
    (fun call =>
       match call with
       | manga_ocr_call _ => Some (Error (lit "out of memory"))
       | _ => None
       end) Sample.env0.

Definition no_text : Env :=
  {| GENERATE_DEBUG_IMAGES := true;
     model_path_exists := true;
     cuda_is_available := false;
     raises := fun _ => None;
     detect := fun _ => [];
     recognize := recognize Sample.env0;
     shape := shape Sample.env0; textbbox := textbbox Sample.env0;
     imwrite_result := imwrite_result Sample.env0;
     path_parent := path_parent Sample.env0; path_stem := path_stem Sample.env0;
     path_suffix := path_suffix Sample.env0;
     tmp_file_name := tmp_file_name Sample.env0;
     fstring := fstring Sample.env0;
     manga_ocr_cache := manga_ocr_cache Sample.env0;
     int32_overflow := int32_overflow Sample.env0 |}.

(** An upload announced as an image that is none, and one that is an image
    announced as something else. *)
Definition broken_upload : UploadFile :=
  {| filename := lit "p.jpg";
     content_type := Some (lit "image/jpeg");
     content := OtherFile [1; 2; 3]%N |}.

Definition mislabelled_upload : UploadFile :=
  {| filename := lit "p.jpg";
     content_type := Some (lit "application/octet-stream");
     content := ImageFile Sample.page |}.

(** The process after a start-up without faults. *)
Definition ready : World := snd (initialize_models Sample.env0 Sample.w0).

End Cases.

(** * Properties *)

(** ** Numbers: truncation, minimum and maximum *)

Lemma py_int_mono (p q : Q) : (p <= q)%Q -> (py_int p <= py_int q)%Z.
Proof.
  destruct p as [a b], q as [c d]. unfold Qle, py_int. simpl. intros Hle.
  rewrite <- (Z.quot_mul_cancel_r a (Z.pos b) (Z.pos d)) by lia.
  rewrite <- (Z.quot_mul_cancel_r c (Z.pos d) (Z.pos b)) by lia.
  rewrite (Z.mul_comm (Z.pos d) (Z.pos b)).
  apply Z.quot_le_mono; lia.
Qed.

Lemma py_int_inject_Z (z : Z) : py_int (inject_Z z) = z.
Proof. unfold py_int. simpl. apply Z.quot_1_r. Qed.

Lemma Qmin_cases (a b : Q) : Qmin a b = a \/ Qmin a b = b.
Proof. unfold Qmin, GenericMinMax.gmin. destruct (a ?= b)%Q; auto. Qed.

Lemma Qmax_cases (a b : Q) : Qmax a b = a \/ Qmax a b = b.
Proof. unfold Qmax, GenericMinMax.gmax. destruct (a ?= b)%Q; auto. Qed.

Lemma np_min_elem (x : Q) (xs : list Q) : np_min x xs ∈ x :: xs.
Proof.
  unfold np_min. revert x. induction xs as [|a xs IH]; intros x; simpl.
  - apply list_elem_of_here.
  - specialize (IH (Qmin x a)). apply elem_of_cons in IH as [-> | IH].
    + destruct (Qmin_cases x a) as [-> | ->].
      * apply list_elem_of_here.
      * apply list_elem_of_further, list_elem_of_here.
    + do 2 apply list_elem_of_further. exact IH.
Qed.

Lemma np_max_elem (x : Q) (xs : list Q) : np_max x xs ∈ x :: xs.
Proof.
  unfold np_max. revert x. induction xs as [|a xs IH]; intros x; simpl.
  - apply list_elem_of_here.
  - specialize (IH (Qmax x a)). apply elem_of_cons in IH as [-> | IH].
    + destruct (Qmax_cases x a) as [-> | ->].
      * apply list_elem_of_here.
      * apply list_elem_of_further, list_elem_of_here.
    + do 2 apply list_elem_of_further. exact IH.
Qed.

Lemma np_min_le_acc (x : Q) (xs : list Q) : (np_min x xs <= x)%Q.
Proof.
  unfold np_min. revert x. induction xs as [|a xs IH]; intros x; simpl.
  - apply Qle_refl.
  - eapply Qle_trans; [apply IH | apply Q.le_min_l].
Qed.

Lemma np_max_ge_acc (x : Q) (xs : list Q) : (x <= np_max x xs)%Q.
Proof.
  unfold np_max. revert x. induction xs as [|a xs IH]; intros x; simpl.
  - apply Qle_refl.
  - eapply Qle_trans; [apply Q.le_max_l | apply IH].
Qed.

Lemma np_min_lower (x : Q) (xs : list Q) (y : Q) :
  y ∈ x :: xs -> (np_min x xs <= y)%Q.
Proof.
  revert x. induction xs as [|a xs IH]; intros x Hy.
  - apply list_elem_of_singleton in Hy as ->. apply Qle_refl.
  - apply elem_of_cons in Hy as [-> | Hy].
    + apply np_min_le_acc.
    + change (np_min x (a :: xs)) with (np_min (Qmin x a) xs).
      apply elem_of_cons in Hy as [-> | Hy].
      * eapply Qle_trans; [apply np_min_le_acc | apply Q.le_min_r].
      * apply IH. apply list_elem_of_further, Hy.
Qed.

Lemma np_max_upper (x : Q) (xs : list Q) (y : Q) :
  y ∈ x :: xs -> (y <= np_max x xs)%Q.
Proof.
  revert x. induction xs as [|a xs IH]; intros x Hy.
  - apply list_elem_of_singleton in Hy as ->. apply Qle_refl.
  - apply elem_of_cons in Hy as [-> | Hy].
    + apply np_max_ge_acc.
    + change (np_max x (a :: xs)) with (np_max (Qmax x a) xs).
      apply elem_of_cons in Hy as [-> | Hy].
      * eapply Qle_trans; [apply Q.le_max_r | apply np_max_ge_acc].
      * apply IH. apply list_elem_of_further, Hy.
Qed.

Lemma np_min_le_np_max (x : Q) (xs : list Q) : (np_min x xs <= np_max x xs)%Q.
Proof. eapply Qle_trans; [apply np_min_le_acc | apply np_max_ge_acc]. Qed.

(** ** The tight box *)

Lemma extend_all_concat (ls : list (list point)) : extend_all ls = concat ls.
Proof.
  unfold extend_all.
  assert (H : forall acc, fold_left (fun a l => a ++ l) ls acc = acc ++ concat ls).
  { induction ls as [|l ls IH]; intros acc; simpl.
    - by rewrite app_nil_r.
    - rewrite IH. by rewrite app_assoc. }
  apply H.
Qed.

Lemma tight_bbox_points (blk : TextBlock) (p : point) (rest : list point) :
  concat (lines blk) = p :: rest ->
  calculate_tight_bbox_from_lines blk =
    (np_min (fst p) (List.map fst rest), np_min (snd p) (List.map snd rest),
     np_max (fst p) (List.map fst rest), np_max (snd p) (List.map snd rest)).
Proof.
  intros Hpts. unfold calculate_tight_bbox_from_lines, lines_array.
  rewrite extend_all_concat, Hpts.
  destruct (lines blk) as [|l ls]; [discriminate | reflexivity].
Qed.

Lemma tight_bbox_fallback (blk : TextBlock) :
  concat (lines blk) = [] -> calculate_tight_bbox_from_lines blk = xyxy blk.
Proof.
  intros Hpts. unfold calculate_tight_bbox_from_lines, lines_array.
  rewrite extend_all_concat, Hpts. by destruct (Nat.eqb _ _).
Qed.

(** ** The per-line loop and the block loop *)

Lemma set_ocr_inputs_same (w : World) : set_ocr_inputs (ocr_inputs w) w = w.
Proof. by destruct w. Qed.

Lemma set_heap_same (w : World) : set_heap (heap w) w = w.
Proof. by destruct w. Qed.

Section Loops.

Variable env : Env.

Lemma ocr_line_eq (img : nat) (blk : TextBlock) (line_idx : nat) (c : Image) (w : World) :
  heap w !! img = Some c ->
  ocr_line env img blk line_idx w =
    (line_result env c blk line_idx,
     set_ocr_inputs
       (ocr_inputs w ++ option_list (line_ocr_input env c blk line_idx)) w).
Proof.
  intros Hc. unfold ocr_line, bind, read, lift, line_result, line_ocr_input.
  rewrite Hc. destruct (prepare_line env c blk line_idx) as [e | line_pil]; simpl.
  - by rewrite app_nil_r, set_ocr_inputs_same.
  - unfold call_manga_ocr. by destruct (lib env _ _).
Qed.

Lemma lines_loop_eq (img : nat) (blk : TextBlock) (blk_idx : nat) (c : Image)
    (idxs : list nat) (extracted_lines : list pystr) (debug_info : list DebugMsg)
    (w : World) :
  heap w !! img = Some c ->
  lines_loop env img blk blk_idx idxs extracted_lines debug_info w =
    (inr (extracted_lines ++ (line_text env c blk <$> idxs),
          debug_info ++ omap (line_note env c blk_idx blk) idxs),
     set_ocr_inputs (ocr_inputs w ++ omap (line_ocr_input env c blk) idxs) w).
Proof.
  revert extracted_lines debug_info w.
  induction idxs as [|i idxs IH]; intros ex dbg w Hc.
  - simpl. unfold ret. by rewrite !app_nil_r, set_ocr_inputs_same.
  - cbn [lines_loop]. unfold bind at 1. unfold try_except, bind at 1.
    rewrite (ocr_line_eq _ _ _ c) by done.
    cbn [fmap list_fmap omap list_omap].
    unfold line_text at 1, line_note at 1.
    destruct (line_result env c blk i) as [e | t]; cbn [ret fst snd].
    + rewrite IH by done. cbn [ocr_inputs set_ocr_inputs].
      f_equal; [f_equal; f_equal; by rewrite <- app_assoc |].
      destruct (line_ocr_input env c blk i); simpl;
        by rewrite <- ?app_assoc.
    + rewrite IH by done. cbn [ocr_inputs set_ocr_inputs].
      f_equal; [f_equal; f_equal; by rewrite <- app_assoc |].
      destruct (line_ocr_input env c blk i); simpl;
        by rewrite <- ?app_assoc.
Qed.

Lemma process_block_eq (img : nat) (blk_idx : nat) (blk : TextBlock) (c : Image)
    (debug_info : list DebugMsg) (w : World) :
  heap w !! img = Some c ->
  process_block env img blk_idx blk debug_info w =
    (inr (block_result env c blk, debug_info ++ block_notes env c blk_idx blk),
     set_ocr_inputs (ocr_inputs w ++ block_ocr_inputs env c blk) w).
Proof.
  intros Hc. unfold process_block, bind.
  rewrite (lines_loop_eq _ _ _ c) by done. cbn [fst snd ret app].
  unfold block_notes, block_result, block_texts, block_ocr_inputs, line_indices.
  by rewrite <- app_assoc.
Qed.

Lemma blocks_loop_eq (img : nat) (c : Image) (blks : list TextBlock) (blk_idx : nat)
    (results : list (gmap string pyval)) (debug_info : list DebugMsg) (w : World) :
  heap w !! img = Some c ->
  blocks_loop env img blk_idx blks results debug_info w =
    (inr (results ++ (block_result env c <$> blks),
          debug_info ++ blocks_notes env c blk_idx blks),
     set_ocr_inputs
       (ocr_inputs w ++ concat (block_ocr_inputs env c <$> blks)) w).
Proof.
  revert blk_idx results debug_info w.
  induction blks as [|blk blks IH]; intros blk_idx results dbg w Hc.
  - simpl. unfold ret. by rewrite !app_nil_r, set_ocr_inputs_same.
  - cbn [blocks_loop]. unfold bind at 1.
    rewrite (process_block_eq _ _ _ c) by done. cbn [fst snd].
    rewrite IH by done. cbn [ocr_inputs set_ocr_inputs fmap list_fmap concat blocks_notes].
    by rewrite <- !app_assoc.
Qed.

End Loops.

(** ** The result dictionaries *)

Lemma result_blk_lookup (blk : TextBlock) (x1 y1 x2 y2 : Z) (texts : list pystr) :
  let r := result_blk_of blk (x1, y1, x2, y2) texts in
  r !! "bbox"%string = Some (VList [VInt x1; VInt y1; VInt x2; VInt y2]) /\
  r !! "width"%string = Some (VInt (x2 - x1)) /\
  r !! "height"%string = Some (VInt (y2 - y1)) /\
  r !! "vertical"%string = Some (VBool (vertical blk)) /\
  r !! "font_size"%string
    = Some (match font_size blk with Some f => VFloat f | None => VNone end) /\
  r !! "lines"%string = Some (VInt (Z.of_nat (length (lines blk)))) /\
  r !! "confidence"%string = Some (VFloat 1) /\
  r !! "text"%string = Some (VStr (concat texts)) /\
  r !! "text_lines"%string = Some (VList (VStr <$> texts)).
Proof. unfold result_blk_of. repeat split; by simplify_map_eq. Qed.

Lemma response_lookup (env : Env) (results : list (gmap string pyval)) (im_w im_h : Z)
    (debug_info : list DebugMsg) (debug_image_path : option pystr) :
  let r := response_of env results im_w im_h debug_info debug_image_path in
  r !! "success"%string = Some (VBool true) /\
  r !! "textBlocks"%string = Some (VList (VDict <$> results)) /\
  r !! "imageSize"%string
    = Some (VDict (<["width"%string := VInt im_w]>
                     (<["height"%string := VInt im_h]> ∅))) /\
  r !! "debug"%string
    = Some (VList ((fun m => VStr (fstring env m)) <$> debug_info)) /\
  r !! "debugImagePath"%string
    = match debug_image_path with
      | Some p => if truthy p then Some (VStr p) else None
      | None => None
      end.
Proof.
  unfold response_of.
  destruct debug_image_path as [p|]; [destruct (truthy p) |];
    repeat split; by simplify_map_eq.
Qed.

(** ** Steps that only touch image buffers *)

Lemma heap_only_refl (n : nat) (w : World) : heap_only n w w.
Proof. split; [by rewrite set_heap_same | split; [lia | done]]. Qed.

Lemma heap_only_trans (n : nat) (w1 w2 w3 : World) :
  heap_only n w1 w2 -> heap_only n w2 w3 -> heap_only n w1 w3.
Proof.
  intros (E12 & L12 & P12) (E23 & L23 & P23). split; [|split].
  - rewrite E23 at 1. rewrite E12. reflexivity.
  - lia.
  - intros l Hn Hl. rewrite P23 by lia. by apply P12.
Qed.

Section Steps.

Variable env : Env.
Variable n0 : nat.

Lemma step_ret {A} (a : A) (w : World) (Q : A -> World -> Prop) :
  Q a w -> step_ok n0 w (ret a w) Q.
Proof. intros HQ. split; [apply heap_only_refl | exact HQ]. Qed.

Lemma step_raise {A} (e : Exn) (w : World) (Q : A -> World -> Prop) :
  step_ok n0 w (raise e w) Q.
Proof. split; [apply heap_only_refl | exact I]. Qed.

Lemma step_bind {A B} (m : M A) (k : A -> M B) (w : World)
    (Q1 : A -> World -> Prop) (Q2 : B -> World -> Prop) :
  step_ok n0 w (m w) Q1 ->
  (forall a w1, heap_only n0 w w1 -> Q1 a w1 -> step_ok n0 w1 (k a w1) Q2) ->
  step_ok n0 w (bind m k w) Q2.
Proof.
  intros [Hf HQ] Hk. unfold bind. destruct (m w) as [[e | a] w1]; simpl in *.
  - by split.
  - destruct (Hk a w1 Hf HQ) as [Hf2 HQ2]. split; [|done].
    eapply heap_only_trans; eauto.
Qed.

Lemma step_weaken {A} (w : World) (r : (Exn + A) * World)
    (Q1 Q2 : A -> World -> Prop) :
  step_ok n0 w r Q1 -> (forall a w1, heap_only n0 w w1 -> Q1 a w1 -> Q2 a w1) ->
  step_ok n0 w r Q2.
Proof.
  intros [Hf HQ] Himp. split; [done|]. destruct (fst r); [done | by apply Himp].
Qed.

Lemma step_lib {A} (call : Call) (result : A) (w : World) :
  step_ok n0 w (lift (lib env call result) w) (fun a w1 => a = result /\ w1 = w).
Proof.
  unfold lift, lib. split; [apply heap_only_refl|].
  simpl. by destruct (raises env call).
Qed.

Lemma step_read (l : nat) (c : Image) (w : World) :
  cell l c w -> step_ok n0 w (read l w) (fun a w1 => a = c /\ w1 = w).
Proof.
  unfold cell, read. intros ->. split; [apply heap_only_refl | done].
Qed.

Lemma step_alloc (c : Image) (w : World) :
  step_ok n0 w (alloc c w) (fun l w1 => l = length (heap w) /\ cell l c w1).
Proof.
  unfold alloc, cell. split; [split; [|split] |]; simpl.
  - reflexivity.
  - rewrite length_app. lia.
  - intros l _ Hl. by apply lookup_app_l.
  - split; [done|]. by apply list_lookup_middle.
Qed.

Lemma step_draw (l : nat) (c : Image) (cmd : DrawCmd) (w : World) :
  cell l c w -> n0 <= l ->
  step_ok n0 w (draw env l cmd w) (fun _ w1 => cell l (Drawn c cmd) w1).
Proof.
  unfold cell. intros Hc Hl. unfold draw, bind, read, lift, lib, write.
  rewrite Hc. destruct (raises env (draw_call c cmd)).
  - split; [apply heap_only_refl | done].
  - apply lookup_lt_Some in Hc as Hlt.
    split; [split; [|split] |]; simpl.
    + reflexivity.
    + by rewrite length_insert.
    + intros l' Hn _. apply list_lookup_insert_ne. lia.
    + by apply list_lookup_insert_eq.
Qed.

End Steps.

(** ** The picture in a buffer *)

Lemma annotated_refl (c : Image) : annotated false c [] c.
Proof. repeat split; simpl; by rewrite ?app_nil_r. Qed.

Lemma annotated_trans (b1 b2 : bool) (c0 c1 c2 : Image) (e1 e2 : list DrawCmd) :
  annotated b1 c0 e1 c1 -> annotated b2 c1 e2 c2 ->
  annotated (xorb b1 b2) c0 (e1 ++ e2) c2.
Proof.
  intros (U1 & S1 & O1) (U2 & S2 & O2). repeat split.
  - congruence.
  - rewrite S2, S1. by destruct b1, b2, (swapped c0).
  - rewrite O2, O1. by rewrite app_assoc.
Qed.

Lemma annotated_drawn (c : Image) (cmd : DrawCmd) :
  annotated false c [cmd] (Drawn c cmd).
Proof. by repeat split. Qed.

Lemma annotated_to_pil (c : Image) :
  annotated true c [] (FromArray (CvtColor COLOR_BGR2RGB c)).
Proof. repeat split; simpl; by rewrite ?app_nil_r. Qed.

Lemma annotated_to_cv2 (c : Image) :
  annotated true c [] (CvtColor COLOR_RGB2BGR (AsArray c)).
Proof. repeat split; simpl; by rewrite ?app_nil_r. Qed.

Section DebugImage.

Variable env : Env.
Variable n0 : nat.

Lemma debug_lines_loop_ok (lines : list (list point)) (d : nat) (c : Image) (w : World) :
  cell d c w -> n0 <= d ->
  step_ok n0 w (debug_lines_loop env lines (d, d) w)
    (drawn_on n0 c (polyline_of env <$> lines)).
Proof.
  revert d c w. induction lines as [|line lines IH]; intros d c w Hc Hd.
  - apply step_ret. exists d, c. split_and!; [done | done | done | apply annotated_refl].
  - cbn [debug_lines_loop fst].
    assert (Hlen : d < length (heap w)) by (by eapply lookup_lt_Some).
    eapply step_bind; [by apply step_read|]. intros ? ? _ [-> ->].
    eapply step_bind; [apply step_lib|]. intros ? ? _ [-> ->].
    eapply step_bind; [apply step_lib|]. intros ? ? _ [-> ->].
    eapply step_bind; [apply step_alloc|]. intros cv2 w1 Hf1 [-> Hcv2].
    eapply step_bind; [apply step_draw; [exact Hcv2 | lia] |].
    intros u w2 Hf2 Hc2. cbn beta in Hc2.
    eapply step_bind; [by apply step_read|]. intros ? ? _ [-> ->].
    eapply step_bind; [apply step_lib|]. intros ? ? _ [-> ->].
    eapply step_bind; [apply step_lib|]. intros ? ? _ [-> ->].
    eapply step_bind; [apply step_alloc|]. intros pil w3 Hf3 [-> Hpil].
    eapply step_weaken.
    + apply IH; [exact Hpil|]. destruct Hf1 as (_ & L1 & _), Hf2 as (_ & L2 & _). lia.
    + intros st' w4 _ (d' & c' & -> & Hd' & Hc' & Ha).
      exists d', c'. split_and!; [done | done | done |].
      cbn [fmap list_fmap].
      change (polyline_of env line :: (polyline_of env <$> lines))
        with ([polyline_of env line] ++ (polyline_of env <$> lines)).
      change false with (xorb false false).
      refine (annotated_trans _ _ _ _ _ _ _ _ Ha).
      change false with (xorb true true).
      change [polyline_of env line] with ([] ++ [polyline_of env line]).
      eapply annotated_trans; [apply annotated_to_cv2|].
      change true with (xorb false true).
      change [polyline_of env line] with ([polyline_of env line] ++ []).
      eapply annotated_trans; [apply annotated_drawn | apply annotated_to_pil].
Qed.

Lemma step_draw_on (d : nat) (c0 c : Image) (extra : list DrawCmd)
    (cmd : DrawCmd) (w : World) :
  cell d c w -> annotated false c0 extra c -> n0 <= d ->
  step_ok n0 w (draw env d cmd w)
    (fun _ w1 => exists c', cell d c' w1 /\ annotated false c0 (extra ++ [cmd]) c').
Proof.
  intros Hc Ha Hd. eapply step_weaken; [by apply step_draw|].
  intros u w1 _ Hc1. exists (Drawn c cmd). split; [done|].
  change false with (xorb false false).
  eapply annotated_trans; [exact Ha | apply annotated_drawn].
Qed.

Lemma draw_extracted_text_ok (d : nat) (x1 y1 y2 : Z) (v : pyval)
    (c0 c : Image) (extra : list DrawCmd) (w : World) :
  cell d c w -> annotated false c0 extra c -> n0 <= d ->
  step_ok n0 w (draw_extracted_text env d x1 y1 y2 v w)
    (fun _ w1 => exists c', cell d c' w1 /\
       annotated false c0
         (extra ++ text_overlays env x1 y1 y2
                     (match v with VStr s => s | _ => [] end)) c').
Proof.
  intros Hc Ha Hd. unfold draw_extracted_text, text_overlays.
  assert (Hskip : step_ok n0 w (ret tt w)
            (fun _ w1 => exists c', cell d c' w1 /\ annotated false c0 (extra ++ []) c')).
  { apply step_ret. exists c. by rewrite app_nil_r. }
  destruct v as [| b | z | q | s | l | m]; cbn [truth].
  - exact Hskip.
  - destruct b; [apply step_raise | exact Hskip].
  - destruct (negb _); [apply step_raise | exact Hskip].
  - destruct (negb _); [apply step_raise | exact Hskip].
  - destruct (truthy s) eqn:Hs; [|exact Hskip].
    eapply step_bind; [apply step_lib|]. intros ? ? _ [-> ->].
    destruct (textbbox env _ _) as [[[b0 b1] b2] b3] eqn:Hbb.
    eapply step_bind; [by eapply step_draw_on|].
    intros u w1 Hf1 (c1 & Hc1 & Ha1). cbn beta in *.
    eapply step_weaken; [by eapply step_draw_on|].
    intros u' w2 _ (c2 & Hc2 & Ha2). exists c2. split; [done|].
    by rewrite <- app_assoc in Ha2.
  - destruct l; [exact Hskip | apply step_raise].
  - destruct (map_to_list m); [exact Hskip | apply step_raise].
Qed.

Lemma debug_block_ok (i : nat) (blk : TextBlock) (text_result : gmap string pyval)
    (d : nat) (c : Image) (w : World) :
  cell d c w -> n0 <= d ->
  step_ok n0 w (debug_block env i blk text_result (d, d) w)
    (drawn_on n0 c (block_overlays env i blk (text_of text_result))).
Proof.
  intros Hc Hd. unfold debug_block, block_overlays, text_of.
  destruct (int_box _) as [[[x1 y1] x2] y2].
  destruct (text_result !! "text"%string) as [v|]; [|apply step_raise].
  cbn [snd default from_option id]. unfold id.
  eapply step_bind; [eapply step_draw_on; [done | apply annotated_refl | done] |].
  intros u1 w1 _ (c1 & Hc1 & Ha1).
  eapply step_bind; [by eapply step_draw_on|].
  intros u2 w2 _ (c2 & Hc2 & Ha2).
  eapply step_bind; [by eapply draw_extracted_text_ok|].
  intros u3 w3 _ (c3 & Hc3 & Ha3).
  eapply step_weaken; [by apply debug_lines_loop_ok|].
  intros st' w4 _ (d' & c' & -> & Hd' & Hc' & Ha4).
  exists d', c'. split_and!; [done | done | done |].
  change false with (xorb false false).
  pose proof (annotated_trans _ _ _ _ _ _ _ Ha3 Ha4) as Ha.
  cbn [app] in Ha. exact Ha.
Qed.

Lemma debug_blocks_loop_ok (pairs : list (TextBlock * gmap string pyval))
    (i d : nat) (c : Image) (w : World) :
  cell d c w -> n0 <= d ->
  step_ok n0 w (debug_blocks_loop env i pairs (d, d) w)
    (drawn_on n0 c (debug_overlays env i pairs)).
Proof.
  revert i d c w. induction pairs as [|[blk text_result] pairs IH];
    intros i d c w Hc Hd.
  - apply step_ret. exists d, c. split_and!; [done | done | done | apply annotated_refl].
  - cbn [debug_blocks_loop debug_overlays].
    eapply step_bind; [by apply debug_block_ok|].
    intros st1 w1 _ (d1 & c1 & -> & Hd1 & Hc1 & Ha1).
    eapply step_weaken; [by apply IH|].
    intros st2 w2 _ (d2 & c2 & -> & Hd2 & Hc2 & Ha2).
    exists d2, c2. split_and!; [done | done | done |].
    change false with (xorb false false).
    eapply annotated_trans; eassumption.
Qed.

End DebugImage.

(** ** The debug stage as a whole *)

Lemma heap_only_fields (n : nat) (w w' : World) :
  heap_only n w w' ->
  text_detector w' = text_detector w /\ manga_ocr w' = manga_ocr w /\
  constructed w' = constructed w /\ ocr_inputs w' = ocr_inputs w /\
  imwrites w' = imwrites w /\ fs w' = fs w.
Proof. intros (E & _ & _). rewrite E. by repeat split. Qed.

(** Binding a buffer step to a continuation, for a property [P] of the
    final outcome. *)
Lemma step_then {A B} (n : nat) (m : M A) (k : A -> M B) (w : World)
    (Q : A -> World -> Prop) (P : (Exn + B) * World -> Prop) :
  step_ok n w (m w) Q ->
  (forall e w1, heap_only n w w1 -> P (inl e, w1)) ->
  (forall a w1, heap_only n w w1 -> Q a w1 -> P (k a w1)) ->
  P (bind m k w).
Proof.
  intros [Hf HQ] He Hk. unfold bind. destruct (m w) as [[e | a] w1]; simpl in *.
  - by apply He.
  - by apply Hk.
Qed.

Ltac step_with rule :=
  match goal with
  | |- context [bind ?m ?k ?w] =>
      pattern (bind m k w); eapply step_then; [rule | cbn beta | cbn beta]
  end.

Section DebugStage.

Variable env : Env.

Lemma debug_failed_outcome (c : Image) (expected : list DrawCmd) (p : pystr)
    (debug_info : list DebugMsg) (w w1 : World) (e : Exn) :
  heap_only (length (heap w)) w w1 ->
  debug_outcome c expected p debug_info w
    (inr (None, debug_info ++ [MsgDebugFailed e]), w1).
Proof.
  intros Hf. destruct (heap_only_fields _ _ _ Hf) as (? & ? & ? & ? & Hw & ?).
  destruct Hf as (_ & L & Pz). unfold debug_outcome. cbn [fst snd].
  split_and!; try done.
  - intros l Hl. by apply Pz.
  - exists None, (debug_info ++ [MsgDebugFailed e]), [].
    split_and!; [done | by rewrite app_nil_r | by eexists | by left].
Qed.

Lemma generate_debug_image_with_text_outcome (img : nat) (blk_list : list TextBlock)
    (text_results : list (gmap string pyval)) (original_image_path : pystr)
    (debug_info : list DebugMsg) (c : Image) (w : World) :
  cell img c w ->
  debug_outcome c (debug_overlays env 0 (zip blk_list text_results))
    (debug_path_of env original_image_path) debug_info w
    (generate_debug_image_with_text env img blk_list text_results
       original_image_path debug_info w).
Proof.
  intros Hc. unfold generate_debug_image_with_text, try_except.
  set (n0 := length (heap w)).
  set (P := debug_outcome c _ _ debug_info w).
  step_with ltac:(by apply step_read).
  { intros e w1 Hf. by apply debug_failed_outcome. }
  intros ? ? Hf0 [-> ->].
  step_with ltac:(apply step_lib).
  { intros e w1 Hf. by apply debug_failed_outcome. }
  intros ? ? _ [-> ->].
  step_with ltac:(apply step_alloc).
  { intros e w1 Hf. by apply debug_failed_outcome. }
  intros debug_img w1 Hf1 [-> Hc1].
  step_with ltac:(by apply step_read).
  { intros e w2 Hf. apply debug_failed_outcome. eapply heap_only_trans; eauto. }
  intros ? ? _ [-> ->].
  step_with ltac:(apply step_lib).
  { intros e w2 Hf. apply debug_failed_outcome. eapply heap_only_trans; eauto. }
  intros ? ? _ [-> ->].
  step_with ltac:(apply step_lib).
  { intros e w2 Hf. apply debug_failed_outcome. eapply heap_only_trans; eauto. }
  intros ? ? _ [-> ->].
  step_with ltac:(apply step_alloc).
  { intros e w2 Hf. apply debug_failed_outcome. eapply heap_only_trans; eauto. }
  intros debug_pil w2 Hf2 [-> Hc2].
  pose proof (heap_only_trans _ _ _ _ Hf1 Hf2) as Hf12.
  assert (Hn : n0 <= length (heap w1)) by (destruct Hf1 as (_ & L & _); exact L).
  step_with ltac:(apply step_lib).
  { intros e w3 Hf. apply debug_failed_outcome. eapply heap_only_trans; eauto. }
  intros ? ? _ [-> ->].
  step_with ltac:(apply debug_blocks_loop_ok; [exact Hc2 | exact Hn]).
  { intros e w3 Hf. apply debug_failed_outcome. eapply heap_only_trans; eauto. }
  intros st w3 Hf3 (d & c3 & -> & Hd & Hc3 & Ha3). cbn [fst].
  pose proof (heap_only_trans _ _ _ _ Hf12 Hf3) as Hf13.
  step_with ltac:(by apply step_read).
  { intros e w4 Hf. apply debug_failed_outcome. eapply heap_only_trans; eauto. }
  intros ? ? _ [-> ->].
  step_with ltac:(apply step_lib).
  { intros e w4 Hf. apply debug_failed_outcome. eapply heap_only_trans; eauto. }
  intros ? ? _ [-> ->].
  step_with ltac:(apply step_lib).
  { intros e w4 Hf. apply debug_failed_outcome. eapply heap_only_trans; eauto. }
  intros ? ? _ [-> ->].
  set (final := CvtColor COLOR_RGB2BGR (AsArray c3)).
  assert (Hfinal : annotated false c
            (debug_overlays env 0 (zip blk_list text_results)) final).
  { pose proof (annotated_trans _ _ _ _ _ _ _ (annotated_to_pil c) Ha3) as H1.
    pose proof (annotated_trans _ _ _ _ _ _ _ H1 (annotated_to_cv2 c3)) as H2.
    cbn [xorb app] in H2. by rewrite app_nil_r in H2. }
  destruct (heap_only_fields _ _ _ Hf13) as (Htd & Hmo & Hco & Hoi & Hiw & Hfs).
  destruct Hf13 as (_ & L13 & P13).
  unfold P, debug_outcome, bind, do_imwrite, path_exists, ret.
  destruct (raises env (cv2_imwrite _ final)) as [e|]; cbn [fst snd].
  { repeat (split; [first [done | intros l Hl; by apply P13] |]).
    exists None, (debug_info ++ [MsgDebugFailed e]), [].
    split_and!; [done | by rewrite app_nil_r | by eexists | by left]. }
  destruct (imwrite_result env _ final) eqn:Hok; cbn [fst snd andb].
  - rewrite bool_decide_eq_true_2 by (cbn; rewrite lookup_insert_eq; by eexists).
    cbn [fst snd].
    repeat (split; [first [done | intros l Hl; by apply P13] |]).
    eexists (Some _), _, [(_, final, true)].
    split_and!; [done | cbn; by rewrite Hiw | by eexists | done | by exists final].
  - cbn [fst snd].
    repeat (split; [first [done | intros l Hl; by apply P13] |]).
    eexists None, _, [(_, final, false)].
    split_and!; [done | cbn; by rewrite Hiw | by eexists |].
    right. by exists final.
Qed.

End DebugStage.

(** ** Model initialisation *)

Section Initialisation.

Variable env : Env.

Lemma initialize_models_ready (w : World) :
  text_detector w <> None -> manga_ocr w <> None ->
  initialize_models env w = (inr tt, w).
Proof.
  intros Htd Hmo. unfold initialize_models.
  by rewrite !bool_decide_eq_false_2.
Qed.

(** Whatever the outcome, only the two slots, the list of constructed
    models and the files the loader of the OCR model writes change, and a
    model is constructed only past the guard. *)
Lemma initialize_models_frame (w w1 : World) (r : Exn + unit) :
  initialize_models env w = (r, w1) ->
  heap w1 = heap w /\
  (fs w1 = fs w \/ fs w1 = manga_ocr_cache env (fs w)) /\
  ocr_inputs w1 = ocr_inputs w /\
  imwrites w1 = imwrites w /\
  (constructed w1 <> constructed w -> text_detector w = None \/ manga_ocr w = None).
Proof.
  assert (Hpast : text_detector w = None \/ manga_ocr w = None ->
            try_except
              (if negb (model_path_exists env)
               then raise (Error (lit "Model file not found"))
               else
                 let device :=
                   if cuda_is_available env then "cuda"%string else "cpu"%string in
                 td <- construct env (TextDetector_new device)
                         (fun id => TextDetectorObj id device) ;;
                 (fun w1 => (inr tt, set_text_detector (Some td) w1)) ;;;
                 mo <- construct_manga_ocr env ;;
                 (fun w2 => (inr tt, set_manga_ocr (Some mo) w2)))
              (fun e => raise e) w = (r, w1) ->
            heap w1 = heap w /\
            (fs w1 = fs w \/ fs w1 = manga_ocr_cache env (fs w)) /\
            ocr_inputs w1 = ocr_inputs w /\
            imwrites w1 = imwrites w /\
            (constructed w1 <> constructed w ->
             text_detector w = None \/ manga_ocr w = None)).
  { intros Hg. unfold try_except, bind, construct_manga_ocr, bind, construct, raise.
    destruct (model_path_exists env); cbn [negb];
      [|intros [= <- <-]; split_and!; try done; by left].
    destruct (raises env (TextDetector_new _));
      [intros [= <- <-]; split_and!; try done; by left|].
    cbn. destruct (raises env MangaOcr_new); intros [= <- <-];
      (split_and!; try done); [by left | by right]. }
  unfold initialize_models.
  destruct (bool_decide (text_detector w = None)) eqn:Htd;
    [apply bool_decide_eq_true_1 in Htd |].
  - cbn [orb]. apply Hpast. by left.
  - destruct (bool_decide (manga_ocr w = None)) eqn:Hmo;
      [apply bool_decide_eq_true_1 in Hmo
      | intros [= <- <-]; split_and!; try done; by left].
    cbn [orb]. apply Hpast. by right.
Qed.

(** A call that raises has written no file. *)
Lemma initialize_models_inl (w w1 : World) (e : Exn) :
  initialize_models env w = (inl e, w1) -> fs w1 = fs w.
Proof.
  unfold initialize_models.
  destruct (bool_decide (text_detector w = None) || bool_decide (manga_ocr w = None));
    [|discriminate].
  unfold try_except, bind, construct_manga_ocr, bind, construct, raise.
  destruct (model_path_exists env); cbn [negb]; [|by intros [= _ <-]].
  destruct (raises env (TextDetector_new _)); [by intros [= _ <-]|].
  cbn. destruct (raises env MangaOcr_new); [by intros [= _ <-] | discriminate].
Qed.

Lemma initialize_models_inr (w w1 : World) :
  initialize_models env w = (inr tt, w1) ->
  text_detector w1 <> None /\ manga_ocr w1 <> None.
Proof.
  unfold initialize_models.
  destruct (bool_decide (text_detector w = None) || bool_decide (manga_ocr w = None))
    eqn:Hg.
  - unfold try_except, bind, construct_manga_ocr, bind, construct, raise.
    destruct (model_path_exists env); cbn [negb]; [|discriminate].
    destruct (raises env (TextDetector_new _)); [discriminate|].
    cbn. destruct (raises env MangaOcr_new); [discriminate|].
    intros [= <-]. by split.
  - intros [= <-]. apply orb_false_iff in Hg as [Htd Hmo].
    split; by eapply bool_decide_eq_false_1.
Qed.

End Initialisation.

(** ** Detection of a page *)

Section Detection.

Variable env : Env.

Lemma text_of_block_result (c : Image) (blk : TextBlock) :
  text_of (block_result env c blk) = concat (block_texts env c blk).
Proof.
  unfold text_of, block_result.
  destruct (int_box _) as [[[x1 y1] x2] y2].
  destruct (result_blk_lookup blk x1 y1 x2 y2 (block_texts env c blk))
    as (_ & _ & _ & _ & _ & _ & _ & -> & _).
  reflexivity.
Qed.

Lemma debug_overlays_page (c : Image) (blks : list TextBlock) (i : nat) :
  debug_overlays env i (zip blks (block_result env c <$> blks))
  = blocks_overlays env c i blks.
Proof.
  revert i. induction blks as [|blk blks IH]; intros i; [done|].
  cbn [fmap list_fmap zip zip_with debug_overlays blocks_overlays].
  change (zip_with pair blks (block_result env c <$> blks))
    with (zip blks (block_result env c <$> blks)).
  by rewrite IH, text_of_block_result.
Qed.

Lemma run_ocr_detection_eq (image_path : pystr) (base : option pystr)
    (c : Image) (w : World) :
  text_detector w <> None -> manga_ocr w <> None ->
  fs w !! image_path = Some (ImageFile c) ->
  raises env (text_detector_call c) = None ->
  run_ocr_detection env image_path base w =
    match debug_stage env c (or_else base image_path) w with
    | (inl e, w') => (inl (Error (lit "OCR detection failed: " ++ str_exn e)), w')
    | (inr dbg, w') =>
        (inr (response_of env (page_results env c) (snd (shape env c))
                (fst (shape env c)) (snd dbg) (fst dbg)), w')
    end.
Proof.
  intros Htd Hmo Hfile Hdet.
  unfold run_ocr_detection, try_except, debug_stage.
  rewrite !bool_decide_eq_false_2 by done. cbn [orb].
  unfold bind at 1. unfold cv2_imread. rewrite Hfile.
  unfold bind at 1. unfold alloc at 1. cbn [ret].
  unfold bind at 1. unfold read. cbn [heap set_heap].
  rewrite list_lookup_middle by done.
  destruct (shape env c) as [im_h im_w]. cbn [fst snd].
  unfold bind at 1. unfold lift, lib. rewrite Hdet.
  unfold bind at 1.
  rewrite (blocks_loop_eq env _ c)
    by (cbn [heap set_heap]; by apply list_lookup_middle).
  cbn [fst snd app]. rewrite length_fmap.
  unfold bind, ret, after_ocr, page_results, page_debug_info, page_ocr_inputs.
  cbn [app ocr_inputs set_heap set_ocr_inputs].
  destruct (GENERATE_DEBUG_IMAGES env); [|reflexivity].
  destruct (generate_debug_image_with_text _ _ _ _ _ _ _) as [[e | dbg] w'];
    reflexivity.
Qed.

Lemma run_ocr_detection_inr (image_path : pystr) (base : option pystr)
    (w w' : World) (resp : gmap string pyval) :
  run_ocr_detection env image_path base w = (inr resp, w') ->
  text_detector w <> None /\ manga_ocr w <> None /\
  exists c, fs w !! image_path = Some (ImageFile c) /\
            raises env (text_detector_call c) = None.
Proof.
  unfold run_ocr_detection, try_except.
  destruct (bool_decide (text_detector w = None)) eqn:Htd; [discriminate|].
  destruct (bool_decide (manga_ocr w = None)) eqn:Hmo; [discriminate|].
  apply bool_decide_eq_false_1 in Htd, Hmo. cbn [orb].
  unfold bind at 1. unfold cv2_imread.
  destruct (fs w !! image_path) as [[c | bytes] |] eqn:Hfile;
    [| discriminate | discriminate].
  unfold bind at 1. unfold alloc at 1. cbn [ret].
  unfold bind at 1. unfold read. cbn [heap set_heap].
  rewrite list_lookup_middle by done.
  destruct (shape env c) as [im_h im_w].
  unfold bind at 1. unfold lift, lib.
  destruct (raises env (text_detector_call c)) eqn:Hdet; [discriminate|].
  intros _. split_and!; [done | done |]. by exists c.
Qed.

End Detection.

(** ** The debug stage of a request *)

Section Requests.

Variable env : Env.

Lemma debug_path_truthy (original_image_path : pystr) :
  truthy (debug_path_of env original_image_path) = true.
Proof.
  unfold debug_path_of, path_join.
  assert (Hname : forall a b : pystr, exists x l, a ++ lit "_debug" ++ b = x :: l).
  { intros a b. destruct a; simpl; eauto. }
  destruct (Hname (path_stem env original_image_path)
                  (path_suffix env original_image_path)) as (x & l & ->).
  destruct (bool_decide _); [done|].
  destruct (bool_decide _); by destruct (path_parent env original_image_path).
Qed.

Lemma debug_stage_outcome (c : Image) (base : pystr) (w : World) :
  debug_outcome c (page_overlays env c) (debug_path_of env base)
    (page_debug_info env c) (after_ocr env c w) (debug_stage env c base w).
Proof.
  unfold debug_stage. destruct (GENERATE_DEBUG_IMAGES env).
  - unfold page_overlays, page_results. rewrite <- debug_overlays_page.
    apply generate_debug_image_with_text_outcome.
    unfold cell, after_ocr. cbn. by apply list_lookup_middle.
  - unfold debug_outcome. cbn [fst snd]. split_and!; try done.
    exists None, (page_debug_info env c), [].
    split_and!; [done | by rewrite app_nil_r | exists []; by rewrite app_nil_r | by left].
Qed.

(** With the flag off the stage does nothing at all. *)
Lemma debug_stage_off (c : Image) (base : pystr) (w : World) :
  GENERATE_DEBUG_IMAGES env = false ->
  debug_stage env c base w = (inr (None, page_debug_info env c), after_ocr env c w).
Proof. unfold debug_stage. by intros ->. Qed.

(** A path comes back only when the flag is on. *)
Lemma debug_stage_path (c : Image) (base : pystr) (w w' : World)
    (p : pystr) (dbg : list DebugMsg) :
  debug_stage env c base w = (inr (Some p, dbg), w') ->
  GENERATE_DEBUG_IMAGES env = true.
Proof. unfold debug_stage. by destruct (GENERATE_DEBUG_IMAGES env). Qed.

(** *** The endpoint *)

Lemma detect_text_eq (file : UploadFile) (original_path : option pystr)
    (w w0 : World) :
  initialize_models env w = (inr tt, w0) ->
  not_an_image file = false ->
  detect_text env file original_path w =
    match run_ocr_detection env (tmp_file_name env)
            (Some (or_else original_path (tmp_file_name env))) (uploaded env file w0) with
    | (inl e, w2) =>
        (inl (HTTPException 500 (lit "OCR processing failed: " ++ str_exn e)),
         unlinked env w2)
    | (inr resp, w2) => (inr resp, unlinked env w2)
    end.
Proof.
  intros Hinit Himg. unfold detect_text, bind at 1. rewrite Hinit, Himg.
  unfold bind, write_file, try_finally, try_except, unlink_if_exists, raise.
  fold (uploaded env file w0).
  by destruct (run_ocr_detection _ _ _ _) as [[e | resp] w2].
Qed.

Lemma detect_text_inr (file : UploadFile) (original_path : option pystr)
    (w w' : World) (resp : gmap string pyval) :
  detect_text env file original_path w = (inr resp, w') ->
  exists w0 c,
    initialize_models env w = (inr tt, w0) /\ not_an_image file = false /\
    content file = ImageFile c /\ raises env (text_detector_call c) = None.
Proof.
  intros Hrun.
  assert (Hi : exists w0, initialize_models env w = (inr tt, w0)
                          /\ not_an_image file = false).
  { revert Hrun. unfold detect_text, bind at 1.
    destruct (initialize_models env w) as [[e | []] w0]; [discriminate|].
    destruct (not_an_image file); [discriminate|]. intros _. by exists w0. }
  destruct Hi as (w0 & Hinit & Himg). exists w0.
  rewrite (detect_text_eq _ _ _ _ Hinit Himg) in Hrun.
  destruct (run_ocr_detection env (tmp_file_name env)
              (Some (or_else original_path (tmp_file_name env))) (uploaded env file w0))
    as [[e | resp2] w2] eqn:Hocr; [discriminate|].
  apply run_ocr_detection_inr in Hocr as (_ & _ & c & Hfile & Hdet).
  unfold uploaded in Hfile. cbn [fs set_fs] in Hfile.
  rewrite lookup_insert_eq in Hfile. injection Hfile as Hfile.
  by exists c.
Qed.

Lemma detect_text_served (file : UploadFile) (original_path : option pystr)
    (w w0 : World) (c : Image) :
  initialize_models env w = (inr tt, w0) ->
  not_an_image file = false ->
  content file = ImageFile c ->
  raises env (text_detector_call c) = None ->
  exists res dbg w2,
    debug_stage env c
      (or_else (Some (or_else original_path (tmp_file_name env))) (tmp_file_name env))
      (uploaded env file w0) = (inr (res, dbg), w2) /\
    detect_text env file original_path w =
      (inr (response_of env (page_results env c) (snd (shape env c))
              (fst (shape env c)) dbg res), unlinked env w2).
Proof.
  intros Hinit Himg Hc Hdet.
  destruct (initialize_models_inr env _ _ Hinit) as [Htd Hmo].
  rewrite (detect_text_eq _ _ _ _ Hinit Himg).
  rewrite (run_ocr_detection_eq env _ _ c); try done.
  - pose proof (debug_stage_outcome c
        (or_else (Some (or_else original_path (tmp_file_name env))) (tmp_file_name env))
        (uploaded env file w0)) as Hout.
    destruct (debug_stage _ _ _ _) as [r w2].
    destruct Hout as (_ & _ & _ & _ & _ & _ & res & dbg & ws & Hr & _).
    cbn [fst] in Hr. subst r. by exists res, dbg, w2.
  - unfold uploaded. cbn [fs set_fs]. by rewrite lookup_insert_eq, Hc.
Qed.

(** Everything a served request leaves behind, in terms of the state [w]
    it started from and the page [c] that was uploaded. *)
Lemma detect_text_facts (file : UploadFile) (original_path : option pystr)
    (w w' : World) (resp : gmap string pyval) :
  detect_text env file original_path w = (inr resp, w') ->
  exists c res dbg ws,
    content file = ImageFile c /\
    not_an_image file = false /\
    raises env (text_detector_call c) = None /\
    resp = response_of env (page_results env c) (snd (shape env c))
             (fst (shape env c)) dbg res /\
    (exists extra, dbg = page_debug_info env c ++ extra) /\
    ocr_inputs w' = ocr_inputs w ++ page_ocr_inputs env c /\
    imwrites w' = imwrites w ++ ws /\
    heap w' !! length (heap w) = Some c /\
    (forall l, l < length (heap w) -> heap w' !! l = heap w !! l) /\
    (GENERATE_DEBUG_IMAGES env = false ->
       res = None /\ ws = [] /\ heap w' = heap w ++ [c]) /\
    match res with
    | Some p => GENERATE_DEBUG_IMAGES env = true /\ truthy p = true /\
                exists f, ws = [(p, f, true)] /\
                          annotated false c (page_overlays env c) f
    | None => ws = [] \/
              exists p f, ws = [(p, f, false)] /\
                          annotated false c (page_overlays env c) f
    end.
Proof.
  intros Hrun.
  destruct (detect_text_inr _ _ _ _ _ Hrun) as (w0 & c & Hinit & Himg & Hc & Hdet).
  destruct (detect_text_served file original_path w w0 c Hinit Himg Hc Hdet)
    as (res & dbg & w2 & Hstage & Heq).
  rewrite Heq in Hrun. injection Hrun as <- <-.
  destruct (initialize_models_frame env _ _ _ Hinit) as (Hh & _ & Ho & Hi & _).
  pose proof (debug_stage_outcome c
      (or_else (Some (or_else original_path (tmp_file_name env))) (tmp_file_name env))
      (uploaded env file w0)) as Hout.
  rewrite Hstage in Hout.
  destruct Hout as (_ & _ & _ & Hocr & Hlen & Hkeep & res' & dbg' & ws & Hr & Hws
                    & Hdbg & Hres).
  cbn [fst snd] in *. injection Hr as <- <-.
  unfold after_ocr, uploaded in Hocr, Hlen, Hkeep, Hws.
  cbn [heap ocr_inputs imwrites set_heap set_ocr_inputs set_fs] in Hocr, Hlen, Hkeep, Hws.
  rewrite Hh in Hlen, Hkeep. rewrite Ho in Hocr. rewrite Hi in Hws.
  exists c, res, dbg, ws. unfold unlinked. cbn [heap ocr_inputs imwrites set_fs].
  split_and!; try done.
  - rewrite Hkeep by (rewrite length_app; simpl; lia). by apply list_lookup_middle.
  - intros l Hl. rewrite Hkeep by (rewrite length_app; simpl; lia).
    by apply lookup_app_l.
  - intros Hoff. rewrite (debug_stage_off _ _ _ Hoff) in Hstage.
    injection Hstage as <- <- <-.
    unfold after_ocr, uploaded in Hws |- *.
    cbn [heap imwrites set_heap set_ocr_inputs set_fs] in Hws |- *.
    split_and!; [done | | by rewrite Hh].
    rewrite Hi in Hws. rewrite <- (app_nil_r (imwrites w)) in Hws at 1.
    by apply app_inv_head in Hws.
  - destruct res as [p|].
    + destruct Hres as (-> & f & -> & Ha).
      split_and!; [by eapply debug_stage_path | apply debug_path_truthy | by exists f].
    + destruct Hres as [-> | (f & -> & Ha)]; [by left | right; by eexists _, f].
Qed.

(** *** The models across a request *)

Lemma run_ocr_detection_models (image_path : pystr) (base : option pystr)
    (w w' : World) (r : Exn + gmap string pyval) :
  run_ocr_detection env image_path base w = (r, w') ->
  text_detector w' = text_detector w /\ manga_ocr w' = manga_ocr w /\
  constructed w' = constructed w.
Proof.
  intros Hrun. pose proof Hrun as Hrun0. revert Hrun.
  unfold run_ocr_detection, try_except.
  destruct (bool_decide (text_detector w = None)) eqn:Htd;
    [intros [= <- <-]; by repeat split|].
  destruct (bool_decide (manga_ocr w = None)) eqn:Hmo;
    [intros [= <- <-]; by repeat split|].
  apply bool_decide_eq_false_1 in Htd, Hmo. cbn [orb].
  unfold bind at 1. unfold cv2_imread.
  destruct (fs w !! image_path) as [[c | bytes] |] eqn:Hfile;
    [| intros [= <- <-]; by repeat split | intros [= <- <-]; by repeat split].
  unfold bind at 1. unfold alloc at 1. cbn [ret].
  unfold bind at 1. unfold read. cbn [heap set_heap].
  rewrite list_lookup_middle by done.
  destruct (shape env c) as [im_h im_w].
  unfold bind at 1. unfold lift, lib.
  destruct (raises env (text_detector_call c)) eqn:Hdet;
    [intros [= <- <-]; by repeat split|].
  intros _. rewrite (run_ocr_detection_eq env _ _ c) in Hrun0 by done.
  pose proof (debug_stage_outcome c (or_else base image_path) w) as Hout.
  destruct (debug_stage _ _ _ _) as [[e | dbg] w2];
    destruct Hout as (H1 & H2 & H3 & _); injection Hrun0 as <- <-; by repeat split.
Qed.

Lemma detect_text_models (file : UploadFile) (original_path : option pystr)
    (w w' : World) (r : Exn + gmap string pyval) :
  text_detector w <> None -> manga_ocr w <> None ->
  detect_text env file original_path w = (r, w') ->
  text_detector w' = text_detector w /\ manga_ocr w' = manga_ocr w /\
  constructed w' = constructed w.
Proof.
  intros Htd Hmo.
  pose proof (initialize_models_ready env w Htd Hmo) as Hinit.
  destruct (not_an_image file) eqn:Himg.
  - unfold detect_text, bind. rewrite Hinit, Himg. intros [= <- <-]. by repeat split.
  - rewrite (detect_text_eq _ _ _ _ Hinit Himg).
    destruct (run_ocr_detection _ _ _ _) as [r2 w2] eqn:Hocr.
    apply run_ocr_detection_models in Hocr as (H1 & H2 & H3).
    destruct r2; intros [= <- <-]; by repeat split.
Qed.

(** *** Notes of failed lines *)

Lemma line_note_elem (c : Image) (blk_idx : nat) (blk : TextBlock) (i : nat) (e : Exn) :
  i < length (lines blk) ->
  line_result env c blk i = inl e ->
  MsgLineFailed i (blk_idx + 1) e ∈ block_notes env c blk_idx blk.
Proof.
  intros Hi He. unfold block_notes. apply elem_of_app. left.
  apply list_elem_of_omap. exists i. split.
  - unfold line_indices. apply elem_of_seq. lia.
  - unfold line_note. by rewrite He.
Qed.

Lemma blocks_notes_elem (c : Image) (blks : list TextBlock) (blk_idx k : nat)
    (blk : TextBlock) (m : DebugMsg) :
  blks !! k = Some blk ->
  m ∈ block_notes env c (blk_idx + k) blk ->
  m ∈ blocks_notes env c blk_idx blks.
Proof.
  revert blk_idx k. induction blks as [|b blks IH]; intros blk_idx k Hk Hm; [done|].
  cbn [blocks_notes]. apply elem_of_app. destruct k as [|k].
  - injection Hk as ->. left. by rewrite Nat.add_0_r in Hm.
  - right. apply (IH (S blk_idx) k); [done|].
    by replace (S blk_idx + k) with (blk_idx + S k) by lia.
Qed.

End Requests.

(** ** The sample request is served *)

Lemma sample_request_served :
  exists resp w',
    detect_text Sample.env0 Sample.upload None Sample.w0 = (inr resp, w').
Proof.
  destruct (detect_text_served Sample.env0 Sample.upload None Sample.w0
              (snd (initialize_models Sample.env0 Sample.w0)) Sample.page)
    as (res & dbg & w2 & _ & Hrun); try reflexivity.
  eauto.
Qed.

(** ** The sample page, evaluated *)

Example sample_tight_bbox_A :
  calculate_tight_bbox_from_lines Sample.blkA = (10, 20, 55, 90)%Q.
Proof. reflexivity. Qed.

Example sample_tight_bbox_B :
  calculate_tight_bbox_from_lines Sample.blkB = (5, 6, 70, 80)%Q.
Proof. reflexivity. Qed.

Example sample_tight_bbox_C :
  calculate_tight_bbox_from_lines Sample.blkC = (-5 # 2, 1, 7 # 2, 9 # 2)%Q /\
  int_box (calculate_tight_bbox_from_lines Sample.blkC) = (-2, 1, 3, 4)%Z.
Proof. split; reflexivity. Qed.

Example sample_texts_A :
  block_texts Sample.env0 Sample.page Sample.blkA = [[12354; 12356]%N; []].
Proof. reflexivity. Qed.

Example sample_notes_A :
  block_notes Sample.env0 Sample.page 0 Sample.blkA
  = [MsgLineFailed 1 1 (Error (lit "ocr"));
     MsgBlock 1 (10, 20, 55, 90)%Z true (Some 24%Q) 2 [12354; 12356]%N].
Proof. reflexivity. Qed.

Example sample_display_text :
  display_text_of (lit "abcdefghijklmnopqrstuvwxyz0123456789")
  = lit "abcdefghijklmnopqrstuvwxyz0123..." /\
  display_text_of [12354; 12356]%N = [12354; 12356]%N.
Proof. split; reflexivity. Qed.

Example sample_debug_path :
  debug_path_of Sample.env0 (lit "/data/page.jpg") = lit "/data/page_debug.jpg".
Proof. reflexivity. Qed.

Example sample_entry_A :
  block_result Sample.env0 Sample.page Sample.blkA !! "width"%string = Some (VInt 45) /\
  block_result Sample.env0 Sample.page Sample.blkA !! "height"%string = Some (VInt 70) /\
  block_result Sample.env0 Sample.page Sample.blkA !! "font_size"%string
    = Some (VFloat 24) /\
  block_result Sample.env0 Sample.page Sample.blkB !! "font_size"%string = Some VNone.
Proof. repeat split; vm_compute; reflexivity. Qed.

Example sample_response :
  match detect_text Sample.env0 Sample.upload None Sample.w0 with
  | (inr resp, w') =>
      resp !! "debugImagePath"%string = Some (VStr (lit "/data/page_debug.jpg")) /\
      heap w' !! 0 = Some Sample.page /\
      match imwrites w' with
      | [(p, f, ok)] =>
          p = lit "/data/page_debug.jpg" /\ ok = true /\
          underlying f = Sample.page /\
          overlays f = page_overlays Sample.env0 Sample.page
      | _ => False
      end
  | (inl _, _) => False
  end.
Proof. vm_compute. repeat split. Qed.

Example sample_draw_fails :
  match detect_text Sample.draw_fails Sample.upload None Sample.w0 with
  | (inr resp, w') =>
      resp !! "debugImagePath"%string = None /\
      imwrites w' = [] /\
      exists entries, resp !! "textBlocks"%string = Some (VList entries)
                      /\ length entries = 3
  | (inl _, _) => False
  end.
Proof. vm_compute. split_and!; [done | done | by eexists]. Qed.

Example sample_save_fails :
  match detect_text Sample.save_fails Sample.upload None Sample.w0 with
  | (inr resp, w') =>
      resp !! "debugImagePath"%string = None /\
      match imwrites w' with
      | [(p, _, ok)] => p = lit "/data/page_debug.jpg" /\ ok = false
      | _ => False
      end
  | (inl _, _) => False
  end.
Proof. vm_compute. repeat split. Qed.

Example sample_flag_off :
  match detect_text (with_flag false Sample.env0) Sample.upload None Sample.w0 with
  | (inr resp, w') =>
      resp !! "debugImagePath"%string = None /\ imwrites w' = [] /\
      heap w' = [Sample.page]
  | (inl _, _) => False
  end.
Proof. vm_compute. repeat split. Qed.

Example sample_not_an_image :
  fst (detect_text Sample.env0
         {| filename := lit "p.txt"; content_type := Some (lit "text/plain");
            content := OtherFile [] |} None Sample.w0)
  = inl (HTTPException 400 (lit "File must be an image")).
Proof. reflexivity. Qed.

(** ** The lines of a page: the code against the description *)

(** Membership in a list that is written out. *)
Ltac in_list :=
  cbn [app]; repeat (first [by apply list_elem_of_here | apply list_elem_of_further]).

Ltac all_in H :=
  cbn [app] in H;
  repeat (apply elem_of_cons in H as [-> | H]; [done|]);
  apply elem_of_nil in H; destruct H.

Lemma elem_of_concat {A} (x : A) (ls : list (list A)) :
  x ∈ concat ls <-> exists l, l ∈ ls /\ x ∈ l.
Proof.
  induction ls as [|l0 ls IH]; cbn [concat].
  - split; [intros H; apply elem_of_nil in H; destruct H|].
    intros (l & H & _). apply elem_of_nil in H. destruct H.
  - rewrite elem_of_app, IH. split.
    + intros [H | (l & Hl & H)].
      * exists l0. split; [apply list_elem_of_here | done].
      * exists l. split; [by apply list_elem_of_further | done].
    + intros (l & Hl & H). apply elem_of_cons in Hl as [-> | Hl]; [by left|].
      right. by exists l.
Qed.

Section Lines.

Variable env : Env.
Variable c : Image.

Lemma prepare_line_cases (blk : TextBlock) (i : nat) :
  match prepare_line env c blk i with
  | inr given =>
      given = line_image c blk i /\
      forall call, call ∈ line_prep_calls c blk i -> raises env call = None
  | inl e => exists call, call ∈ line_prep_calls c blk i /\ raises env call = Some e
  end.
Proof.
  unfold prepare_line, lib, line_prep_calls, line_image, line_turned, line_crop.
  destruct (raises env (get_transformed_region _ _ _ _)) as [e|] eqn:H1.
  { eexists. split; [|exact H1]. in_list. }
  destruct (vertical blk).
  - destruct (raises env (cv2_rotate _ _)) as [e|] eqn:H2.
    { eexists. split; [|exact H2]. in_list. }
    destruct (raises env (cv2_cvtColor _ _)) as [e|] eqn:H3.
    { eexists. split; [|exact H3]. in_list. }
    destruct (raises env (Image_fromarray _)) as [e|] eqn:H4.
    { eexists. split; [|exact H4]. in_list. }
    split; [done|]. intros call Hcall. all_in Hcall.
  - destruct (raises env (cv2_cvtColor _ _)) as [e|] eqn:H3.
    { eexists. split; [|exact H3]. in_list. }
    destruct (raises env (Image_fromarray _)) as [e|] eqn:H4.
    { eexists. split; [|exact H4]. in_list. }
    split; [done|]. intros call Hcall. all_in Hcall.
Qed.

Lemma prepare_line_quiet (blk : TextBlock) (i : nat) :
  (forall call, call ∈ line_prep_calls c blk i -> raises env call = None) ->
  prepare_line env c blk i = inr (line_image c blk i).
Proof.
  intros Hq. pose proof (prepare_line_cases blk i) as Hcases.
  destruct (prepare_line env c blk i) as [e | given].
  - destruct Hcases as (call & Hin & Hr). by rewrite (Hq call Hin) in Hr.
  - by destruct Hcases as [-> _].
Qed.

Lemma line_ocr_input_cases (blk : TextBlock) (i : nat) :
  line_ocr_input env c blk i = Some (line_image c blk i) \/
  line_ocr_input env c blk i = None /\
  exists call e, call ∈ line_prep_calls c blk i /\ raises env call = Some e.
Proof.
  unfold line_ocr_input. pose proof (prepare_line_cases blk i) as Hcases.
  destruct (prepare_line env c blk i) as [e | given].
  - right. split; [done|]. destruct Hcases as (call & Hin & Hr). by exists call, e.
  - left. by destruct Hcases as [-> _].
Qed.

Lemma line_text_quiet (blk : TextBlock) (i : nat) :
  (forall call, call ∈ line_calls c blk i -> raises env call = None) ->
  line_text env c blk i = recognize env (line_image c blk i).
Proof.
  intros Hq. unfold line_text, line_result.
  rewrite prepare_line_quiet
    by (intros call Hin; apply Hq; unfold line_calls; apply elem_of_app; by left).
  unfold lib. rewrite Hq; [done|]. unfold line_calls.
  apply elem_of_app. right. apply list_elem_of_here.
Qed.

Lemma line_text_raised (blk : TextBlock) (i : nat) (call : Call) :
  call ∈ line_calls c blk i -> raises env call <> None ->
  line_text env c blk i = [].
Proof.
  intros Hin Hr. unfold line_text, line_result.
  pose proof (prepare_line_cases blk i) as Hcases.
  destruct (prepare_line env c blk i) as [e | given]; [done|].
  destruct Hcases as [-> Hq]. unfold lib.
  destruct (raises env (manga_ocr_call _)) eqn:Hocr; [done|].
  exfalso. apply Hr. unfold line_calls in Hin.
  apply elem_of_app in Hin as [Hin | Hin]; [by apply Hq|].
  apply list_elem_of_singleton in Hin. by subst call.
Qed.

Lemma block_ocr_inputs_sublist (blk : TextBlock) :
  block_ocr_inputs env c blk
    `sublist_of` (line_image c blk <$> seq 0 (length (lines blk))).
Proof.
  unfold block_ocr_inputs, line_indices.
  induction (seq 0 (length (lines blk))) as [|i idxs IH]; [done|].
  cbn [omap list_omap fmap list_fmap].
  destruct (line_ocr_input_cases blk i) as [-> | [-> _]].
  - by apply sublist_skip.
  - by apply sublist_cons.
Qed.

Lemma block_ocr_inputs_quiet (blk : TextBlock) :
  (forall i call, i < length (lines blk) -> call ∈ line_prep_calls c blk i ->
                  raises env call = None) ->
  block_ocr_inputs env c blk = line_image c blk <$> seq 0 (length (lines blk)).
Proof.
  intros Hq. unfold block_ocr_inputs, line_indices.
  assert (Hidx : forall i, i ∈ seq 0 (length (lines blk)) -> i < length (lines blk)).
  { intros i Hi. apply elem_of_seq in Hi. lia. }
  induction (seq 0 (length (lines blk))) as [|i idxs IH]; [done|].
  cbn [omap list_omap fmap list_fmap].
  destruct (line_ocr_input_cases blk i) as [-> | [_ (call & e & Hin & Hr)]].
  - cbn. f_equal. apply IH. intros j Hj. apply Hidx. by apply elem_of_cons; right.
  - rewrite (Hq i call) in Hr; [done | | done]. apply Hidx. apply elem_of_cons; by left.
Qed.

Lemma blocks_ocr_inputs_sublist (blks : list TextBlock) :
  concat (block_ocr_inputs env c <$> blks) `sublist_of` lines_images c blks.
Proof.
  unfold lines_images. induction blks as [|blk blks IH]; [done|].
  cbn [fmap list_fmap concat]. apply sublist_app; [apply block_ocr_inputs_sublist | done].
Qed.

Lemma blocks_ocr_inputs_quiet (blks : list TextBlock) :
  (forall blk i call, blk ∈ blks -> i < length (lines blk) ->
                      call ∈ line_prep_calls c blk i -> raises env call = None) ->
  concat (block_ocr_inputs env c <$> blks) = lines_images c blks.
Proof.
  unfold lines_images. induction blks as [|blk blks IH]; [done|]. intros Hq.
  cbn [fmap list_fmap concat]. f_equal.
  - apply block_ocr_inputs_quiet. intros i call. apply Hq. apply elem_of_cons; by left.
  - apply IH. intros blk' i call Hin. apply Hq. apply elem_of_cons; by right.
Qed.

End Lines.

(** What a call of [run_ocr_detection] that returns has computed. *)
Lemma run_ocr_detection_returns (env : Env) (image_path : pystr)
    (base : option pystr) (w w' : World) (resp : gmap string pyval) :
  run_ocr_detection env image_path base w = (inr resp, w') ->
  exists c res dbg,
    fs w !! image_path = Some (ImageFile c) /\
    resp = response_of env (page_results env c) (snd (shape env c))
             (fst (shape env c)) dbg res /\
    ocr_inputs w' = ocr_inputs w ++ page_ocr_inputs env c.
Proof.
  intros Hrun.
  destruct (run_ocr_detection_inr env _ _ _ _ _ Hrun) as (Htd & Hmo & c & Hfile & Hdet).
  rewrite (run_ocr_detection_eq env _ _ c) in Hrun by done.
  pose proof (debug_stage_outcome env c (or_else base image_path) w) as Hout.
  destruct (debug_stage _ _ _ _) as [[e | dbg] w2]; [discriminate|].
  injection Hrun as <- <-.
  destruct Hout as (_ & _ & _ & Hocr & _).
  exists c, (fst dbg), (snd dbg). split_and!; [done | done |].
  cbn [snd] in Hocr. rewrite Hocr. unfold after_ocr. by cbn.
Qed.


Lemma sample_page_detected :
  exists resp w',
    run_ocr_detection Sample.env0 (tmp_file_name Sample.env0)
      (Some (tmp_file_name Sample.env0))
      (uploaded Sample.env0 Sample.upload
         (snd (initialize_models Sample.env0 Sample.w0)))
    = (inr resp, w').
Proof.
  rewrite (run_ocr_detection_eq Sample.env0 _ _ Sample.page); try done.
  pose proof (debug_stage_outcome Sample.env0 Sample.page
                (or_else (Some (tmp_file_name Sample.env0)) (tmp_file_name Sample.env0))
                (uploaded Sample.env0 Sample.upload
                   (snd (initialize_models Sample.env0 Sample.w0)))) as Hout.
  destruct (debug_stage _ _ _ _) as [r w2].
  destruct Hout as (_ & _ & _ & _ & _ & _ & res & dbg & ws & Hr & _).
  cbn [fst] in Hr. subst r. eauto.
Qed.

Lemma sample_prep_quiet (blk : TextBlock) (i : nat) (call : Call) :
  call ∈ line_prep_calls Sample.page blk i -> raises Sample.env0 call = None.
Proof.
  unfold line_prep_calls. intros Hcall. destruct (vertical blk); all_in Hcall.
Qed.


(** ** The debug image is written when drawing and saving do not raise *)

Section DebugImageReturns.

Variable env : Env.
Variable n0 : nat.

Lemma tot_ret {A} (a : A) (w : World) (Q : A -> World -> Prop) :
  Q a w -> step_tot n0 w (ret a w) Q.
Proof. intros HQ. split; [apply heap_only_refl | by exists a]. Qed.

Lemma tot_bind {A B} (m : M A) (k : A -> M B) (w : World)
    (Q1 : A -> World -> Prop) (Q2 : B -> World -> Prop) :
  step_tot n0 w (m w) Q1 ->
  (forall a w1, heap_only n0 w w1 -> Q1 a w1 -> step_tot n0 w1 (k a w1) Q2) ->
  step_tot n0 w (bind m k w) Q2.
Proof.
  intros [Hf (a & Ha & HQ)] Hk. unfold bind.
  destruct (m w) as [r w1]; cbn [fst snd] in *. subst r.
  destruct (Hk a w1 Hf HQ) as [Hf2 HQ2]. split; [|done].
  eapply heap_only_trans; eauto.
Qed.

Lemma tot_weaken {A} (w : World) (r : (Exn + A) * World)
    (Q1 Q2 : A -> World -> Prop) :
  step_tot n0 w r Q1 -> (forall a w1, heap_only n0 w w1 -> Q1 a w1 -> Q2 a w1) ->
  step_tot n0 w r Q2.
Proof.
  intros [Hf (a & Ha & HQ)] Himp. split; [done|]. exists a. split; [done|].
  by apply Himp.
Qed.

Lemma tot_lib {A} (call : Call) (result : A) (w : World) :
  raises env call = None ->
  step_tot n0 w (lift (lib env call result) w) (fun a w1 => a = result /\ w1 = w).
Proof.
  intros Hq. unfold lift, lib. rewrite Hq. split; [apply heap_only_refl|].
  by exists result.
Qed.

Lemma tot_read (l : nat) (c : Image) (w : World) :
  cell l c w -> step_tot n0 w (read l w) (fun a w1 => a = c /\ w1 = w).
Proof.
  unfold cell, read. intros ->. split; [apply heap_only_refl | by exists c].
Qed.

Lemma tot_alloc (c : Image) (w : World) :
  step_tot n0 w (alloc c w) (fun l w1 => l = length (heap w) /\ cell l c w1).
Proof.
  destruct (step_alloc n0 c w) as [Hf HQ]. split; [exact Hf|].
  by exists (length (heap w)).
Qed.

Lemma tot_draw (l : nat) (c : Image) (cmd : DrawCmd) (w : World) :
  cell l c w -> n0 <= l -> raises env (draw_call c cmd) = None ->
  step_tot n0 w (draw env l cmd w) (fun _ w1 => cell l (Drawn c cmd) w1).
Proof.
  intros Hc Hl Hq. destruct (step_draw env n0 l c cmd w Hc Hl) as [Hf HQ].
  split; [exact Hf|]. revert HQ. unfold draw, bind, read, lift, lib, write.
  unfold cell in Hc. rewrite Hc, Hq. cbn [fst snd]. intros HQ. by exists tt.
Qed.

Lemma debug_lines_loop_tot (lines : list (list point)) (d : nat) (c : Image)
    (w : World)
    (Hquiet : forall call, debug_call call = true -> raises env call = None) :
  cell d c w -> n0 <= d ->
  step_tot n0 w (debug_lines_loop env lines (d, d) w)
    (fun st w1 => exists d' c', st = (d', d') /\ n0 <= d' /\ cell d' c' w1).
Proof.
  revert d c w. induction lines as [|line lines IH]; intros d c w Hc Hd.
  - apply tot_ret. by exists d, c.
  - cbn [debug_lines_loop fst].
    assert (Hlen : d < length (heap w)) by (by eapply lookup_lt_Some).
    eapply tot_bind; [by apply tot_read|]. intros ? ? _ [-> ->].
    eapply tot_bind; [by apply tot_lib, Hquiet|]. intros ? ? _ [-> ->].
    eapply tot_bind; [by apply tot_lib, Hquiet|]. intros ? ? _ [-> ->].
    eapply tot_bind; [apply tot_alloc|]. intros cv2 w1 Hf1 [-> Hcv2].
    eapply tot_bind; [apply tot_draw; [exact Hcv2 | lia | by apply Hquiet] |].
    intros u w2 Hf2 Hc2. cbn beta in Hc2.
    eapply tot_bind; [by apply tot_read|]. intros ? ? _ [-> ->].
    eapply tot_bind; [by apply tot_lib, Hquiet|]. intros ? ? _ [-> ->].
    eapply tot_bind; [by apply tot_lib, Hquiet|]. intros ? ? _ [-> ->].
    eapply tot_bind; [apply tot_alloc|]. intros pil w3 Hf3 [-> Hpil].
    apply (IH _ _ _ Hpil).
    destruct Hf1 as (_ & L1 & _), Hf2 as (_ & L2 & _). lia.
Qed.

Lemma draw_extracted_text_tot (d : nat) (x1 y1 y2 : Z) (s : pystr)
    (c : Image) (w : World)
    (Hquiet : forall call, debug_call call = true -> raises env call = None) :
  cell d c w -> n0 <= d ->
  step_tot n0 w (draw_extracted_text env d x1 y1 y2 (VStr s) w)
    (fun _ w1 => exists c', cell d c' w1).
Proof.
  intros Hc Hd. unfold draw_extracted_text. cbn [truth].
  destruct (truthy s); [|apply tot_ret; by exists c].
  eapply tot_bind; [by apply tot_lib, Hquiet|]. intros ? ? _ [-> ->].
  destruct (textbbox env _ _) as [[[b0 b1] b2] b3].
  eapply tot_bind; [apply tot_draw; [exact Hc | done | by apply Hquiet] |].
  intros u w1 Hf1 Hc1. cbn beta in Hc1.
  eapply tot_weaken; [apply tot_draw; [exact Hc1 | done | by apply Hquiet] |].
  intros u' w2 _ Hc2. cbn beta in Hc2. eexists. exact Hc2.
Qed.

Lemma debug_block_tot (i : nat) (blk : TextBlock) (text_result : gmap string pyval)
    (s : pystr) (d : nat) (c : Image) (w : World)
    (Hquiet : forall call, debug_call call = true -> raises env call = None) :
  text_result !! "text"%string = Some (VStr s) ->
  cell d c w -> n0 <= d ->
  step_tot n0 w (debug_block env i blk text_result (d, d) w)
    (fun st w1 => exists d' c', st = (d', d') /\ n0 <= d' /\ cell d' c' w1).
Proof.
  intros Htext Hc Hd. unfold debug_block.
  destruct (int_box _) as [[[x1 y1] x2] y2]. rewrite Htext.
  cbn [snd default from_option id]. unfold id.
  eapply tot_bind; [apply tot_draw; [exact Hc | done | by apply Hquiet] |].
  intros u1 w1 _ Hc1. cbn beta in Hc1.
  eapply tot_bind; [apply tot_draw; [exact Hc1 | done | by apply Hquiet] |].
  intros u2 w2 _ Hc2. cbn beta in Hc2.
  eapply tot_bind; [by eapply draw_extracted_text_tot|].
  intros u3 w3 _ (c3 & Hc3).
  by eapply debug_lines_loop_tot.
Qed.

Lemma debug_blocks_loop_tot (pairs : list (TextBlock * gmap string pyval))
    (i d : nat) (c : Image) (w : World)
    (Hquiet : forall call, debug_call call = true -> raises env call = None) :
  (forall blk text_result, (blk, text_result) ∈ pairs ->
     exists s, text_result !! "text"%string = Some (VStr s)) ->
  cell d c w -> n0 <= d ->
  step_tot n0 w (debug_blocks_loop env i pairs (d, d) w)
    (fun st w1 => exists d' c', st = (d', d') /\ n0 <= d' /\ cell d' c' w1).
Proof.
  revert i d c w. induction pairs as [|[blk text_result] pairs IH];
    intros i d c w Htexts Hc Hd.
  - apply tot_ret. by exists d, c.
  - cbn [debug_blocks_loop].
    destruct (Htexts blk text_result) as (s & Hs); [apply list_elem_of_here|].
    eapply tot_bind; [by eapply debug_block_tot|].
    intros st1 w1 _ (d1 & c1 & -> & Hd1 & Hc1).
    eapply IH; [|exact Hc1 | exact Hd1].
    intros blk' tr' Hin. apply (Htexts blk'). by apply list_elem_of_further.
Qed.

End DebugImageReturns.

Lemma tot_then {A B} (n : nat) (m : M A) (k : A -> M B) (w : World)
    (Q : A -> World -> Prop) (P : (Exn + B) * World -> Prop) :
  step_tot n w (m w) Q ->
  (forall a w1, heap_only n w w1 -> Q a w1 -> P (k a w1)) ->
  P (bind m k w).
Proof.
  intros [Hf (a & Ha & HQ)] Hk. unfold bind.
  destruct (m w) as [r w1]; cbn [fst snd] in *. subst r. by apply Hk.
Qed.

Ltac tot_with rule :=
  match goal with
  | |- context [bind ?m ?k ?w] =>
      pattern (bind m k w); eapply tot_then; [rule | cbn beta]
  end.

Lemma generate_debug_image_with_text_writes (env : Env) (img : nat)
    (blk_list : list TextBlock) (text_results : list (gmap string pyval))
    (original_image_path : pystr) (debug_info : list DebugMsg) (c : Image)
    (w : World)
    (Hquiet : forall call, debug_call call = true -> raises env call = None) :
  (forall blk text_result, (blk, text_result) ∈ zip blk_list text_results ->
     exists s, text_result !! "text"%string = Some (VStr s)) ->
  cell img c w ->
  let p := debug_path_of env original_image_path in
  exists f,
    imwrites (snd (generate_debug_image_with_text env img blk_list text_results
                     original_image_path debug_info w))
    = imwrites w ++ [(p, f, imwrite_result env p f)].
Proof.
  intros Htexts Hc p.
  set (P := fun r : (Exn + option pystr * list DebugMsg) * World =>
              exists f, imwrites (snd r) = imwrites w ++ [(p, f, imwrite_result env p f)]).
  unfold generate_debug_image_with_text, try_except.
  match goal with
  | |- context [bind ?m ?k w] =>
      enough (HP : P (bind m k w));
        [ destruct (bind m k w) as [[e | x] w1]; exact HP |]
  end.
  set (n0 := length (heap w)).
  tot_with ltac:(by apply (tot_read n0 img c)). intros ? ? Hf0 [-> ->].
  tot_with ltac:(by apply (tot_lib env n0), Hquiet). intros ? ? _ [-> ->].
  tot_with ltac:(apply (tot_alloc n0)). intros debug_img w1 Hf1 [-> Hc1].
  tot_with ltac:(by apply (tot_read n0)). intros ? ? _ [-> ->].
  tot_with ltac:(by apply (tot_lib env n0), Hquiet). intros ? ? _ [-> ->].
  tot_with ltac:(by apply (tot_lib env n0), Hquiet). intros ? ? _ [-> ->].
  tot_with ltac:(apply (tot_alloc n0)). intros debug_pil w2 Hf2 [-> Hc2].
  pose proof (heap_only_trans _ _ _ _ Hf1 Hf2) as Hf12.
  assert (Hn : n0 <= length (heap w1)) by (destruct Hf1 as (_ & L & _); exact L).
  tot_with ltac:(by apply (tot_lib env n0), Hquiet). intros ? ? _ [-> ->].
  tot_with ltac:(apply (debug_blocks_loop_tot env n0 _ 0 _ _ w2 Hquiet Htexts Hc2 Hn)).
  intros st w3 Hf3 (d & c3 & -> & Hd & Hc3). cbn [fst].
  pose proof (heap_only_trans _ _ _ _ Hf12 Hf3) as Hf13.
  tot_with ltac:(by apply (tot_read n0)). intros ? ? _ [-> ->].
  tot_with ltac:(by apply (tot_lib env n0), Hquiet). intros ? ? _ [-> ->].
  tot_with ltac:(by apply (tot_lib env n0), Hquiet). intros ? ? _ [-> ->].
  destruct (heap_only_fields _ _ _ Hf13) as (_ & _ & _ & _ & Hiw & _).
  unfold P, bind, do_imwrite, path_exists, ret.
  rewrite (Hquiet (cv2_imwrite _ _)) by done. fold p.
  eexists. destruct (imwrite_result env p _) eqn:Hok; cbn [fst snd andb].
  - rewrite bool_decide_eq_true_2 by (cbn; rewrite lookup_insert_eq; by eexists).
    cbn [snd imwrites set_fs set_imwrites]. rewrite Hiw, Hok. reflexivity.
  - cbn [snd imwrites set_fs set_imwrites]. rewrite Hiw, Hok. reflexivity.
Qed.

Lemma debug_stage_writes (env : Env) (c : Image) (base : pystr) (w : World)
    (Hquiet : forall call, debug_call call = true -> raises env call = None) :
  GENERATE_DEBUG_IMAGES env = true ->
  let p := debug_path_of env base in
  exists f,
    imwrites (snd (debug_stage env c base w))
    = imwrites w ++ [(p, f, imwrite_result env p f)].
Proof.
  intros Hflag p. unfold debug_stage. rewrite Hflag.
  destruct (generate_debug_image_with_text_writes env (length (heap w))
              (detect env c) (page_results env c) base (page_debug_info env c) c
              (after_ocr env c w) Hquiet) as (f & Hf).
  - intros blk tr Hin. apply elem_of_zip_r in Hin. unfold page_results in Hin.
    apply list_elem_of_fmap in Hin as (blk' & -> & _).
    unfold block_result. destruct (int_box _) as [[[x1 y1] x2] y2].
    eexists. apply result_blk_lookup.
  - unfold cell, after_ocr. cbn. by apply list_lookup_middle.
  - exists f. exact Hf.
Qed.

Lemma to_int32_in_range (env : Env) (x : Q) :
  (-2147483648 <= py_int x <= 2147483647)%Z -> to_int32 env x = py_int x.
Proof.
  intros [Hlo Hhi]. unfold to_int32, in_int32.
  by rewrite (proj2 (Z.leb_le _ _) Hlo), (proj2 (Z.leb_le _ _) Hhi).
Qed.


Lemma sample_debug_calls_quiet (call : Call) :
  debug_call call = true -> raises Sample.env0 call = None.
Proof. destruct call; first [discriminate | reflexivity]. Qed.


(** * The claims *)

(** ** The tight box *)

(** C8: a text block without line polygons, or whose line polygons hold no
    point, gets the block-level box [blk.xyxy] of the detector. *)
Theorem tight_bbox_falls_back_to_xyxy (blk : TextBlock)
    (Hempty : lines blk = [] \/ forall line, line ∈ lines blk -> line = []) :
  calculate_tight_bbox_from_lines blk = xyxy blk.
Proof.
  apply tight_bbox_fallback. destruct Hempty as [-> | Hall]; [done|].
  induction (lines blk) as [|l ls IH]; [done|]. simpl.
  rewrite (Hall l) by apply list_elem_of_here. simpl.
  apply IH. intros line Hline. apply Hall. by apply list_elem_of_further.
Qed.

Lemma tight_bbox_falls_back_to_xyxy_witness :
  calculate_tight_bbox_from_lines Sample.blkB = (5, 6, 70, 80)%Q.
Proof. apply (tight_bbox_falls_back_to_xyxy Sample.blkB). left. reflexivity. Defined.

(** C1: for a block with at least one point in its line polygons,
    [calculate_tight_bbox_from_lines] returns the minimum and the maximum of
    the x- and of the y-coordinates over all points of all line polygons:
    each bound is the coordinate of some point and bounds every point.  The
    body of the block loop of [run_ocr_detection] puts this rectangle, each
    coordinate through [int], under ["bbox"], whatever [blk.xyxy] is; on
    whole coordinates [int] changes nothing. *)
Theorem tight_bbox_is_min_max_of_line_points (env : Env) (img blk_idx : nat)
    (blk : TextBlock) (debug_info : list DebugMsg) (w : World) (c : Image)
    (p : point) (Hp : p ∈ concat (lines blk)) (Hc : cell img c w) :
  exists x_min y_min x_max y_max,
    calculate_tight_bbox_from_lines blk = (x_min, y_min, x_max, y_max) /\
    (exists q, q ∈ concat (lines blk) /\ fst q = x_min) /\
    (exists q, q ∈ concat (lines blk) /\ snd q = y_min) /\
    (exists q, q ∈ concat (lines blk) /\ fst q = x_max) /\
    (exists q, q ∈ concat (lines blk) /\ snd q = y_max) /\
    (forall q, q ∈ concat (lines blk) ->
       (x_min <= fst q)%Q /\ (fst q <= x_max)%Q /\
       (y_min <= snd q)%Q /\ (snd q <= y_max)%Q) /\
    (exists r debug_info' w',
       process_block env img blk_idx blk debug_info w = (inr (r, debug_info'), w') /\
       r !! "bbox"%string
         = Some (VList [VInt (py_int x_min); VInt (py_int y_min);
                        VInt (py_int x_max); VInt (py_int y_max)])) /\
    (forall b, calculate_tight_bbox_from_lines
                 {| xyxy := b; lines := lines blk; vertical := vertical blk;
                    font_size := font_size blk |}
               = (x_min, y_min, x_max, y_max)) /\
    ((forall q, q ∈ concat (lines blk) ->
        inject_Z (py_int (fst q)) = fst q /\ inject_Z (py_int (snd q)) = snd q) ->
     inject_Z (py_int x_min) = x_min /\ inject_Z (py_int y_min) = y_min /\
     inject_Z (py_int x_max) = x_max /\ inject_Z (py_int y_max) = y_max).
Proof.
  destruct (concat (lines blk)) as [|p0 rest] eqn:Hpts; [by apply elem_of_nil in Hp|].
  exists (np_min (fst p0) (List.map fst rest)), (np_min (snd p0) (List.map snd rest)),
         (np_max (fst p0) (List.map fst rest)), (np_max (snd p0) (List.map snd rest)).
  assert (Hfst : forall x, x ∈ fst p0 :: List.map fst rest ->
                           exists q, q ∈ p0 :: rest /\ fst q = x).
  { intros x Hx. change (fst p0 :: List.map fst rest) with (fst <$> p0 :: rest) in Hx.
    apply list_elem_of_fmap in Hx as (q & -> & Hq). by exists q. }
  assert (Hsnd : forall y, y ∈ snd p0 :: List.map snd rest ->
                           exists q, q ∈ p0 :: rest /\ snd q = y).
  { intros y Hy. change (snd p0 :: List.map snd rest) with (snd <$> p0 :: rest) in Hy.
    apply list_elem_of_fmap in Hy as (q & -> & Hq). by exists q. }
  assert (Hin1 : forall q, q ∈ p0 :: rest -> fst q ∈ fst p0 :: List.map fst rest).
  { intros q Hq. change (fst p0 :: List.map fst rest) with (fst <$> p0 :: rest).
    by apply list_elem_of_fmap_2. }
  assert (Hin2 : forall q, q ∈ p0 :: rest -> snd q ∈ snd p0 :: List.map snd rest).
  { intros q Hq. change (snd p0 :: List.map snd rest) with (snd <$> p0 :: rest).
    by apply list_elem_of_fmap_2. }
  pose proof (tight_bbox_points blk p0 rest Hpts) as Hbox.
  split_and!.
  - exact Hbox.
  - apply Hfst, np_min_elem.
  - apply Hsnd, np_min_elem.
  - apply Hfst, np_max_elem.
  - apply Hsnd, np_max_elem.
  - intros q Hq. split_and!.
    + by apply np_min_lower, Hin1.
    + by apply np_max_upper, Hin1.
    + by apply np_min_lower, Hin2.
    + by apply np_max_upper, Hin2.
  - rewrite (process_block_eq env _ _ _ c) by done.
    eexists _, _, _. split; [reflexivity|].
    unfold block_result. rewrite Hbox. cbn [int_box].
    apply result_blk_lookup.
  - intros b. by apply tight_bbox_points.
  - intros Hwhole. split_and!.
    + destruct (Hfst _ (np_min_elem (fst p0) (List.map fst rest))) as (q & Hq & <-).
      by apply Hwhole.
    + destruct (Hsnd _ (np_min_elem (snd p0) (List.map snd rest))) as (q & Hq & <-).
      by apply Hwhole.
    + destruct (Hfst _ (np_max_elem (fst p0) (List.map fst rest))) as (q & Hq & <-).
      by apply Hwhole.
    + destruct (Hsnd _ (np_max_elem (snd p0) (List.map snd rest))) as (q & Hq & <-).
      by apply Hwhole.
Qed.

Lemma tight_bbox_is_min_max_of_line_points_witness :
  exists x_min y_min x_max y_max,
    calculate_tight_bbox_from_lines Sample.blkA = (x_min, y_min, x_max, y_max) /\
    (forall q, q ∈ concat (lines Sample.blkA) ->
       (x_min <= fst q)%Q /\ (fst q <= x_max)%Q /\
       (y_min <= snd q)%Q /\ (snd q <= y_max)%Q) /\
    inject_Z (py_int x_min) = x_min /\ inject_Z (py_int y_min) = y_min /\
    inject_Z (py_int x_max) = x_max /\ inject_Z (py_int y_max) = y_max.
Proof.
  destruct (tight_bbox_is_min_max_of_line_points Sample.env0 0 0 Sample.blkA []
              Sample.w1 Sample.page (10, 20)%Q)
    as (x_min & y_min & x_max & y_max & Hbox & _ & _ & _ & _ & Hall & _ & _ & Hwhole).
  - simpl. apply list_elem_of_here.
  - reflexivity.
  - exists x_min, y_min, x_max, y_max. split; [exact Hbox|]. split; [exact Hall|].
    apply Hwhole. intros q Hq. simpl in Hq.
    repeat (apply elem_of_cons in Hq as [-> | Hq]; [split; reflexivity|]).
    apply elem_of_nil in Hq. destruct Hq.
Defined.

(** ** The per-line loop *)

(** C2: for every detected block [run_ocr_detection] goes through the lines
    in the order of their index.  The images given to the OCR model during
    the call are images of lines: the crop of the line region, turned when
    the block is vertical, as an RGB image; they come block after block
    and, within a block, line after line, no line twice, and they are all
    the lines when cropping, turning and converting do not raise.  The entry
    of a block has in ["text_lines"] one text per line in that order, which
    is what the OCR model returns on the image of the line when none of the
    calls for the line raises and the empty string when one does; ["text"]
    is their concatenation without separator and ["lines"] is the number of
    lines of the block. *)
Theorem block_text_lines_in_line_order (env : Env) (image_path : pystr)
    (base : option pystr) (w w' : World) (resp : gmap string pyval)
    (Hrun : run_ocr_detection env image_path base w = (inr resp, w')) :
  exists c entries called,
    let given := fun blk i =>
      let crop := Region c blk i (font_size_or_20 blk) in
      FromArray (CvtColor COLOR_BGR2RGB
        (if vertical blk then Rotate ROTATE_90_CLOCKWISE crop else crop)) in
    let planned :=
      concat ((fun blk => given blk <$> seq 0 (length (lines blk))) <$> detect env c) in
    fs w !! image_path = Some (ImageFile c) /\
    resp !! "textBlocks"%string = Some (VList (VDict <$> entries)) /\
    length entries = length (detect env c) /\
    ocr_inputs w' = ocr_inputs w ++ called /\
    called `sublist_of` planned /\
    ((forall blk i call, blk ∈ detect env c -> i < length (lines blk) ->
        call ∈ line_prep_calls c blk i -> raises env call = None) ->
     called = planned) /\
    forall k blk, detect env c !! k = Some blk ->
      exists entry texts,
        entries !! k = Some entry /\
        entry !! "text_lines"%string = Some (VList (VStr <$> texts)) /\
        length texts = length (lines blk) /\
        entry !! "text"%string = Some (VStr (concat texts)) /\
        entry !! "lines"%string = Some (VInt (Z.of_nat (length (lines blk)))) /\
        forall i, i < length (lines blk) ->
          ((forall call, call ∈ line_calls c blk i -> raises env call = None) ->
           texts !! i = Some (recognize env (given blk i))) /\
          ((exists call, call ∈ line_calls c blk i /\ raises env call <> None) ->
           texts !! i = Some ([] : pystr)).
Proof.
  destruct (run_ocr_detection_returns env _ _ _ _ _ Hrun)
    as (c & res & dbg & Hfile & -> & Hocr).
  exists c, (page_results env c), (page_ocr_inputs env c). cbn zeta.
  split; [exact Hfile|]. split; [apply response_lookup|].
  split; [unfold page_results; by rewrite length_fmap|].
  split; [exact Hocr|].
  split; [apply (blocks_ocr_inputs_sublist env c)|].
  split; [apply (blocks_ocr_inputs_quiet env c)|].
  intros k blk Hk. exists (block_result env c blk), (block_texts env c blk).
  split; [unfold page_results; by rewrite list_lookup_fmap, Hk|].
  unfold block_result. destruct (int_box _) as [[[x1 y1] x2] y2].
  destruct (result_blk_lookup blk x1 y1 x2 y2 (block_texts env c blk))
    as (_ & _ & _ & _ & _ & Hlines & _ & Htext & Htl).
  split; [exact Htl|].
  split; [unfold block_texts, line_indices; by rewrite length_fmap, length_seq|].
  split; [exact Htext|]. split; [exact Hlines|].
  intros i Hi.
  assert (Hi' : block_texts env c blk !! i = Some (line_text env c blk i)).
  { unfold block_texts, line_indices.
    by rewrite list_lookup_fmap, lookup_seq_lt. }
  split.
  - intros Hq. by rewrite (line_text_quiet env c blk i Hq) in Hi'.
  - intros (call & Hin & Hr).
    rewrite (line_text_raised env c blk i call Hin Hr) in Hi'. exact Hi'.
Qed.

Lemma block_text_lines_in_line_order_witness :
  exists (resp : gmap string pyval) (w' : World)
         (entries : list (gmap string pyval)) (entry : gmap string pyval)
         (texts : list pystr),
    run_ocr_detection Sample.env0 (tmp_file_name Sample.env0)
      (Some (tmp_file_name Sample.env0))
      (uploaded Sample.env0 Sample.upload
         (snd (initialize_models Sample.env0 Sample.w0)))
    = (inr resp, w') /\
    ocr_inputs w'
    = [FromArray (CvtColor COLOR_BGR2RGB
         (Rotate ROTATE_90_CLOCKWISE (Region Sample.page Sample.blkA 0 24)));
       FromArray (CvtColor COLOR_BGR2RGB
         (Rotate ROTATE_90_CLOCKWISE (Region Sample.page Sample.blkA 1 24)));
       FromArray (CvtColor COLOR_BGR2RGB (Region Sample.page Sample.blkC 0 20))] /\
    resp !! "textBlocks"%string = Some (VList (VDict <$> entries)) /\
    entries !! 0 = Some entry /\
    entry !! "text_lines"%string = Some (VList (VStr <$> texts)) /\
    texts !! 0 = Some [12354; 12356]%N /\
    texts !! 1 = Some [].
Proof.
  destruct sample_page_detected as (resp & w' & Hrun).
  destruct (block_text_lines_in_line_order Sample.env0 _ _ _ _ _ Hrun)
    as (c & entries & called & Hall). cbn zeta in Hall.
  destruct Hall as (Hfile & Htb & _ & Hocr & _ & Hall & Hblk).
  assert (Hc : c = Sample.page).
  { unfold uploaded in Hfile. cbn [fs set_fs] in Hfile.
    rewrite lookup_insert_eq in Hfile. by injection Hfile as <-. }
  subst c.
  destruct (Hblk 0 Sample.blkA eq_refl) as (entry & texts & Hk & Htl & _ & _ & _ & Hline).
  exists resp, w', entries, entry, texts.
  split; [exact Hrun|].
  split; [rewrite Hocr, Hall; [reflexivity | intros blk i call _ _; apply sample_prep_quiet]|].
  split; [exact Htb|]. split; [exact Hk|]. split; [exact Htl|]. split.
  - destruct (Hline 0) as [H0 _]; [cbn; lia|]. apply H0.
    intros call Hcall. vm_compute in Hcall.
    repeat (apply elem_of_cons in Hcall as [-> | Hcall]; [reflexivity|]).
    apply elem_of_nil in Hcall. destruct Hcall.
  - destruct (Hline 1) as [_ H1]; [cbn; lia|]. apply H1.
    exists (manga_ocr_call (line_image Sample.page Sample.blkA 1)).
    split; [unfold line_calls; apply elem_of_app; right; apply list_elem_of_here|].
    vm_compute. discriminate.
Defined.

(** C3: in a call of [run_ocr_detection] that returns, every image given to
    the OCR model is the crop of a line of a detected block, turned by 90
    degrees clockwise when the block is vertical and not turned when it is
    not (and then converted to an RGB PIL image); and every line for which
    cropping, turning and converting do not raise is given to the OCR model
    in this form. *)
Theorem vertical_line_rotated_before_ocr (env : Env) (image_path : pystr)
    (base : option pystr) (w w' : World) (resp : gmap string pyval)
    (Hrun : run_ocr_detection env image_path base w = (inr resp, w')) :
  exists c called,
    fs w !! image_path = Some (ImageFile c) /\
    ocr_inputs w' = ocr_inputs w ++ called /\
    (forall given, given ∈ called ->
       exists blk i,
         blk ∈ detect env c /\ i < length (lines blk) /\
         let crop := Region c blk i (font_size_or_20 blk) in
         given = FromArray (CvtColor COLOR_BGR2RGB
                   (if vertical blk then Rotate ROTATE_90_CLOCKWISE crop else crop))) /\
    (forall blk i, blk ∈ detect env c -> i < length (lines blk) ->
       let crop := Region c blk i (font_size_or_20 blk) in
       let turned := if vertical blk then Rotate ROTATE_90_CLOCKWISE crop else crop in
       raises env (get_transformed_region c blk i (font_size_or_20 blk)) = None ->
       (vertical blk = true ->
        raises env (cv2_rotate crop ROTATE_90_CLOCKWISE) = None) ->
       raises env (cv2_cvtColor turned COLOR_BGR2RGB) = None ->
       raises env (Image_fromarray (CvtColor COLOR_BGR2RGB turned)) = None ->
       FromArray (CvtColor COLOR_BGR2RGB turned) ∈ called).
Proof.
  destruct (run_ocr_detection_returns env _ _ _ _ _ Hrun)
    as (c & res & dbg & Hfile & _ & Hocr).
  exists c, (page_ocr_inputs env c).
  split; [exact Hfile|]. split; [exact Hocr|]. split.
  - intros given Hin.
    pose proof (blocks_ocr_inputs_sublist env c (detect env c)) as Hsub.
    apply (elem_of_sublist _ _ _ Hin) in Hsub. unfold lines_images in Hsub.
    apply elem_of_concat in Hsub as (l & Hl & Hgiven).
    apply list_elem_of_fmap in Hl as (blk & -> & Hblk).
    apply list_elem_of_fmap in Hgiven as (i & -> & Hi).
    apply elem_of_seq in Hi. exists blk, i. split; [done|]. split; [lia|]. reflexivity.
  - intros blk i Hblk Hi crop turned H1 H2 H3 H4.
    unfold page_ocr_inputs. apply elem_of_concat.
    exists (block_ocr_inputs env c blk). split; [by apply list_elem_of_fmap_2|].
    unfold block_ocr_inputs, line_indices. apply list_elem_of_omap.
    exists i. split; [apply elem_of_seq; lia|].
    unfold line_ocr_input. rewrite (prepare_line_quiet env c).
    + reflexivity.
    + intros call Hcall. unfold line_prep_calls in Hcall.
      fold crop in Hcall. unfold line_turned, line_crop in Hcall.
      fold crop in Hcall. fold turned in Hcall.
      destruct (vertical blk) eqn:Hv.
      * cbn [app] in Hcall.
        repeat (apply elem_of_cons in Hcall as [-> | Hcall]; [by auto|]).
        apply elem_of_nil in Hcall. destruct Hcall.
      * cbn [app] in Hcall.
        repeat (apply elem_of_cons in Hcall as [-> | Hcall]; [by auto|]).
        apply elem_of_nil in Hcall. destruct Hcall.
Qed.

Lemma vertical_line_rotated_before_ocr_witness :
  exists resp w' called,
    run_ocr_detection Sample.env0 (tmp_file_name Sample.env0)
      (Some (tmp_file_name Sample.env0))
      (uploaded Sample.env0 Sample.upload
         (snd (initialize_models Sample.env0 Sample.w0)))
    = (inr resp, w') /\
    ocr_inputs w' = called /\
    FromArray (CvtColor COLOR_BGR2RGB
      (Rotate ROTATE_90_CLOCKWISE (Region Sample.page Sample.blkA 0 24))) ∈ called /\
    FromArray (CvtColor COLOR_BGR2RGB (Region Sample.page Sample.blkC 0 20)) ∈ called.
Proof.
  destruct sample_page_detected as (resp & w' & Hrun).
  destruct (vertical_line_rotated_before_ocr Sample.env0 _ _ _ _ _ Hrun)
    as (c & called & Hfile & Hocr & _ & Hgiven).
  assert (Hc : c = Sample.page).
  { unfold uploaded in Hfile. cbn [fs set_fs] in Hfile.
    rewrite lookup_insert_eq in Hfile. by injection Hfile as <-. }
  subst c.
  exists resp, w', called. split; [exact Hrun|]. split; [exact Hocr|]. split.
  - assert (Hin : Sample.blkA ∈ detect Sample.env0 Sample.page)
      by apply list_elem_of_here.
    assert (Hlt : 0 < length (lines Sample.blkA)) by (cbn [Sample.blkA lines length]; lia).
    exact (Hgiven Sample.blkA 0 Hin Hlt eq_refl (fun _ => eq_refl) eq_refl eq_refl).
  - assert (Hin : Sample.blkC ∈ detect Sample.env0 Sample.page)
      by (do 2 apply list_elem_of_further; apply list_elem_of_here).
    assert (Hlt : 0 < length (lines Sample.blkC)) by (cbn [Sample.blkC lines length]; lia).
    exact (Hgiven Sample.blkC 0 Hin Hlt eq_refl (fun _ => eq_refl) eq_refl eq_refl).
Defined.

(** ** The response of /ocr/detect *)

Lemma page_results_entry (env : Env) (c : Image) (k : nat) (blk : TextBlock) :
  detect env c !! k = Some blk ->
  (VDict <$> page_results env c) !! k = Some (VDict (block_result env c blk)).
Proof.
  intros Hk. unfold page_results. by rewrite !list_lookup_fmap, Hk.
Qed.

(** C4: the response of a successful /ocr/detect has one entry of
    ["textBlocks"] for each block the detector returned, in the order of the
    detector; the entry of a block carries its box, its orientation as the
    boolean ["vertical"], its ["font_size"] ([None], that is null, when the
    detector gave none), the number of its lines and its text; and
    ["imageSize"] carries the width and the height of the uploaded image. *)
Theorem detect_response_one_entry_per_block (env : Env) (file : UploadFile)
    (original_path : option pystr) (w w' : World) (resp : gmap string pyval)
    (Hrun : detect_text env file original_path w = (inr resp, w')) :
  exists c entries size,
    content file = ImageFile c /\
    resp !! "textBlocks"%string = Some (VList entries) /\
    length entries = length (detect env c) /\
    (forall k blk, detect env c !! k = Some blk ->
       exists entry x1 y1 x2 y2,
         entries !! k = Some (VDict entry) /\
         int_box (calculate_tight_bbox_from_lines blk) = (x1, y1, x2, y2) /\
         entry !! "bbox"%string = Some (VList [VInt x1; VInt y1; VInt x2; VInt y2]) /\
         entry !! "vertical"%string = Some (VBool (vertical blk)) /\
         entry !! "font_size"%string
           = Some (match font_size blk with Some f => VFloat f | None => VNone end) /\
         entry !! "lines"%string = Some (VInt (Z.of_nat (length (lines blk)))) /\
         entry !! "text"%string = Some (VStr (concat (block_texts env c blk)))) /\
    resp !! "imageSize"%string = Some (VDict size) /\
    size !! "width"%string = Some (VInt (snd (shape env c))) /\
    size !! "height"%string = Some (VInt (fst (shape env c))).
Proof.
  destruct (detect_text_facts env _ _ _ _ _ Hrun)
    as (c & res & dbg & ws & Hc & _ & _ & -> & _).
  destruct (response_lookup env (page_results env c) (snd (shape env c))
              (fst (shape env c)) dbg res) as (_ & Hblocks & Hsize & _).
  eexists c, _, _. split_and!; [done | exact Hblocks | | | exact Hsize | done | done].
  - unfold page_results. by rewrite !length_fmap.
  - intros k blk Hk.
    destruct (int_box (calculate_tight_bbox_from_lines blk)) as [[[x1 y1] x2] y2] eqn:Hbox.
    exists (block_result env c blk), x1, y1, x2, y2.
    split; [by apply page_results_entry|]. split; [done|].
    unfold block_result. rewrite Hbox.
    destruct (result_blk_lookup blk x1 y1 x2 y2 (block_texts env c blk))
      as (? & _ & _ & ? & ? & ? & _ & ? & _).
    by split_and!.
Qed.

Lemma detect_response_one_entry_per_block_witness :
  exists resp w' entries,
    detect_text Sample.env0 Sample.upload None Sample.w0 = (inr resp, w') /\
    resp !! "textBlocks"%string = Some (VList entries) /\
    length entries = 3.
Proof.
  destruct sample_request_served as (resp & w' & Hrun).
  destruct (detect_response_one_entry_per_block Sample.env0 Sample.upload None
              Sample.w0 w' resp Hrun)
    as (c & entries & size & Hc & Hblocks & Hlen & _).
  exists resp, w', entries. split_and!; [exact Hrun | exact Hblocks | exact Hlen].
Defined.

(** C10: in every entry of ["textBlocks"], ["width"] is [bbox[2] - bbox[0]]
    and ["height"] is [bbox[3] - bbox[1]], neither is negative when the
    block has a point in its line polygons, and ["confidence"] is 1.0. *)
Theorem entry_width_height_confidence (env : Env) (file : UploadFile)
    (original_path : option pystr) (w w' : World) (resp : gmap string pyval)
    (Hrun : detect_text env file original_path w = (inr resp, w')) :
  exists c entries,
    content file = ImageFile c /\
    resp !! "textBlocks"%string = Some (VList entries) /\
    length entries = length (detect env c) /\
    forall k blk, detect env c !! k = Some blk ->
      exists entry x1 y1 x2 y2,
        entries !! k = Some (VDict entry) /\
        entry !! "bbox"%string = Some (VList [VInt x1; VInt y1; VInt x2; VInt y2]) /\
        entry !! "width"%string = Some (VInt (x2 - x1)) /\
        entry !! "height"%string = Some (VInt (y2 - y1)) /\
        entry !! "confidence"%string = Some (VFloat 1) /\
        (concat (lines blk) <> [] -> (0 <= x2 - x1)%Z /\ (0 <= y2 - y1)%Z).
Proof.
  destruct (detect_text_facts env _ _ _ _ _ Hrun)
    as (c & res & dbg & ws & Hc & _ & _ & -> & _).
  destruct (response_lookup env (page_results env c) (snd (shape env c))
              (fst (shape env c)) dbg res) as (_ & Hblocks & _).
  eexists c, _. split_and!; [done | exact Hblocks | |].
  - unfold page_results. by rewrite !length_fmap.
  - intros k blk Hk.
    destruct (int_box (calculate_tight_bbox_from_lines blk)) as [[[x1 y1] x2] y2] eqn:Hbox.
    exists (block_result env c blk), x1, y1, x2, y2.
    split; [by apply page_results_entry|].
    unfold block_result. rewrite Hbox.
    destruct (result_blk_lookup blk x1 y1 x2 y2 (block_texts env c blk))
      as (? & ? & ? & _ & _ & _ & ? & _).
    split_and!; try done.
    intros Hpts. destruct (concat (lines blk)) as [|p rest] eqn:Hcat; [done|].
    rewrite (tight_bbox_points blk p rest Hcat) in Hbox.
    cbn [int_box] in Hbox. injection Hbox as <- <- <- <-.
    pose proof (py_int_mono _ _ (np_min_le_np_max (fst p) (List.map fst rest))).
    pose proof (py_int_mono _ _ (np_min_le_np_max (snd p) (List.map snd rest))).
    lia.
Qed.

Lemma entry_width_height_confidence_witness :
  exists resp w' entries,
    detect_text Sample.env0 Sample.upload None Sample.w0 = (inr resp, w') /\
    resp !! "textBlocks"%string = Some (VList entries) /\
    length entries = 3.
Proof.
  destruct sample_request_served as (resp & w' & Hrun).
  destruct (entry_width_height_confidence Sample.env0 Sample.upload None
              Sample.w0 w' resp Hrun)
    as (c & entries & Hc & Hblocks & Hlen & _).
  exists resp, w', entries. split_and!; [exact Hrun | exact Hblocks | exact Hlen].
Defined.

(** ** A line that fails *)

(** C9: when the crop or the OCR of line [i] of block [k] raises [e], the
    request is served all the same: every block has its entry, the entry of
    block [k] has a text for every line, the text of line [i] is the empty
    string (so it adds nothing to ["text"]), every other line has the text
    it would have had, and a note on the failure is in the debug info. *)
Theorem failed_line_yields_empty_text (env : Env) (file : UploadFile)
    (original_path : option pystr) (w w0 : World) (c : Image)
    (k : nat) (blk : TextBlock) (i : nat) (e : Exn)
    (Hinit : initialize_models env w = (inr tt, w0))
    (Himg : not_an_image file = false)
    (Hc : content file = ImageFile c)
    (Hdet : raises env (text_detector_call c) = None)
    (Hblk : detect env c !! k = Some blk)
    (Hi : i < length (lines blk))
    (Hfail : line_result env c blk i = inl e) :
  exists resp w' entries entry texts notes,
    detect_text env file original_path w = (inr resp, w') /\
    resp !! "textBlocks"%string = Some (VList entries) /\
    length entries = length (detect env c) /\
    entries !! k = Some (VDict entry) /\
    entry !! "text_lines"%string = Some (VList (VStr <$> texts)) /\
    length texts = length (lines blk) /\
    texts !! i = Some [] /\
    (forall j, j < length (lines blk) -> texts !! j = Some (line_text env c blk j)) /\
    entry !! "text"%string = Some (VStr (concat texts)) /\
    resp !! "debug"%string = Some (VList notes) /\
    VStr (fstring env (MsgLineFailed i (k + 1) e)) ∈ notes.
Proof.
  destruct (detect_text_served env file original_path w w0 c Hinit Himg Hc Hdet)
    as (res & dbg & w2 & _ & Hrun).
  remember (response_of _ _ _ _ dbg res) as resp eqn:Hresp0. clear Hresp0.
  destruct (detect_text_facts env _ _ _ _ _ Hrun)
    as (c' & res' & dbg' & ws & Hc' & _ & _ & -> & (extra & Hdbg) & _).
  rewrite Hc in Hc'. injection Hc' as <-.
  destruct (response_lookup env (page_results env c) (snd (shape env c))
              (fst (shape env c)) dbg' res') as (_ & Hblocks & _ & Hnotes & _).
  assert (Htexts : forall j, j < length (lines blk) ->
                     block_texts env c blk !! j = Some (line_text env c blk j)).
  { intros j Hj. unfold block_texts, line_indices.
    by rewrite list_lookup_fmap, lookup_seq_lt. }
  eexists _, _, _, (block_result env c blk), (block_texts env c blk), _.
  split; [exact Hrun|]. split; [exact Hblocks|].
  unfold block_result. destruct (int_box _) as [[[x1 y1] x2] y2] eqn:Hbox.
  destruct (result_blk_lookup blk x1 y1 x2 y2 (block_texts env c blk))
    as (_ & _ & _ & _ & _ & _ & _ & Htext & Htl).
  split_and!; try done.
  - unfold page_results. by rewrite !length_fmap.
  - rewrite (page_results_entry env c k blk Hblk). unfold block_result. by rewrite Hbox.
  - unfold block_texts, line_indices. by rewrite length_fmap, length_seq.
  - rewrite Htexts by done. unfold line_text. by rewrite Hfail.
  - apply (list_elem_of_fmap_2 (fun m => VStr (fstring env m))). rewrite Hdbg. apply elem_of_app. left.
    unfold page_debug_info. apply elem_of_app. left.
    apply list_elem_of_further.
    eapply blocks_notes_elem; [exact Hblk|].
    by apply line_note_elem.
Qed.

Lemma failed_line_yields_empty_text_witness :
  exists resp w' (entries : list pyval) entry (texts : list pystr),
    detect_text Sample.env0 Sample.upload None Sample.w0 = (inr resp, w') /\
    entries !! 0 = Some (VDict entry) /\
    entry !! "text_lines"%string = Some (VList (VStr <$> texts)) /\
    length texts = 2 /\
    texts !! 1 = Some [].
Proof.
  destruct (failed_line_yields_empty_text Sample.env0 Sample.upload None Sample.w0
              (snd (initialize_models Sample.env0 Sample.w0)) Sample.page
              0 Sample.blkA 1 (Error (lit "ocr")))
    as (resp & w' & entries & entry & texts & notes & Hrun & _ & _ & Hk & Htl
        & Hlen & Hi & _); try reflexivity.
  - simpl. lia.
  - exists resp, w', entries, entry, texts.
    split_and!; [exact Hrun | exact Hk | exact Htl | exact Hlen | exact Hi].
Defined.

(** ** The debug image *)

Section FlagOff.

Variable env : Env.

(** Nothing before the debug stage looks at the debug flag. *)
Lemma page_results_with_flag (b : bool) (c : Image) :
  page_results (with_flag b env) c = page_results env c.
Proof. reflexivity. Qed.

Lemma initialize_models_with_flag (b : bool) (w : World) :
  initialize_models (with_flag b env) w = initialize_models env w.
Proof. reflexivity. Qed.

Lemma detect_text_served_iff (file : UploadFile) (original_path : option pystr)
    (w : World) :
  (exists resp w', detect_text env file original_path w = (inr resp, w')) <->
  (exists w0 c,
     initialize_models env w = (inr tt, w0) /\ not_an_image file = false /\
     content file = ImageFile c /\ raises env (text_detector_call c) = None).
Proof.
  split.
  - intros (resp & w' & Hrun). by eapply detect_text_inr.
  - intros (w0 & c & Hinit & Himg & Hc & Hdet).
    destruct (detect_text_served env file original_path w w0 c Hinit Himg Hc Hdet)
      as (res & dbg & w2 & _ & Hrun).
    eauto.
Qed.

End FlagOff.

Lemma detect_text_served_with_flag (env : Env) (b : bool) (file : UploadFile)
    (original_path : option pystr) (w : World) :
  (exists resp w', detect_text (with_flag b env) file original_path w = (inr resp, w'))
  <-> (exists resp w', detect_text env file original_path w = (inr resp, w')).
Proof.
  rewrite (detect_text_served_iff (with_flag b env)), (detect_text_served_iff env).
  reflexivity.
Qed.

(** C5: a served request carries ["debugImagePath"] exactly when the flag
    [GENERATE_DEBUG_IMAGES] is on and the debug image was written with
    success during the request, and the field then holds the path written.
    With the flag off nothing is written and no buffer besides the page is
    made.  Whether the request is served does not depend on the debug stage:
    it is served just when it is served with the flag off, with the same
    ["textBlocks"], so a failure to draw or to save the debug image only
    leaves the field out. *)
Theorem debug_image_path_iff_saved (env : Env) (file : UploadFile)
    (original_path : option pystr) (w : World)
    (Hserved :
       (exists resp w', detect_text env file original_path w = (inr resp, w')) \/
       (exists resp w',
          detect_text (with_flag false env) file original_path w = (inr resp, w'))) :
  exists resp w',
    detect_text env file original_path w = (inr resp, w') /\
    (is_Some (resp !! "debugImagePath"%string) <->
       GENERATE_DEBUG_IMAGES env = true /\
       exists p f, imwrites w' = imwrites w ++ [(p, f, true)]) /\
    (forall v, resp !! "debugImagePath"%string = Some v ->
       exists p f, v = VStr p /\ imwrites w' = imwrites w ++ [(p, f, true)]) /\
    (GENERATE_DEBUG_IMAGES env = false ->
       imwrites w' = imwrites w /\ length (heap w') = S (length (heap w))) /\
    exists resp_off w_off,
      detect_text (with_flag false env) file original_path w = (inr resp_off, w_off) /\
      resp_off !! "textBlocks"%string = resp !! "textBlocks"%string /\
      resp_off !! "debugImagePath"%string = None /\
      imwrites w_off = imwrites w.
Proof.
  assert (Hon : exists resp w', detect_text env file original_path w = (inr resp, w')).
  { destruct Hserved as [H | H]; [done | by apply detect_text_served_with_flag in H]. }
  assert (Hoff : exists resp w',
             detect_text (with_flag false env) file original_path w = (inr resp, w')).
  { by apply detect_text_served_with_flag. }
  clear Hserved. destruct Hon as (resp & w' & Hrun), Hoff as (resp_off & w_off & Hrun_off).
  exists resp, w'. split; [exact Hrun|].
  destruct (detect_text_facts env _ _ _ _ _ Hrun)
    as (c & res & dbg & ws & Hc & _ & _ & -> & _ & _ & Hws & _ & _ & Hflag & Hres).
  destruct (response_lookup env (page_results env c) (snd (shape env c))
              (fst (shape env c)) dbg res) as (_ & Hblocks & _ & _ & Hpath).
  rewrite Hpath.
  assert (Hone : forall (x y : pystr * Image * bool),
            imwrites w ++ ws = imwrites w ++ [x] -> ws = [y] -> x = y).
  { intros x y Heq ->. apply app_inv_head in Heq. congruence. }
  split_and!.
  - destruct res as [p|].
    + destruct Hres as (Hon & -> & f & -> & _). split; [|by eexists].
      intros _. split; [done|]. by exists p, f.
    + split; [by intros [? ?]|]. intros (_ & p & f & Heq). exfalso.
      rewrite Hws in Heq. destruct Hres as [-> | (p' & f' & Hw & _)].
      * apply app_inv_head in Heq. discriminate.
      * by pose proof (Hone _ _ Heq Hw).
  - intros v Hv. destruct res as [p|]; [|discriminate].
    destruct Hres as (_ & Htruthy & f & -> & _). rewrite Htruthy in Hv.
    injection Hv as <-. by exists p, f.
  - intros Hfalse. destruct (Hflag Hfalse) as (_ & -> & ->).
    rewrite Hws, app_nil_r, length_app. split; [done | simpl; lia].
  - exists resp_off, w_off. split; [exact Hrun_off|].
    destruct (detect_text_facts (with_flag false env) _ _ _ _ _ Hrun_off)
      as (c' & res' & dbg' & ws' & Hc' & _ & _ & -> & _ & _ & Hws' & _ & _ & Hflag' & _).
    rewrite Hc in Hc'. injection Hc' as <-.
    destruct (Hflag' eq_refl) as (-> & -> & _).
    destruct (response_lookup (with_flag false env) (page_results (with_flag false env) c)
                (snd (shape (with_flag false env) c))
                (fst (shape (with_flag false env) c)) dbg' None)
      as (_ & Hblocks' & _ & _ & Hpath').
    split_and!; [| exact Hpath' | by rewrite Hws', app_nil_r].
    rewrite Hblocks, Hblocks'. by rewrite page_results_with_flag.
Qed.

Lemma debug_image_path_iff_saved_witness :
  (exists resp w',
     detect_text Sample.env0 Sample.upload None Sample.w0 = (inr resp, w') /\
     (is_Some (resp !! "debugImagePath"%string) <->
        GENERATE_DEBUG_IMAGES Sample.env0 = true /\
        exists p f, imwrites w' = imwrites Sample.w0 ++ [(p, f, true)])) /\
  (exists resp w',
     detect_text (with_flag false Sample.env0) Sample.upload None Sample.w0
       = (inr resp, w') /\
     imwrites w' = imwrites Sample.w0 /\ length (heap w') = 1).
Proof.
  split.
  - destruct (debug_image_path_iff_saved Sample.env0 Sample.upload None Sample.w0)
      as (resp & w' & Hrun & Hiff & _).
    + left. exact sample_request_served.
    + exists resp, w'. split; [exact Hrun | exact Hiff].
  - destruct (debug_image_path_iff_saved (with_flag false Sample.env0)
                Sample.upload None Sample.w0)
      as (resp & w' & Hrun & _ & _ & Hoff & _).
    + left. apply detect_text_served_with_flag. exact sample_request_served.
    + exists resp, w'. split; [exact Hrun|]. apply Hoff. reflexivity.
Defined.

(** C6: the debug image is drawn on a copy.  After [run_ocr_detection] the
    buffer of the loaded page still holds the page as read from the file,
    and so does every buffer that existed before.  With debug images
    enabled, and when none of the library calls that draw and save raises,
    one image is written, at the debug path; nothing is written with debug
    images disabled.  Any image written shows the picture of the page with,
    added on top and in this order for each detected block [i] (from 0): the
    rectangle of the tight box, the label [i+1], the text label (a
    background box and the text of the block as in the response, cut to 30
    characters plus ["..."] when longer; nothing when the text is empty),
    and the outline of each line polygon, whose coordinates are cut to
    integers (and are as the platform converts them when they do not fit in
    32 bits). *)
Theorem debug_image_annotates_a_copy (env : Env) (image_path : pystr)
    (base : option pystr) (w w' : World) (resp : gmap string pyval)
    (Hrun : run_ocr_detection env image_path base w = (inr resp, w')) :
  exists c ws entries,
    fs w !! image_path = Some (ImageFile c) /\
    heap w' !! length (heap w) = Some c /\
    (forall l, l < length (heap w) -> heap w' !! l = heap w !! l) /\
    imwrites w' = imwrites w ++ ws /\
    (GENERATE_DEBUG_IMAGES env = true ->
     (forall call, debug_call call = true -> raises env call = None) ->
     let p := debug_path_of env (or_else base image_path) in
     exists f, ws = [(p, f, imwrite_result env p f)]) /\
    (GENERATE_DEBUG_IMAGES env = false -> ws = []) /\
    (forall p f ok, (p, f, ok) ∈ ws ->
       underlying f = underlying c /\ swapped f = swapped c /\
       overlays f = overlays c ++ blocks_overlays env c 0 (detect env c)) /\
    resp !! "textBlocks"%string = Some (VList (VDict <$> entries)) /\
    (forall k blk, detect env c !! k = Some blk ->
       exists entry,
         entries !! k = Some entry /\
         entry !! "text"%string = Some (VStr (concat (block_texts env c blk)))) /\
    (forall i blk blks,
       blocks_overlays env c i (blk :: blks)
       = block_overlays env i blk (concat (block_texts env c blk))
         ++ blocks_overlays env c (S i) blks) /\
    (forall i, blocks_overlays env c i [] = []) /\
    (forall i blk text x1 y1 x2 y2,
       int_box (calculate_tight_bbox_from_lines blk) = (x1, y1, x2, y2) ->
       block_overlays env i blk text
       = [Rectangle [x1; y1; x2; y2] (Some [0; 255; 0]%Z) None 3;
          DrawText (x1, Z.max (y1 - 25) 5) (decimal (i + 1)) [0; 255; 0]%Z]
         ++ text_overlays env x1 y1 y2 text
         ++ ((fun line =>
                Polylines
                  [List.map (fun q => (to_int32 env (fst q), to_int32 env (snd q))) line]
                  true [255; 165; 0]%Z 2) <$> lines blk)) /\
    (forall x, (-2147483648 <= py_int x <= 2147483647)%Z -> to_int32 env x = py_int x) /\
    (forall x1 y1 y2, text_overlays env x1 y1 y2 [] = []) /\
    (forall x1 y1 y2 text, text <> [] ->
       let text_y := if Z.ltb 50 y1 then (y1 - 50)%Z else (y2 + 10)%Z in
       let '(b0, b1, b2, b3) := textbbox env (x1, text_y) (display_text_of text) in
       text_overlays env x1 y1 y2 text
       = [Rectangle [b0 - 2; b1 - 2; b2 + 2; b3 + 2]%Z None
            (Some [255; 255; 255; 200]%Z) 1;
          DrawText (x1, text_y) (display_text_of text) [255; 0; 0]%Z]) /\
    (forall text, length text <= 30 -> display_text_of text = text) /\
    (forall text, 30 < length text ->
       display_text_of text = take 30 text ++ [46; 46; 46]%N).
Proof.
  destruct (run_ocr_detection_inr env _ _ _ _ _ Hrun) as (Htd & Hmo & c & Hfile & Hdet).
  rewrite (run_ocr_detection_eq env _ _ c) in Hrun by done.
  pose proof (debug_stage_outcome env c (or_else base image_path) w) as Hout.
  pose proof (debug_stage_writes env c (or_else base image_path) w) as Hwrites.
  pose proof (debug_stage_off env c (or_else base image_path) w) as Hoff.
  destruct (debug_stage _ _ _ _) as [[e | dbg] w2]; [discriminate|].
  injection Hrun as <- <-.
  destruct Hout as (_ & _ & _ & _ & Hlen & Hkeep & res & dbg' & ws & _ & Hws & _ & Hres).
  unfold after_ocr in Hlen, Hkeep, Hws.
  cbn [fst snd heap imwrites set_heap set_ocr_inputs] in Hlen, Hkeep, Hws, Hwrites.
  exists c, ws, (page_results env c).
  split; [exact Hfile|]. split.
  { rewrite Hkeep by (rewrite length_app; simpl; lia). by apply list_lookup_middle. }
  split.
  { intros l Hl. rewrite Hkeep by (rewrite length_app; simpl; lia).
    by apply lookup_app_l. }
  split; [exact Hws|]. split.
  { intros Hflag Hquiet p. destruct (Hwrites Hquiet Hflag) as (f & Hf).
    exists f. rewrite Hws in Hf. by apply app_inv_head in Hf. }
  split.
  { intros Hflag. specialize (Hoff Hflag). injection Hoff as _ Hw2.
    rewrite Hw2 in Hws. unfold after_ocr in Hws.
    cbn [imwrites set_heap set_ocr_inputs] in Hws.
    rewrite <- (app_nil_r (imwrites w)) in Hws at 1. by apply app_inv_head in Hws. }
  split.
  { intros p f ok Hin.
    assert (Ha : annotated false c (page_overlays env c) f).
    { destruct res as [p'|].
      - destruct Hres as (_ & f' & -> & Ha).
        apply list_elem_of_singleton in Hin. congruence.
      - destruct Hres as [-> | (f' & -> & Ha)];
          [apply elem_of_nil in Hin; destruct Hin|].
        apply list_elem_of_singleton in Hin. congruence. }
    destruct Ha as (Hu & Hs & Ho). split_and!; [done | | done].
    rewrite Hs. by destruct (swapped c). }
  split; [apply response_lookup|]. split.
  { intros k blk Hk. exists (block_result env c blk).
    split; [unfold page_results; by rewrite list_lookup_fmap, Hk|].
    unfold block_result. destruct (int_box _) as [[[x1 y1] x2] y2].
    apply result_blk_lookup. }
  split; [done|]. split; [done|]. split.
  { intros i blk text x1 y1 x2 y2 Hbox. unfold block_overlays. by rewrite Hbox. }
  split; [apply to_int32_in_range|]. split; [done|]. split.
  { intros x1 y1 y2 text Htext. cbn zeta. unfold text_overlays.
    destruct text as [|a text]; [done|]. cbn [truthy].
    by destruct (textbbox env _ _) as [[[b0 b1] b2] b3]. }
  split.
  - intros text Hle. unfold display_text_of.
    by rewrite (proj2 (Nat.ltb_ge 30 (length text))).
  - intros text Hlt. unfold display_text_of.
    by rewrite (proj2 (Nat.ltb_lt 30 (length text))).
Qed.


Lemma debug_image_annotates_a_copy_witness :
  exists resp w' f,
    run_ocr_detection Sample.env0 (tmp_file_name Sample.env0)
      (Some (tmp_file_name Sample.env0))
      (uploaded Sample.env0 Sample.upload
         (snd (initialize_models Sample.env0 Sample.w0)))
    = (inr resp, w') /\
    heap w' !! 0 = Some Sample.page /\
    imwrites w' = [(lit "/data/page_debug.jpg", f, true)] /\
    overlays f
    = [Rectangle [10; 20; 55; 90]%Z (Some [0; 255; 0]%Z) None 3;
       DrawText (10, 5)%Z (lit "1") [0; 255; 0]%Z;
       Rectangle [8; 98; 36; 126]%Z None (Some [255; 255; 255; 200]%Z) 1;
       DrawText (10, 100)%Z [12354; 12356]%N [255; 0; 0]%Z;
       Polylines [[(10, 20); (30, 20); (30, 80); (10, 80)]%Z] true [255; 165; 0]%Z 2;
       Polylines [[(40, 25); (55, 25); (55, 90); (40, 90)]%Z] true [255; 165; 0]%Z 2;
       Rectangle [5; 6; 70; 80]%Z (Some [0; 255; 0]%Z) None 3;
       DrawText (5, 5)%Z (lit "2") [0; 255; 0]%Z;
       Rectangle [-2; 1; 3; 4]%Z (Some [0; 255; 0]%Z) None 3;
       DrawText (-2, 5)%Z (lit "3") [0; 255; 0]%Z;
       Rectangle [-4; 12; 396; 40]%Z None (Some [255; 255; 255; 200]%Z) 1;
       DrawText (-2, 14)%Z (lit "abcdefghijklmnopqrstuvwxyz0123...") [255; 0; 0]%Z;
       Polylines [[(3, 4); (-2, 1)]%Z] true [255; 165; 0]%Z 2].
Proof.
  destruct sample_page_detected as (resp & w' & Hrun).
  destruct (debug_image_annotates_a_copy Sample.env0 _ _ _ _ _ Hrun)
    as (c & ws & entries & Hfile & Hheap & _ & Hws & Hwritten & _ & Hshown & _).
  assert (Hc : c = Sample.page).
  { unfold uploaded in Hfile. cbn [fs set_fs] in Hfile.
    rewrite lookup_insert_eq in Hfile. by injection Hfile as <-. }
  subst c.
  destruct (Hwritten eq_refl sample_debug_calls_quiet) as (f & Hf).
  exists resp, w', f. split; [exact Hrun|]. split; [exact Hheap|].
  split; [rewrite Hws, Hf; reflexivity|].
  destruct (Hshown _ f _ ltac:(rewrite Hf; apply list_elem_of_here)) as (_ & _ & Ho).
  rewrite Ho. vm_compute. reflexivity.
Defined.

(** ** The guard on initialisation *)

(** C7: [initialize_models] constructs a model only when one of the two
    slots is unset; with both set it returns at once and changes nothing;
    after a call that returned, both slots are set and stay as they are
    through any further call and through any request. *)
Theorem initialize_models_guarded_idempotent (env : Env) (w : World) :
  let r := initialize_models env w in
  (constructed (snd r) <> constructed w ->
     text_detector w = None \/ manga_ocr w = None) /\
  (text_detector w <> None -> manga_ocr w <> None -> r = (inr tt, w)) /\
  (fst r = inr tt ->
     text_detector (snd r) <> None /\ manga_ocr (snd r) <> None /\
     initialize_models env (snd r) = (inr tt, snd r) /\
     forall file original_path,
       let w' := snd (detect_text env file original_path (snd r)) in
       text_detector w' = text_detector (snd r) /\
       manga_ocr w' = manga_ocr (snd r) /\
       constructed w' = constructed (snd r)).
Proof.
  intros r. subst r. destruct (initialize_models env w) as [r w1] eqn:Hinit.
  cbn [fst snd]. split_and!.
  - by destruct (initialize_models_frame env _ _ _ Hinit) as (_ & _ & _ & _ & H).
  - intros Htd Hmo. by rewrite <- Hinit, initialize_models_ready.
  - intros ->. destruct (initialize_models_inr env _ _ Hinit) as [Htd Hmo].
    split_and!; [done | done | by apply initialize_models_ready |].
    intros file original_path.
    destruct (detect_text env file original_path w1) as [r' w'] eqn:Hreq.
    by eapply detect_text_models.
Qed.

Lemma initialize_models_guarded_idempotent_witness :
  (text_detector Sample.w0 = None \/ manga_ocr Sample.w0 = None) /\
  initialize_models Sample.env0 (snd (initialize_models Sample.env0 Sample.w0))
  = (inr tt, snd (initialize_models Sample.env0 Sample.w0)).
Proof.
  destruct (initialize_models_guarded_idempotent Sample.env0 Sample.w0)
    as (Hguard & _ & Hagain).
  split.
  - apply Hguard. discriminate.
  - destruct Hagain as (_ & _ & Hsame & _); [reflexivity | exact Hsame].
Defined.

(** * Further properties of the code *)

(** ** The tight box *)

Lemma np_min_subset_le (x : Q) (xs : list Q) (y : Q) (ys : list Q) :
  (forall z, z ∈ y :: ys -> z ∈ x :: xs) -> (np_min x xs <= np_min y ys)%Q.
Proof. intros Hsub. apply np_min_lower, Hsub, np_min_elem. Qed.

Lemma np_max_subset_le (x : Q) (xs : list Q) (y : Q) (ys : list Q) :
  (forall z, z ∈ y :: ys -> z ∈ x :: xs) -> (np_max y ys <= np_max x xs)%Q.
Proof. intros Hsub. apply np_max_upper, Hsub, np_max_elem. Qed.

(** X1: the tight box is the least rectangle around the line points: for a
    block with at least one line point it lies inside every rectangle that
    holds all of them.  The box of integers that goes into the response
    lies inside every such rectangle whose corners are whole numbers; with
    corners that are not, it need not, since [int()] cuts toward zero. *)
Theorem tight_bbox_inside_every_enclosing_box (blk : TextBlock) (p : point)
    (Hp : p ∈ concat (lines blk)) :
  exists x1 y1 x2 y2,
    calculate_tight_bbox_from_lines blk = (x1, y1, x2, y2) /\
    (forall a b c d : Q,
       (forall q, q ∈ concat (lines blk) ->
          (a <= fst q)%Q /\ (b <= snd q)%Q /\ (fst q <= c)%Q /\ (snd q <= d)%Q) ->
       (a <= x1)%Q /\ (b <= y1)%Q /\ (x2 <= c)%Q /\ (y2 <= d)%Q) /\
    (forall a b c d : Z,
       (forall q, q ∈ concat (lines blk) ->
          (inject_Z a <= fst q)%Q /\ (inject_Z b <= snd q)%Q /\
          (fst q <= inject_Z c)%Q /\ (snd q <= inject_Z d)%Q) ->
       int_box (calculate_tight_bbox_from_lines blk)
         = (py_int x1, py_int y1, py_int x2, py_int y2) /\
       (a <= py_int x1)%Z /\ (b <= py_int y1)%Z /\
       (py_int x2 <= c)%Z /\ (py_int y2 <= d)%Z).
Proof.
  destruct (concat (lines blk)) as [|p0 rest] eqn:Hpts;
    [apply elem_of_nil in Hp; destruct Hp|].
  assert (Hfst : forall x, x ∈ fst p0 :: List.map fst rest ->
                           exists q, q ∈ p0 :: rest /\ fst q = x).
  { intros x Hx. change (fst p0 :: List.map fst rest) with (fst <$> p0 :: rest) in Hx.
    apply list_elem_of_fmap in Hx as (q & -> & Hq). by exists q. }
  assert (Hsnd : forall y, y ∈ snd p0 :: List.map snd rest ->
                           exists q, q ∈ p0 :: rest /\ snd q = y).
  { intros y Hy. change (snd p0 :: List.map snd rest) with (snd <$> p0 :: rest) in Hy.
    apply list_elem_of_fmap in Hy as (q & -> & Hq). by exists q. }
  rewrite (tight_bbox_points blk p0 rest Hpts).
  destruct (Hfst _ (np_min_elem (fst p0) (List.map fst rest))) as (q1 & Hq1 & E1).
  destruct (Hsnd _ (np_min_elem (snd p0) (List.map snd rest))) as (q2 & Hq2 & E2).
  destruct (Hfst _ (np_max_elem (fst p0) (List.map fst rest))) as (q3 & Hq3 & E3).
  destruct (Hsnd _ (np_max_elem (snd p0) (List.map snd rest))) as (q4 & Hq4 & E4).
  assert (HQ : forall a b c d : Q,
            (forall q, q ∈ p0 :: rest ->
               (a <= fst q)%Q /\ (b <= snd q)%Q /\ (fst q <= c)%Q /\ (snd q <= d)%Q) ->
            (a <= np_min (fst p0) (List.map fst rest))%Q /\
            (b <= np_min (snd p0) (List.map snd rest))%Q /\
            (np_max (fst p0) (List.map fst rest) <= c)%Q /\
            (np_max (snd p0) (List.map snd rest) <= d)%Q).
  { intros a b c d Hbox. rewrite <- E1, <- E2, <- E3, <- E4.
    destruct (Hbox q1 Hq1) as (? & _), (Hbox q2 Hq2) as (_ & ? & _),
             (Hbox q3 Hq3) as (_ & _ & ? & _), (Hbox q4 Hq4) as (_ & _ & _ & ?).
    by split_and!. }
  eexists _, _, _, _. split; [reflexivity|]. split; [exact HQ|].
  intros a b c d Hbox. split; [reflexivity|].
  destruct (HQ _ _ _ _ Hbox) as (H1 & H2 & H3 & H4).
  apply py_int_mono in H1, H2, H3, H4. rewrite !py_int_inject_Z in *.
  by split_and!.
Qed.

Lemma tight_bbox_inside_every_enclosing_box_witness :
  exists x1 y1 x2 y2,
    calculate_tight_bbox_from_lines Sample.blkA = (x1, y1, x2, y2) /\
    (0 <= py_int x1)%Z /\ (0 <= py_int y1)%Z /\
    (py_int x2 <= 100)%Z /\ (py_int y2 <= 100)%Z.
Proof.
  assert (Hpts : forall q, q ∈ concat (lines Sample.blkA) ->
            (inject_Z 0 <= fst q)%Q /\ (inject_Z 0 <= snd q)%Q /\
            (fst q <= inject_Z 100)%Q /\ (snd q <= inject_Z 100)%Q).
  { intros q Hq. simpl in Hq.
    repeat (apply elem_of_cons in Hq as [-> | Hq];
            [vm_compute; repeat split; discriminate|]).
    apply elem_of_nil in Hq. destruct Hq. }
  assert (Hp : (10, 20)%Q ∈ concat (lines Sample.blkA))
    by (simpl; apply list_elem_of_here).
  destruct (tight_bbox_inside_every_enclosing_box Sample.blkA (10, 20)%Q Hp)
    as (x1 & y1 & x2 & y2 & Hbox & _ & Hint).
  exists x1, y1, x2, y2. split; [exact Hbox|].
  exact (proj2 (Hint 0 0 100 100 Hpts)%Z).
Defined.

(** X2: the box that goes into the response depends on the points of the
    line polygons only, not on how they are split into lines nor on their
    order. *)
Theorem reported_box_ignores_point_order (blk blk' : TextBlock) (p : point)
    (Hp : p ∈ concat (lines blk))
    (Hperm : concat (lines blk) ≡ₚ concat (lines blk')) :
  int_box (calculate_tight_bbox_from_lines blk)
  = int_box (calculate_tight_bbox_from_lines blk').
Proof.
  destruct (concat (lines blk)) as [|p0 rest] eqn:Hpts; [by apply elem_of_nil in Hp|].
  destruct (concat (lines blk')) as [|p0' rest'] eqn:Hpts'.
  { by apply Permutation_nil_r in Hperm. }
  rewrite (tight_bbox_points blk p0 rest Hpts), (tight_bbox_points blk' p0' rest' Hpts').
  assert (H1 : forall z, z ∈ fst p0' :: List.map fst rest' <-> z ∈ fst p0 :: List.map fst rest).
  { intros z. change (z ∈ fst <$> p0' :: rest' <-> z ∈ fst <$> p0 :: rest).
    by rewrite Hperm. }
  assert (H2 : forall z, z ∈ snd p0' :: List.map snd rest' <-> z ∈ snd p0 :: List.map snd rest).
  { intros z. change (z ∈ snd <$> p0' :: rest' <-> z ∈ snd <$> p0 :: rest).
    by rewrite Hperm. }
  cbn [int_box].
  assert (E1 : py_int (np_min (fst p0) (List.map fst rest))
               = py_int (np_min (fst p0') (List.map fst rest'))).
  { apply Z.le_antisymm; apply py_int_mono, np_min_subset_le; intros z; apply H1. }
  assert (E2 : py_int (np_min (snd p0) (List.map snd rest))
               = py_int (np_min (snd p0') (List.map snd rest'))).
  { apply Z.le_antisymm; apply py_int_mono, np_min_subset_le; intros z; apply H2. }
  assert (E3 : py_int (np_max (fst p0) (List.map fst rest))
               = py_int (np_max (fst p0') (List.map fst rest'))).
  { apply Z.le_antisymm; apply py_int_mono, np_max_subset_le; intros z; apply H1. }
  assert (E4 : py_int (np_max (snd p0) (List.map snd rest))
               = py_int (np_max (snd p0') (List.map snd rest'))).
  { apply Z.le_antisymm; apply py_int_mono, np_max_subset_le; intros z; apply H2. }
  by rewrite E1, E2, E3, E4.
Qed.

Lemma reported_box_ignores_point_order_witness :
  int_box (calculate_tight_bbox_from_lines Sample.blkC)
  = int_box (calculate_tight_bbox_from_lines
               {| xyxy := (0, 0, 0, 0)%Q;
                  lines := [[(-5 # 2, 1)]; [(7 # 2, 9 # 2)]]%Q;
                  vertical := true; font_size := None |}).
Proof.
  apply (reported_box_ignores_point_order Sample.blkC _ (7 # 2, 9 # 2)%Q).
  - simpl. apply list_elem_of_here.
  - simpl. apply Permutation_swap.
Defined.

(** ** Labels and paths of the debug image *)

Lemma display_text_bounds (text : pystr) :
  length (display_text_of text) <= 33 /\
  take 30 (display_text_of text) = take 30 text.
Proof.
  unfold display_text_of.
  destruct (Nat.ltb_spec 30 (length text)) as [H30 | H30].
  - split.
    + rewrite length_app, length_take. change (length (lit "...")) with 3. lia.
    + rewrite take_app_le by (rewrite length_take; lia). apply take_take.
  - split; [lia | done].
Qed.

Lemma text50_bounds (text : pystr) :
  length (text50 text) <= 53 /\ take 50 (text50 text) = take 50 text.
Proof.
  unfold text50. split.
  - rewrite length_app, length_take.
    destruct (Nat.ltb 50 (length text));
      [change (length (lit "...")) with 3 | change (length (@nil N)) with 0]; lia.
  - destruct (Nat.ltb_spec 50 (length text)) as [H50 | H50].
    + rewrite take_app_le by (rewrite length_take; lia). apply take_take.
    + by rewrite app_nil_r, take_take.
Qed.

(** X3: a text label of the debug image never has more than 33 characters,
    and the text quoted in a block note of the debug info never more than
    53; both start like the recognised text, up to 30 and 50 characters. *)
Theorem label_texts_are_bounded (text : pystr) :
  length (display_text_of text) <= 33 /\
  take 30 (display_text_of text) = take 30 text /\
  length (text50 text) <= 53 /\
  take 50 (text50 text) = take 50 text.
Proof.
  destruct (display_text_bounds text) as (? & ?).
  destruct (text50_bounds text) as (? & ?). by split_and!.
Qed.

Lemma path_join_prefix (parent : pystr) :
  exists pre, forall name, path_join parent name = pre ++ name.
Proof.
  unfold path_join. destruct (bool_decide (parent = lit ".")).
  - by exists [].
  - destruct (bool_decide (last parent = Some 47%N)).
    + by exists parent.
    + exists (parent ++ lit "/"). intros name. by rewrite <- app_assoc.
Qed.

(** X4: the debug image never goes over the original: for a path that is
    the join of its parent with its stem and suffix, as pathlib has it, the
    debug path is another path. *)
Theorem debug_image_spares_the_original (env : Env) (original_image_path : pystr)
    (Hpath : original_image_path
             = path_join (path_parent env original_image_path)
                 (path_stem env original_image_path
                    ++ path_suffix env original_image_path)) :
  debug_path_of env original_image_path <> original_image_path.
Proof.
  unfold debug_path_of. intros Heq. rewrite Hpath in Heq at 4.
  destruct (path_join_prefix (path_parent env original_image_path)) as (pre & Hpre).
  rewrite !Hpre in Heq. apply app_inv_head in Heq. apply app_inv_head in Heq.
  apply (f_equal length) in Heq. rewrite length_app in Heq. simpl in Heq. lia.
Qed.

Lemma debug_image_spares_the_original_witness :
  debug_path_of Sample.env0 (lit "/data/page.jpg") <> lit "/data/page.jpg".
Proof.
  apply (debug_image_spares_the_original Sample.env0 (lit "/data/page.jpg")).
  reflexivity.
Defined.

(** ** Loading the models *)

(** X5: the guard is all or nothing.  When one slot is unset and the loaders
    work, [initialize_models] constructs both models, a new text detector
    included even if one was held, and puts the two new models in the
    slots.  No image buffer is touched, and the files are as the loader of
    the OCR model, which may download the model, leaves them. *)
Theorem initialize_models_loads_both (env : Env) (w : World)
    (Hguard : text_detector w = None \/ manga_ocr w = None)
    (Hfile : model_path_exists env = true)
    (Hdet : raises env (TextDetector_new (device_of env)) = None)
    (Hocr : raises env MangaOcr_new = None) :
  let n := length (constructed w) in
  exists w',
    initialize_models env w = (inr tt, w') /\
    text_detector w' = Some (TextDetectorObj n (device_of env)) /\
    manga_ocr w' = Some (MangaOcrObj (S n)) /\
    constructed w'
      = constructed w ++ [TextDetectorObj n (device_of env); MangaOcrObj (S n)] /\
    heap w' = heap w /\ fs w' = manga_ocr_cache env (fs w).
Proof.
  intros n. unfold initialize_models.
  assert (Hg : bool_decide (text_detector w = None) || bool_decide (manga_ocr w = None)
               = true).
  { destruct Hguard as [H | H]; rewrite (bool_decide_eq_true_2 _ H);
      [done | by rewrite orb_true_r]. }
  rewrite Hg. unfold try_except, bind, construct_manga_ocr, bind, construct, raise.
  rewrite Hfile. cbn [negb].
  fold (device_of env). rewrite Hdet. cbn [constructed set_constructed set_text_detector].
  rewrite Hocr. eexists. split; [reflexivity|].
  cbn. rewrite length_app, <- app_assoc. cbn. subst n.
  replace (length (constructed w) + 1) with (S (length (constructed w))) by lia.
  by split_and!.
Qed.

Lemma initialize_models_loads_both_witness :
  exists w',
    initialize_models Sample.quiet Cases.half_loaded = (inr tt, w') /\
    text_detector w' = Some (TextDetectorObj 1 "cpu") /\
    constructed w'
      = [TextDetectorObj 0 "cpu"; TextDetectorObj 1 "cpu"; MangaOcrObj 2] /\
    fs w' = manga_ocr_cache Sample.quiet (fs Cases.half_loaded).
Proof.
  destruct (initialize_models_loads_both Sample.quiet Cases.half_loaded
              (or_intror eq_refl) eq_refl eq_refl eq_refl)
    as (w' & Hrun & Htd & _ & Hco & _ & Hfs).
  exists w'. split; [exact Hrun|]. split; [exact Htd|]. split; [exact Hco | exact Hfs].
Defined.

(** X6: while the OCR model cannot be loaded, a call of [initialize_models]
    raises the loader's exception, leaves the OCR slot unset and puts a newly
    constructed text detector in the other slot; and every request to
    /ocr/detect does just that: it raises this exception itself, before it
    looks at the upload, and writes no file. *)
Theorem failing_ocr_loader_reloads_detector (env : Env) (w : World) (e : Exn)
    (Hmo : manga_ocr w = None)
    (Hfile : model_path_exists env = true)
    (Hdet : raises env (TextDetector_new (device_of env)) = None)
    (Hocr : raises env MangaOcr_new = Some e) :
  let n := length (constructed w) in
  exists w',
    initialize_models env w = (inl e, w') /\
    text_detector w' = Some (TextDetectorObj n (device_of env)) /\
    manga_ocr w' = None /\
    constructed w' = constructed w ++ [TextDetectorObj n (device_of env)] /\
    fs w' = fs w /\
    forall file original_path,
      detect_text env file original_path w = (inl e, w').
Proof.
  intros n.
  assert (Hinit : initialize_models env w
            = (inl e, set_text_detector (Some (TextDetectorObj n (device_of env)))
                        (set_constructed
                           (constructed w ++ [TextDetectorObj n (device_of env)]) w))).
  { unfold initialize_models. rewrite (bool_decide_eq_true_2 _ Hmo), orb_true_r.
    unfold try_except, bind, construct_manga_ocr, bind, construct, raise.
    rewrite Hfile. cbn [negb].
    fold (device_of env). rewrite Hdet.
    cbn [constructed set_constructed set_text_detector]. by rewrite Hocr. }
  eexists. split; [exact Hinit|]. cbn. split_and!; try done.
  intros file original_path. unfold detect_text, bind. by rewrite Hinit.
Qed.

Lemma failing_ocr_loader_reloads_detector_witness :
  exists w',
    detect_text Cases.no_ocr_model Sample.upload None Cases.half_loaded
      = (inl (Error (lit "download failed")), w') /\
    constructed w' = [TextDetectorObj 0 "cpu"; TextDetectorObj 1 "cpu"] /\
    manga_ocr w' = None.
Proof.
  destruct (failing_ocr_loader_reloads_detector Cases.no_ocr_model Cases.half_loaded
              (Error (lit "download failed")))
    as (w' & _ & _ & Hmo & Hco & _ & Hreq); try reflexivity.
  exists w'. split_and!; [apply Hreq | exact Hco | exact Hmo].
Defined.

(** ** Files *)

Section Files.

Variable env : Env.

Lemma debug_failed_files (p : pystr) (debug_info : list DebugMsg)
    (n : nat) (w w1 : World) (e : Exn) :
  heap_only n w w1 ->
  files_outcome p w (inr (None, debug_info ++ [MsgDebugFailed e]), w1).
Proof.
  intros Hf. by destruct (heap_only_fields _ _ _ Hf) as (_ & _ & _ & _ & _ & ?).
Qed.

Lemma generate_debug_image_with_text_files (img : nat) (blk_list : list TextBlock)
    (text_results : list (gmap string pyval)) (original_image_path : pystr)
    (debug_info : list DebugMsg) (w : World) :
  files_outcome (debug_path_of env original_image_path) w
    (generate_debug_image_with_text env img blk_list text_results
       original_image_path debug_info w).
Proof.
  unfold generate_debug_image_with_text, try_except.
  set (n0 := length (heap w)).
  set (P := files_outcome _ w).
  destruct (heap w !! img) as [c|] eqn:Hc; [|by unfold bind, read; rewrite Hc].
  step_with ltac:(by apply (step_read n0 img c)).
  { intros e w1 Hf. by eapply debug_failed_files. }
  intros ? ? Hf0 [-> ->].
  step_with ltac:(apply (step_lib env n0)).
  { intros e w1 Hf. by eapply debug_failed_files. }
  intros ? ? _ [-> ->].
  step_with ltac:(apply (step_alloc n0)).
  { intros e w1 Hf. by eapply debug_failed_files. }
  intros debug_img w1 Hf1 [-> Hc1].
  step_with ltac:(by apply (step_read n0)).
  { intros e w2 Hf. eapply debug_failed_files, heap_only_trans; eauto. }
  intros ? ? _ [-> ->].
  step_with ltac:(apply (step_lib env n0)).
  { intros e w2 Hf. eapply debug_failed_files, heap_only_trans; eauto. }
  intros ? ? _ [-> ->].
  step_with ltac:(apply (step_lib env n0)).
  { intros e w2 Hf. eapply debug_failed_files, heap_only_trans; eauto. }
  intros ? ? _ [-> ->].
  step_with ltac:(apply (step_alloc n0)).
  { intros e w2 Hf. eapply debug_failed_files, heap_only_trans; eauto. }
  intros debug_pil w2 Hf2 [-> Hc2].
  pose proof (heap_only_trans _ _ _ _ Hf1 Hf2) as Hf12.
  assert (Hn : n0 <= length (heap w1)) by (destruct Hf1 as (_ & L & _); exact L).
  step_with ltac:(apply (step_lib env n0)).
  { intros e w3 Hf. eapply debug_failed_files, heap_only_trans; eauto. }
  intros ? ? _ [-> ->].
  step_with ltac:(apply (debug_blocks_loop_ok env n0); [exact Hc2 | exact Hn]).
  { intros e w3 Hf. eapply debug_failed_files, heap_only_trans; eauto. }
  intros st w3 Hf3 (d & c3 & -> & Hd & Hc3 & Ha3). cbn [fst].
  pose proof (heap_only_trans _ _ _ _ Hf12 Hf3) as Hf13.
  step_with ltac:(by apply (step_read n0)).
  { intros e w4 Hf. eapply debug_failed_files, heap_only_trans; eauto. }
  intros ? ? _ [-> ->].
  step_with ltac:(apply (step_lib env n0)).
  { intros e w4 Hf. eapply debug_failed_files, heap_only_trans; eauto. }
  intros ? ? _ [-> ->].
  step_with ltac:(apply (step_lib env n0)).
  { intros e w4 Hf. eapply debug_failed_files, heap_only_trans; eauto. }
  intros ? ? _ [-> ->].
  destruct (heap_only_fields _ _ _ Hf13) as (_ & _ & _ & _ & Hiw & Hfs).
  unfold P, files_outcome, bind, do_imwrite, path_exists, ret.
  destruct (raises env (cv2_imwrite _ _)) as [e|]; cbn [fst snd]; [done|].
  destruct (imwrite_result env _ _) eqn:Hok; cbn [fst snd andb]; [|done].
  rewrite bool_decide_eq_true_2 by (cbn; rewrite lookup_insert_eq; by eexists).
  cbn [fst snd]. split; [done|]. eexists. cbn. by rewrite Hiw, Hfs.
Qed.

End Files.

(** ** Wrapped exceptions and paths *)

Lemma try_except_raise_inl {A} (m : M A) (h : Exn -> Exn) (w w' : World) (e : Exn) :
  try_except m (fun e0 => raise (h e0)) w = (inl e, w') ->
  exists e0, m w = (inl e0, w') /\ e = h e0.
Proof.
  unfold try_except, raise. destruct (m w) as [[e0 | a] w1]; [|discriminate].
  intros [= <- <-]. by exists e0.
Qed.

Lemma startswith_app (prefix rest : pystr) : startswith prefix (prefix ++ rest) = true.
Proof.
  induction prefix as [|a prefix IH]; [by destruct rest|].
  simpl. by rewrite N.eqb_refl.
Qed.

Lemma or_else_again (a : option pystr) (b : pystr) :
  or_else (Some (or_else a b)) b = or_else a b.
Proof.
  unfold or_else. destruct a as [p|].
  - destruct (truthy p) eqn:Hp; [by rewrite Hp | by destruct (truthy b)].
  - by destruct (truthy b).
Qed.

Lemma run_ocr_detection_inl (env : Env) (image_path : pystr) (base : option pystr)
    (w w' : World) (e : Exn) :
  run_ocr_detection env image_path base w = (inl e, w') ->
  exists e0, e = Error (lit "OCR detection failed: " ++ str_exn e0).
Proof.
  unfold run_ocr_detection. intros Hrun.
  apply (try_except_raise_inl _
           (fun e0 => Error (lit "OCR detection failed: " ++ str_exn e0))) in Hrun
    as (e0 & _ & ->).
  by exists e0.
Qed.

Lemma run_ocr_detection_files (env : Env) (image_path : pystr) (base : option pystr)
    (w w' : World) (r : Exn + gmap string pyval) :
  run_ocr_detection env image_path base w = (r, w') ->
  let p := debug_path_of env (or_else base image_path) in
  match r with
  | inr resp =>
      match resp !! "debugImagePath"%string with
      | Some v =>
          v = VStr p /\
          exists f, fs w' = <[p := ImageFile f]> (fs w) /\
                    imwrites w' = imwrites w ++ [(p, f, true)]
      | None => fs w' = fs w
      end
  | inl _ => fs w' = fs w
  end.
Proof.
  intros Hrun p. pose proof Hrun as Hrun0. revert Hrun.
  unfold run_ocr_detection, try_except.
  destruct (bool_decide (text_detector w = None)) eqn:Htd; [by intros [= <- <-]|].
  destruct (bool_decide (manga_ocr w = None)) eqn:Hmo; [by intros [= <- <-]|].
  apply bool_decide_eq_false_1 in Htd, Hmo. cbn [orb].
  unfold bind at 1. unfold cv2_imread.
  destruct (fs w !! image_path) as [[c | bytes] |] eqn:Hfile;
    [| by intros [= <- <-] | by intros [= <- <-]].
  unfold bind at 1. unfold alloc at 1. cbn [ret].
  unfold bind at 1. unfold read. cbn [heap set_heap].
  rewrite list_lookup_middle by done.
  destruct (shape env c) as [im_h im_w] eqn:Hshape.
  unfold bind at 1. unfold lift, lib.
  destruct (raises env (text_detector_call c)) eqn:Hdet; [by intros [= <- <-]|].
  intros _. rewrite (run_ocr_detection_eq env _ _ c) in Hrun0 by done.
  assert (Hfiles : files_outcome p (after_ocr env c w)
                     (debug_stage env c (or_else base image_path) w)).
  { unfold debug_stage. destruct (GENERATE_DEBUG_IMAGES env); [|done].
    apply generate_debug_image_with_text_files. }
  destruct (debug_stage _ _ _ _) as [[e | [res dbg]] w2]; injection Hrun0 as <- <-.
  - exact Hfiles.
  - destruct (response_lookup env (page_results env c) (snd (shape env c))
                (fst (shape env c)) dbg res) as (_ & _ & _ & _ & Hpath).
    cbn [fst snd]. rewrite Hpath. unfold files_outcome in Hfiles.
    cbn [fst snd] in Hfiles. destruct res as [p'|]; [|exact Hfiles].
    destruct Hfiles as (-> & f & Hfs & Hiw). fold p.
    unfold p at 1. rewrite debug_path_truthy. split; [done|]. by exists f.
Qed.

(** ** What a request to /ocr/detect can come to *)

(** X7: a request to /ocr/detect ends in one of four ways: a response; the
    exception of [initialize_models] itself, unwrapped; an HTTP 400 when the
    content type is no image type, in which case nothing but the models has
    been touched; or an HTTP 500 whose detail starts with
    "OCR processing failed: OCR detection failed: ". *)
Theorem detect_text_outcomes (env : Env) (file : UploadFile)
    (original_path : option pystr) (w : World) :
  match detect_text env file original_path w with
  | (inr resp, w') => resp !! "success"%string = Some (VBool true)
  | (inl e, w') =>
      initialize_models env w = (inl e, w') \/
      exists w0,
        initialize_models env w = (inr tt, w0) /\
        ((e = HTTPException 400 (lit "File must be an image") /\
          not_an_image file = true /\ w' = w0) \/
         (not_an_image file = false /\
          exists detail,
            e = HTTPException 500 detail /\
            startswith (lit "OCR processing failed: OCR detection failed: ") detail
              = true))
  end.
Proof.
  destruct (initialize_models env w) as [[e0 | []] w0] eqn:Hinit.
  { unfold detect_text, bind. rewrite Hinit. by left. }
  destruct (not_an_image file) eqn:Himg.
  { unfold detect_text, bind. rewrite Hinit, Himg. unfold raise.
    right. exists w0. split; [done|]. by left. }
  rewrite (detect_text_eq env _ _ _ _ Hinit Himg).
  destruct (run_ocr_detection _ _ _ _) as [[e | resp] w2] eqn:Hocr.
  - right. exists w0. split; [done|]. right. split; [done|].
    eexists. split; [reflexivity|].
    apply run_ocr_detection_inl in Hocr as (e0 & ->). cbn [str_exn].
    change (lit "OCR processing failed: OCR detection failed: ")
      with (lit "OCR processing failed: " ++ lit "OCR detection failed: ").
    rewrite (app_assoc _ _ (str_exn e0)). apply startswith_app.
  - pose proof Hocr as Hin.
    apply run_ocr_detection_inr in Hin as (Htd & Hmo & c & Hfile & Hdet).
    rewrite (run_ocr_detection_eq env _ _ c) in Hocr by done.
    destruct (debug_stage _ _ _ _) as [[e | dbg] w3]; [discriminate|].
    injection Hocr as <- _. apply response_lookup.
Qed.

(** X8: the temporary copy of the upload does not outlive the request: once
    the content type is accepted, the file is gone at the end, whether the
    request is served or fails. *)
Theorem temporary_upload_is_removed (env : Env) (file : UploadFile)
    (original_path : option pystr) (w w0 : World)
    (Hinit : initialize_models env w = (inr tt, w0))
    (Himg : not_an_image file = false) :
  fs (snd (detect_text env file original_path w)) !! tmp_file_name env = None.
Proof.
  rewrite (detect_text_eq env _ _ _ _ Hinit Himg).
  destruct (run_ocr_detection _ _ _ _) as [[e | resp] w2];
    cbn [snd unlinked fs set_fs]; apply lookup_delete_eq.
Qed.

Lemma temporary_upload_is_removed_witness :
  fs (snd (detect_text Sample.env0 Sample.upload None Sample.w0))
    !! tmp_file_name Sample.env0 = None /\
  fs (snd (detect_text Sample.env0 Cases.broken_upload None Sample.w0))
    !! tmp_file_name Sample.env0 = None.
Proof.
  split.
  - apply (temporary_upload_is_removed Sample.env0 Sample.upload None Sample.w0
             Cases.ready); reflexivity.
  - apply (temporary_upload_is_removed Sample.env0 Cases.broken_upload None Sample.w0
             Cases.ready); reflexivity.
Defined.

(** X9: a request changes no file other than the temporary upload, the
    debug image and what the loading of the models writes: whatever the
    outcome, every path but the temporary one and the debug path holds at
    the end what it held when the request's own [initialize_models()] was
    over, and that is what it held before the request when both models were
    loaded already. *)
Theorem request_leaves_other_files_alone (env : Env) (file : UploadFile)
    (original_path : option pystr) (w : World) (q : pystr)
    (Htmp : q <> tmp_file_name env)
    (Hdebug : q <> debug_path_of env (or_else original_path (tmp_file_name env))) :
  fs (snd (detect_text env file original_path w)) !! q
    = fs (snd (initialize_models env w)) !! q /\
  (text_detector w <> None -> manga_ocr w <> None ->
   fs (snd (detect_text env file original_path w)) !! q = fs w !! q).
Proof.
  assert (Hmain : fs (snd (detect_text env file original_path w)) !! q
                  = fs (snd (initialize_models env w)) !! q).
  { destruct (initialize_models env w) as [[e0 | []] w0] eqn:Hinit.
    { unfold detect_text, bind. by rewrite Hinit. }
    destruct (not_an_image file) eqn:Himg.
    { unfold detect_text, bind. by rewrite Hinit, Himg. }
    rewrite (detect_text_eq env _ _ _ _ Hinit Himg).
    destruct (run_ocr_detection _ _ _ _) as [r w2] eqn:Hocr.
    pose proof (run_ocr_detection_files env _ _ _ _ _ Hocr) as Hfiles.
    cbn zeta in Hfiles. rewrite or_else_again in Hfiles.
    assert (Hq : fs w2 !! q = fs w0 !! q).
    { assert (Hup : fs (uploaded env file w0) !! q = fs w0 !! q).
      { unfold uploaded. cbn [fs set_fs]. by rewrite lookup_insert_ne. }
      destruct r as [e | resp].
      - by rewrite Hfiles.
      - destruct (resp !! "debugImagePath"%string) as [v|]; [|by rewrite Hfiles].
        destruct Hfiles as (_ & f & -> & _). by rewrite lookup_insert_ne. }
    destruct r; cbn [snd unlinked fs set_fs]; by rewrite lookup_delete_ne. }
  split; [exact Hmain|].
  intros Htd Hmo. rewrite Hmain. by rewrite initialize_models_ready.
Qed.

Lemma request_leaves_other_files_alone_witness :
  fs (snd (detect_text Sample.env0 Sample.upload None Sample.w0))
    !! lit "/root/.cache/huggingface/manga-ocr.bin" = Some (OtherFile [109; 111]%N) /\
  fs (snd (detect_text Sample.env0 Sample.upload None Cases.ready))
    !! lit "/data/page.jpg" = fs Cases.ready !! lit "/data/page.jpg".
Proof.
  split.
  - destruct (request_leaves_other_files_alone Sample.env0 Sample.upload None
                Sample.w0 (lit "/root/.cache/huggingface/manga-ocr.bin"))
      as [Hfs _]; [by vm_compute | by vm_compute |].
    rewrite Hfs. reflexivity.
  - destruct (request_leaves_other_files_alone Sample.env0 Sample.upload None
                Cases.ready (lit "/data/page.jpg"))
      as [_ Hfs]; [by vm_compute | by vm_compute |].
    apply Hfs; by vm_compute.
Defined.

(** X10: when a response carries ["debugImagePath"], the path is the debug
    path of [original_path] if that was given and is not empty, and of the
    temporary upload otherwise; the image was written there during the
    request, and unless it is the path of the temporary upload itself, the
    file is there at the end with that image. *)
Theorem debug_image_path_names_the_saved_file (env : Env) (file : UploadFile)
    (original_path : option pystr) (w w' : World) (resp : gmap string pyval)
    (v : pyval)
    (Hrun : detect_text env file original_path w = (inr resp, w'))
    (Hv : resp !! "debugImagePath"%string = Some v) :
  let p := debug_path_of env (or_else original_path (tmp_file_name env)) in
  v = VStr p /\
  exists f,
    imwrites w' = imwrites w ++ [(p, f, true)] /\
    (p <> tmp_file_name env -> fs w' !! p = Some (ImageFile f)).
Proof.
  intros p.
  destruct (detect_text_inr env _ _ _ _ _ Hrun) as (w0 & c & Hinit & Himg & _).
  destruct (initialize_models_frame env _ _ _ Hinit) as (_ & _ & _ & Hiw0 & _).
  rewrite (detect_text_eq env _ _ _ _ Hinit Himg) in Hrun.
  destruct (run_ocr_detection _ _ _ _) as [[e | resp2] w2] eqn:Hocr; [discriminate|].
  injection Hrun as -> <-.
  pose proof (run_ocr_detection_files env _ _ _ _ _ Hocr) as Hfiles.
  cbn zeta in Hfiles. rewrite or_else_again, Hv in Hfiles. fold p in Hfiles.
  destruct Hfiles as (-> & f & Hfs & Hiw). split; [done|]. exists f.
  cbn [unlinked imwrites fs set_fs]. split.
  - rewrite Hiw. unfold uploaded. cbn. by rewrite Hiw0.
  - intros Hne. by rewrite lookup_delete_ne, Hfs, lookup_insert_eq.
Qed.

Lemma debug_image_path_names_the_saved_file_witness :
  exists resp w' f,
    detect_text Sample.env0 Sample.upload None Sample.w0 = (inr resp, w') /\
    resp !! "debugImagePath"%string = Some (VStr (lit "/data/page_debug.jpg")) /\
    fs w' !! lit "/data/page_debug.jpg" = Some (ImageFile f).
Proof.
  destruct sample_request_served as (resp & w' & Hrun).
  pose proof sample_response as Hsample. rewrite Hrun in Hsample.
  destruct Hsample as (Hv & _).
  destruct (debug_image_path_names_the_saved_file Sample.env0 Sample.upload None
              Sample.w0 w' resp _ Hrun Hv) as (_ & f & _ & Hfile).
  exists resp, w', f. split_and!; [exact Hrun | exact Hv |].
  apply Hfile. by vm_compute.
Defined.

(** X11: [run_ocr_detection] returns a response exactly when both models
    are set, the file at [image_path] is an image and the detector does not
    raise on it; nothing that happens in a line or in the debug stage makes
    it fail. *)
Theorem run_ocr_detection_returns_iff (env : Env) (image_path : pystr)
    (base : option pystr) (w : World) :
  (exists resp w', run_ocr_detection env image_path base w = (inr resp, w')) <->
  (text_detector w <> None /\ manga_ocr w <> None /\
   exists c, fs w !! image_path = Some (ImageFile c) /\
             raises env (text_detector_call c) = None).
Proof.
  split.
  - intros (resp & w' & Hrun). by eapply run_ocr_detection_inr.
  - intros (Htd & Hmo & c & Hfile & Hdet).
    rewrite (run_ocr_detection_eq env _ _ c) by done.
    pose proof (debug_stage_outcome env c (or_else base image_path) w) as Hout.
    destruct (debug_stage _ _ _ _) as [r w2].
    destruct Hout as (_ & _ & _ & _ & _ & _ & res & dbg & ws & Hr & _).
    cbn [fst] in Hr. subst r. eauto.
Qed.

Lemma run_ocr_detection_no_image (env : Env) (image_path : pystr)
    (base : option pystr) (w : World) :
  text_detector w <> None -> manga_ocr w <> None ->
  (forall c, fs w !! image_path <> Some (ImageFile c)) ->
  run_ocr_detection env image_path base w
  = (inl (Error (lit "OCR detection failed: " ++ lit "Failed to load image")), w).
Proof.
  intros Htd Hmo Hfile. unfold run_ocr_detection, try_except.
  rewrite !bool_decide_eq_false_2 by done. cbn [orb].
  unfold bind, cv2_imread.
  destruct (fs w !! image_path) as [[c | bytes] |]; [by destruct (Hfile c) | done | done].
Qed.

Lemma run_ocr_detection_detector_raises (env : Env) (image_path : pystr)
    (base : option pystr) (w : World) (c : Image) (e : Exn) :
  text_detector w <> None -> manga_ocr w <> None ->
  fs w !! image_path = Some (ImageFile c) ->
  raises env (text_detector_call c) = Some e ->
  run_ocr_detection env image_path base w
  = (inl (Error (lit "OCR detection failed: " ++ str_exn e)),
     set_heap (heap w ++ [c]) w).
Proof.
  intros Htd Hmo Hfile Hdet. unfold run_ocr_detection, try_except.
  rewrite !bool_decide_eq_false_2 by done. cbn [orb].
  unfold bind at 1. unfold cv2_imread. rewrite Hfile.
  unfold bind at 1. unfold alloc at 1. cbn [ret].
  unfold bind at 1. unfold read. cbn [heap set_heap].
  rewrite list_lookup_middle by done.
  destruct (shape env c) as [im_h im_w].
  unfold bind at 1. unfold lift, lib. by rewrite Hdet.
Qed.

(** X12: with the models loaded, the content type and the content of the
    upload decide the request.  A content type that is no image type gives
    400, also for a file that is an image, and nothing is read.  An accepted
    file that is no image gives 500 with "Failed to load image"; no buffer
    is made, the OCR model is not called and nothing is written.  An image
    on which the detector raises gives 500 with the detector's message.
    Every other upload gets a response. *)
Theorem upload_decides_the_request (env : Env) (file : UploadFile)
    (original_path : option pystr) (w w0 : World)
    (Hinit : initialize_models env w = (inr tt, w0)) :
  let r := detect_text env file original_path w in
  (not_an_image file = true ->
     r = (inl (HTTPException 400 (lit "File must be an image")), w0)) /\
  (not_an_image file = false ->
     forall bytes, content file = OtherFile bytes ->
       exists detail,
         fst r = inl (HTTPException 500 detail) /\
         startswith
           (lit "OCR processing failed: OCR detection failed: Failed to load image")
           detail = true /\
         heap (snd r) = heap w /\ ocr_inputs (snd r) = ocr_inputs w /\
         imwrites (snd r) = imwrites w) /\
  (not_an_image file = false ->
     forall c e, content file = ImageFile c ->
       raises env (text_detector_call c) = Some e ->
       exists detail,
         fst r = inl (HTTPException 500 detail) /\
         startswith
           (lit "OCR processing failed: OCR detection failed: " ++ str_exn e)
           detail = true /\
         ocr_inputs (snd r) = ocr_inputs w /\ imwrites (snd r) = imwrites w) /\
  (not_an_image file = false ->
     forall c, content file = ImageFile c ->
       raises env (text_detector_call c) = None ->
       exists resp, fst r = inr resp).
Proof.
  intros r. subst r.
  destruct (initialize_models_inr env _ _ Hinit) as [Htd Hmo].
  destruct (initialize_models_frame env _ _ _ Hinit) as (Hh & _ & Ho & Hi & _).
  assert (Hup : fs (uploaded env file w0) !! tmp_file_name env = Some (content file)).
  { unfold uploaded. cbn [fs set_fs]. apply lookup_insert_eq. }
  assert (Htd' : text_detector (uploaded env file w0) <> None) by done.
  assert (Hmo' : manga_ocr (uploaded env file w0) <> None) by done.
  split_and!.
  - intros Himg. unfold detect_text, bind. by rewrite Hinit, Himg.
  - intros Himg bytes Hc. rewrite (detect_text_eq env _ _ _ _ Hinit Himg).
    rewrite run_ocr_detection_no_image
      by (try done; intros c; rewrite Hup, Hc; discriminate).
    cbn [fst snd]. unfold unlinked, uploaded.
    cbn [heap ocr_inputs imwrites set_fs].
    eexists. split; [reflexivity|]. by split_and!.
  - intros Himg c e Hc Hdet. rewrite (detect_text_eq env _ _ _ _ Hinit Himg).
    rewrite (run_ocr_detection_detector_raises env _ _ _ c e)
      by (try done; by rewrite Hup, Hc).
    cbn [fst snd]. unfold unlinked, uploaded.
    cbn [heap ocr_inputs imwrites set_fs set_heap].
    eexists. split; [reflexivity|]. split_and!; try done.
    cbn [str_exn].
    change (lit "OCR processing failed: OCR detection failed: ")
      with (lit "OCR processing failed: " ++ lit "OCR detection failed: ").
    rewrite <- app_assoc.
    rewrite <- (app_nil_r (lit "OCR processing failed: " ++ _)) at 2.
    rewrite <- !app_assoc. rewrite !app_assoc. rewrite <- (app_assoc _ _ []).
    rewrite <- !app_assoc. rewrite !app_assoc. apply startswith_app.
  - intros Himg c Hc Hdet.
    destruct (detect_text_served env file original_path w w0 c Hinit Himg Hc Hdet)
      as (res & dbg & w2 & _ & ->).
    by eexists.
Qed.

Lemma upload_decides_the_request_witness :
  fst (detect_text Sample.env0 Cases.mislabelled_upload None Sample.w0)
    = inl (HTTPException 400 (lit "File must be an image")) /\
  exists detail,
    fst (detect_text Sample.env0 Cases.broken_upload None Sample.w0)
      = inl (HTTPException 500 detail) /\
    heap (snd (detect_text Sample.env0 Cases.broken_upload None Sample.w0)) = [].
Proof.
  destruct (upload_decides_the_request Sample.env0 Cases.mislabelled_upload None
              Sample.w0 Cases.ready) as (H400 & _); [reflexivity|].
  destruct (upload_decides_the_request Sample.env0 Cases.broken_upload None
              Sample.w0 Cases.ready) as (_ & H500 & _); [reflexivity|].
  split.
  - rewrite H400; reflexivity.
  - destruct (H500 eq_refl [1; 2; 3]%N eq_refl) as (detail & Hr & _ & Hheap & _).
    exists detail. split; [exact Hr | exact Hheap].
Defined.

(** ** The endpoint /ocr/text-only *)

Section TextOnlyFacts.

Variable env : Env.

Lemma run_direct_ocr_eq (image_path : pystr) (c : Image) (w : World) :
  manga_ocr w <> None ->
  fs w !! image_path = Some (ImageFile c) ->
  let pil := FromArray (CvtColor COLOR_BGR2RGB c) in
  let wrap := fun e => Error (lit "Direct OCR failed: " ++ str_exn e) in
  let w1 := set_heap (heap w ++ [c]) w in
  let w2 := set_ocr_inputs (ocr_inputs w ++ [pil]) w1 in
  run_direct_ocr env image_path w =
    match raises env (cv2_cvtColor c COLOR_BGR2RGB) with
    | Some e => (inl (wrap e), w1)
    | None =>
        match raises env (Image_fromarray (CvtColor COLOR_BGR2RGB c)) with
        | Some e => (inl (wrap e), w1)
        | None =>
            match raises env (manga_ocr_call pil) with
            | Some e => (inl (wrap e), w2)
            | None =>
                (inr (direct_response (recognize env pil) (snd (shape env c))
                        (fst (shape env c))), w2)
            end
        end
    end.
Proof.
  intros Hmo Hfile pil wrap w1 w2. unfold run_direct_ocr, try_except.
  rewrite bool_decide_eq_false_2 by done.
  unfold bind at 1. unfold cv2_imread. rewrite Hfile.
  unfold bind at 1. unfold alloc at 1. cbn [ret].
  unfold bind at 1. unfold read. cbn [heap set_heap].
  rewrite list_lookup_middle by done.
  destruct (shape env c) as [im_h im_w]. cbn [fst snd].
  unfold bind, lift, lib, call_manga_ocr, ret, raise.
  destruct (raises env (cv2_cvtColor c COLOR_BGR2RGB)); [done|].
  destruct (raises env (Image_fromarray _)); [done|].
  subst pil wrap w1 w2. unfold lib.
  by destruct (raises env (manga_ocr_call _)).
Qed.

Lemma run_direct_ocr_inr (image_path : pystr) (w w' : World)
    (resp : gmap string pyval) :
  run_direct_ocr env image_path w = (inr resp, w') ->
  manga_ocr w <> None /\
  exists c, fs w !! image_path = Some (ImageFile c).
Proof.
  unfold run_direct_ocr, try_except.
  destruct (bool_decide (manga_ocr w = None)) eqn:Hmo; [discriminate|].
  apply bool_decide_eq_false_1 in Hmo.
  unfold bind at 1. unfold cv2_imread.
  destruct (fs w !! image_path) as [[c | bytes] |] eqn:Hfile;
    [| unfold raise; cbn; discriminate | unfold raise; cbn; discriminate].
  intros _. split; [done|]. by exists c.
Qed.

Lemma extract_text_only_eq (file : UploadFile) (w w0 : World) :
  initialize_models env w = (inr tt, w0) ->
  not_an_image file = false ->
  extract_text_only env file w =
    match run_direct_ocr env (tmp_file_name env) (uploaded env file w0) with
    | (inl e, w2) =>
        (inl (HTTPException 500 (lit "OCR processing failed: " ++ str_exn e)),
         unlinked env w2)
    | (inr resp, w2) => (inr resp, unlinked env w2)
    end.
Proof.
  intros Hinit Himg. unfold extract_text_only, bind at 1. rewrite Hinit, Himg.
  unfold bind, write_file, try_finally, try_except, unlink_if_exists, raise.
  fold (uploaded env file w0).
  by destruct (run_direct_ocr _ _ _) as [[e | resp] w2].
Qed.

Lemma direct_response_lookup (text : pystr) (im_w im_h : Z) :
  let r := direct_response text im_w im_h in
  r !! "success"%string = Some (VBool true) /\
  r !! "text"%string = Some (VStr text) /\
  r !! "imageSize"%string
    = Some (VDict (<["width"%string := VInt im_w]>
                     (<["height"%string := VInt im_h]> ∅))) /\
  r !! "method"%string = Some (VStr (lit "direct_ocr")) /\
  r !! "textBlocks"%string = None /\
  r !! "debugImagePath"%string = None.
Proof. unfold direct_response. repeat split; by simplify_map_eq. Qed.

End TextOnlyFacts.

(** X13: a response of /ocr/text-only carries, under ["text"], what the OCR
    model reads in the whole uploaded image, which it is given once, as an
    RGB PIL image; there are no text blocks, no detection and no debug
    image; no image is written, and the files are at the end as the
    request's own [initialize_models()] left them, without the temporary
    upload. *)
Theorem text_only_reads_the_whole_image (env : Env) (file : UploadFile)
    (w w' : World) (resp : gmap string pyval)
    (Hrun : extract_text_only env file w = (inr resp, w')) :
  exists c size,
    content file = ImageFile c /\
    let pil := FromArray (CvtColor COLOR_BGR2RGB c) in
    resp !! "success"%string = Some (VBool true) /\
    resp !! "text"%string = Some (VStr (recognize env pil)) /\
    resp !! "method"%string = Some (VStr (lit "direct_ocr")) /\
    resp !! "imageSize"%string = Some (VDict size) /\
    size !! "width"%string = Some (VInt (snd (shape env c))) /\
    size !! "height"%string = Some (VInt (fst (shape env c))) /\
    resp !! "textBlocks"%string = None /\
    resp !! "debugImagePath"%string = None /\
    ocr_inputs w' = ocr_inputs w ++ [pil] /\
    imwrites w' = imwrites w /\
    fs w' = delete (tmp_file_name env) (fs (snd (initialize_models env w))).
Proof.
  assert (Hi : exists w0, initialize_models env w = (inr tt, w0)
                          /\ not_an_image file = false).
  { revert Hrun. unfold extract_text_only, bind at 1.
    destruct (initialize_models env w) as [[e | []] w0]; [discriminate|].
    destruct (not_an_image file); [discriminate|]. intros _. by exists w0. }
  destruct Hi as (w0 & Hinit & Himg).
  destruct (initialize_models_inr env _ _ Hinit) as [Htd Hmo].
  destruct (initialize_models_frame env _ _ _ Hinit) as (Hh & Hfs & Ho & Hi & _).
  rewrite (extract_text_only_eq env _ _ _ Hinit Himg) in Hrun.
  destruct (run_direct_ocr env _ _) as [[e | resp2] w2] eqn:Hocr; [discriminate|].
  injection Hrun as -> <-.
  destruct (run_direct_ocr_inr env _ _ _ _ Hocr) as (_ & c & Hfile).
  assert (Hc : content file = ImageFile c).
  { unfold uploaded in Hfile. cbn [fs set_fs] in Hfile.
    rewrite lookup_insert_eq in Hfile. by injection Hfile. }
  rewrite (run_direct_ocr_eq env _ c) in Hocr by done. cbn zeta in Hocr.
  destruct (raises env (cv2_cvtColor c COLOR_BGR2RGB)); [discriminate|].
  destruct (raises env (Image_fromarray _)); [discriminate|].
  destruct (raises env (manga_ocr_call _)); [discriminate|].
  injection Hocr as <- <-.
  destruct (direct_response_lookup
              (recognize env (FromArray (CvtColor COLOR_BGR2RGB c)))
              (snd (shape env c)) (fst (shape env c)))
    as (? & ? & ? & ? & ? & ?).
  eexists c, _. split; [done|]. cbn zeta.
  unfold unlinked, uploaded. cbn [ocr_inputs imwrites fs set_fs set_heap set_ocr_inputs].
  split_and!; try done.
  - by rewrite Ho.
  - by rewrite delete_insert_eq, Hinit.
Qed.

Lemma text_only_reads_the_whole_image_witness :
  exists resp w',
    extract_text_only Sample.quiet Sample.upload Sample.w0 = (inr resp, w') /\
    resp !! "text"%string = Some (VStr (lit "abcdefghijklmnopqrstuvwxyz0123456789")) /\
    ocr_inputs w' = [FromArray (CvtColor COLOR_BGR2RGB Sample.page)].
Proof.
  destruct (extract_text_only Sample.quiet Sample.upload Sample.w0)
    as [r w'] eqn:Hrun.
  assert (Hr : exists resp, r = inr resp).
  { assert (Hfst : fst (extract_text_only Sample.quiet Sample.upload Sample.w0) = r)
      by (by rewrite Hrun).
    revert Hfst. vm_compute. intros <-. by eexists. }
  destruct Hr as (resp & ->).
  destruct (text_only_reads_the_whole_image Sample.quiet Sample.upload
              Sample.w0 w' resp Hrun)
    as (c & size & Hc & _ & Htext & _ & _ & _ & _ & _ & _ & Hocr & _).
  injection Hc as <-.
  exists resp, w'. split_and!; [done | exact Htext | exact Hocr].
Defined.

(** X14: an exception of the OCR model is fatal for /ocr/text-only and not
    for /ocr/detect.  When the OCR model raises on the whole image, the
    text-only request fails with an HTTP 500 whose detail starts with
    "OCR processing failed: Direct OCR failed: " and the message of the
    exception, and the temporary upload is removed; the same upload sent to
    /ocr/detect gets a response. *)
Theorem ocr_failure_is_fatal_for_text_only (env : Env) (file : UploadFile)
    (original_path : option pystr) (w w0 : World) (c : Image) (e : Exn)
    (Hinit : initialize_models env w = (inr tt, w0))
    (Himg : not_an_image file = false)
    (Hc : content file = ImageFile c)
    (Hcvt : raises env (cv2_cvtColor c COLOR_BGR2RGB) = None)
    (Hpil : raises env (Image_fromarray (CvtColor COLOR_BGR2RGB c)) = None)
    (Hocr : raises env (manga_ocr_call (FromArray (CvtColor COLOR_BGR2RGB c))) = Some e)
    (Hdet : raises env (text_detector_call c) = None) :
  (exists detail w',
     extract_text_only env file w = (inl (HTTPException 500 detail), w') /\
     startswith (lit "OCR processing failed: Direct OCR failed: " ++ str_exn e) detail
       = true /\
     fs w' !! tmp_file_name env = None) /\
  (exists resp w', detect_text env file original_path w = (inr resp, w')).
Proof.
  destruct (initialize_models_inr env _ _ Hinit) as [Htd Hmo].
  split.
  - rewrite (extract_text_only_eq env _ _ _ Hinit Himg).
    rewrite (run_direct_ocr_eq env _ c);
      [| done | unfold uploaded; cbn [fs set_fs]; by rewrite lookup_insert_eq, Hc].
    cbn zeta. rewrite Hcvt, Hpil, Hocr.
    eexists _, _. split; [reflexivity|]. split.
    + cbn [str_exn].
      change (lit "OCR processing failed: Direct OCR failed: ")
        with (lit "OCR processing failed: " ++ lit "Direct OCR failed: ").
      rewrite <- app_assoc.
      rewrite <- (app_nil_r (lit "OCR processing failed: " ++ _)) at 2.
      rewrite <- !app_assoc. rewrite !app_assoc. rewrite <- (app_assoc _ _ []).
      rewrite <- !app_assoc. rewrite !app_assoc. apply startswith_app.
    + unfold unlinked. cbn [fs set_fs]. apply lookup_delete_eq.
  - destruct (detect_text_served env file original_path w w0 c Hinit Himg Hc Hdet)
      as (res & dbg & w2 & _ & Hrun).
    eauto.
Qed.

Lemma ocr_failure_is_fatal_for_text_only_witness :
  (exists detail w',
     extract_text_only Cases.ocr_raises Sample.upload Sample.w0
       = (inl (HTTPException 500 detail), w')) /\
  (exists resp w',
     detect_text Cases.ocr_raises Sample.upload None Sample.w0 = (inr resp, w')).
Proof.
  destruct (ocr_failure_is_fatal_for_text_only Cases.ocr_raises Sample.upload None
              Sample.w0 Cases.ready Sample.page (Error (lit "out of memory")))
    as ((detail & w' & Hrun & _) & Hdetect); try reflexivity.
  split; [by exists detail, w' | exact Hdetect].
Defined.

(** ** The legacy debug image and results without text *)

(** X15: the legacy entry point [generate_debug_image] draws nothing.  It
    passes an empty list of results and the loop runs over
    [zip(blk_list, text_results)], so no block is visited: whatever it
    writes goes to the debug path and shows the page without any rectangle,
    label or outline, however many blocks it was given. *)
Theorem legacy_debug_image_has_no_overlays (env : Env) (img : nat)
    (blk_list : list TextBlock) (original_image_path : pystr)
    (debug_info : list DebugMsg) (c : Image) (w : World)
    (Hc : cell img c w) :
  exists res debug_info' ws w',
    generate_debug_image env img blk_list original_image_path debug_info w
      = (inr (res, debug_info'), w') /\
    imwrites w' = imwrites w ++ ws /\
    forall p f ok, (p, f, ok) ∈ ws ->
      p = debug_path_of env original_image_path /\
      underlying f = underlying c /\ overlays f = overlays c.
Proof.
  pose proof (generate_debug_image_with_text_outcome env img blk_list []
                original_image_path debug_info c w Hc) as Hout.
  unfold generate_debug_image.
  destruct (generate_debug_image_with_text _ _ _ _ _ _ _) as [r w'].
  destruct Hout as (_ & _ & _ & _ & _ & _ & res & dbg' & ws & Hr & Hws & _ & Hres).
  cbn [fst snd] in *. subst r. exists res, dbg', ws, w'.
  split_and!; [done | done |].
  assert (Hnil : debug_overlays env 0 (zip blk_list []) = [])
    by (by destruct blk_list).
  rewrite Hnil in Hres.
  intros p f ok Hin.
  assert (Hone : p = debug_path_of env original_image_path /\ annotated false c [] f).
  { destruct res as [p'|].
    - destruct Hres as (_ & f' & -> & Ha). apply list_elem_of_singleton in Hin.
      by injection Hin as -> -> ->.
    - destruct Hres as [-> | (f' & -> & Ha)].
      + apply elem_of_nil in Hin. destruct Hin.
      + apply list_elem_of_singleton in Hin. by injection Hin as -> -> ->. }
  destruct Hone as (-> & Hu & _ & Ho). rewrite app_nil_r in Ho. done.
Qed.

Lemma legacy_debug_image_has_no_overlays_witness :
  cell 0 Sample.page Sample.w1 /\
  exists res debug_info' ws w',
    generate_debug_image Sample.env0 0 [Sample.blkA; Sample.blkB]
      (lit "/data/page.jpg") [] Sample.w1 = (inr (res, debug_info'), w') /\
    imwrites w' = imwrites Sample.w1 ++ ws /\
    forall p f ok, (p, f, ok) ∈ ws ->
      p = debug_path_of Sample.env0 (lit "/data/page.jpg") /\
      underlying f = underlying Sample.page /\ overlays f = overlays Sample.page.
Proof.
  split; [reflexivity|].
  apply (legacy_debug_image_has_no_overlays Sample.env0 0
           [Sample.blkA; Sample.blkB] (lit "/data/page.jpg") [] Sample.page Sample.w1).
  reflexivity.
Defined.

Lemma debug_blocks_loop_key_error (env : Env) (blk : TextBlock)
    (text_result : gmap string pyval)
    (pairs : list (TextBlock * gmap string pyval)) (i : nat) (st : nat * nat)
    (w : World) :
  (blk, text_result) ∈ pairs ->
  text_result !! "text"%string = None ->
  exists e, fst (debug_blocks_loop env i pairs st w) = inl e.
Proof.
  intros Hin Hkey. revert i st w.
  induction pairs as [|[blk' tr'] pairs IH]; intros i st w.
  - apply elem_of_nil in Hin. destruct Hin.
  - cbn [debug_blocks_loop]. unfold bind at 1.
    destruct (debug_block env i blk' tr' st w) as [[e | st'] w'] eqn:Hblk.
    + by exists e.
    + apply elem_of_cons in Hin as [Heq | Hin]; [|by apply IH].
      injection Heq as <- <-. unfold debug_block in Hblk.
      destruct (int_box _) as [[[x1 y1] x2] y2]. by rewrite Hkey in Hblk.
Qed.

(** X16: [generate_debug_image_with_text] needs the ["text"] of every result
    it pairs with a block.  When one of the paired results has no ["text"]
    key, the [KeyError] is caught: the function returns [None] with a note
    of the failure, no image is written and no file is changed. *)
Theorem debug_image_needs_every_text (env : Env) (img : nat)
    (blk_list : list TextBlock) (text_results : list (gmap string pyval))
    (original_image_path : pystr) (debug_info : list DebugMsg) (w : World)
    (blk : TextBlock) (text_result : gmap string pyval)
    (Hin : (blk, text_result) ∈ zip blk_list text_results)
    (Hkey : text_result !! "text"%string = None) :
  exists e w',
    generate_debug_image_with_text env img blk_list text_results
      original_image_path debug_info w
      = (inr (None, debug_info ++ [MsgDebugFailed e]), w') /\
    imwrites w' = imwrites w /\ fs w' = fs w.
Proof.
  unfold generate_debug_image_with_text, try_except.
  set (n0 := length (heap w)).
  set (P := fun r : (Exn + option pystr * list DebugMsg) * World =>
              (exists e, fst r = inl e) /\
              imwrites (snd r) = imwrites w /\ fs (snd r) = fs w).
  assert (Hfail : forall e w1, heap_only n0 w w1 -> P (inl e, w1)).
  { intros e w1 Hf. split; [by exists e|]. cbn [snd].
    by destruct (heap_only_fields _ _ _ Hf) as (_ & _ & _ & _ & ? & ?). }
  match goal with
  | |- context [bind ?m ?k w] =>
      enough (HP : P (bind m k w));
        [ destruct (bind m k w) as [[e|x] w1]; destruct HP as ((e' & He') & ? & ?);
          cbn [fst snd] in *; [by exists e, w1 | done] |]
  end.
  destruct (heap w !! img) as [c|] eqn:Hc;
    [|unfold bind at 1, read at 1; rewrite Hc; apply Hfail, heap_only_refl].
  step_with ltac:(by apply (step_read n0 img c)).
  { done. }
  intros ? ? Hf0 [-> ->].
  step_with ltac:(apply (step_lib env n0)).
  { done. }
  intros ? ? _ [-> ->].
  step_with ltac:(apply (step_alloc n0)).
  { done. }
  intros debug_img w1 Hf1 [-> Hc1].
  step_with ltac:(by apply (step_read n0)).
  { intros e w2 Hf. eapply Hfail, heap_only_trans; eauto. }
  intros ? ? _ [-> ->].
  step_with ltac:(apply (step_lib env n0)).
  { intros e w2 Hf. eapply Hfail, heap_only_trans; eauto. }
  intros ? ? _ [-> ->].
  step_with ltac:(apply (step_lib env n0)).
  { intros e w2 Hf. eapply Hfail, heap_only_trans; eauto. }
  intros ? ? _ [-> ->].
  step_with ltac:(apply (step_alloc n0)).
  { intros e w2 Hf. eapply Hfail, heap_only_trans; eauto. }
  intros debug_pil w2 Hf2 [-> Hc2].
  pose proof (heap_only_trans _ _ _ _ Hf1 Hf2) as Hf12.
  assert (Hn : n0 <= length (heap w1)) by (destruct Hf1 as (_ & L & _); exact L).
  step_with ltac:(apply (step_lib env n0)).
  { intros e w3 Hf. eapply Hfail, heap_only_trans; eauto. }
  intros ? ? _ [-> ->].
  pose proof (debug_blocks_loop_ok env n0 (zip blk_list text_results) 0
                (length (heap w1)) _ w2 Hc2 Hn) as [Hf3 _].
  destruct (debug_blocks_loop_key_error env blk text_result _ 0
              (length (heap w1), length (heap w1)) w2 Hin Hkey) as (e & He).
  unfold bind at 1.
  destruct (debug_blocks_loop env 0 _ _ w2) as [r3 w3].
  cbn [fst snd] in He, Hf3. subst r3.
  eapply Hfail, heap_only_trans; eauto.
Qed.

Lemma debug_image_needs_every_text_witness :
  exists e w',
    generate_debug_image_with_text Sample.quiet 0 [Sample.blkB] [∅]
      (lit "/data/page.jpg") [] Sample.w1
      = (inr (None, [] ++ [MsgDebugFailed e]), w') /\
    imwrites w' = imwrites Sample.w1 /\ fs w' = fs Sample.w1.
Proof.
  apply (debug_image_needs_every_text Sample.quiet 0 [Sample.blkB] [∅]
           (lit "/data/page.jpg") [] Sample.w1 Sample.blkB ∅).
  - constructor.
  - reflexivity.
Defined.

(** ** Counting the OCR calls *)

Lemma lines_images_length (c : Image) (blks : list TextBlock) :
  length (lines_images c blks) = sum_list_with (fun blk => length (lines blk)) blks.
Proof.
  unfold lines_images. induction blks as [|blk blks IH]; [done|].
  cbn [fmap list_fmap concat sum_list_with].
  by rewrite length_app, length_fmap, length_seq, IH.
Qed.


(** X17: a served request gives each line to the OCR model at most once.
    The images given to the OCR model during the request are a sub-sequence
    of the images of the lines of the page, taken block after block and line
    after line: no line is given twice or out of order, and a line is left
    out only when cropping, turning or converting it raises.  When none of
    these raises, every line is given exactly once, whether or not the OCR
    model itself raises on it. *)
Theorem ocr_is_called_at_most_once_per_line (env : Env) (file : UploadFile)
    (original_path : option pystr) (w w0 : World) (c : Image)
    (Hinit : initialize_models env w = (inr tt, w0))
    (Himg : not_an_image file = false)
    (Hc : content file = ImageFile c)
    (Hdet : raises env (text_detector_call c) = None) :
  exists called,
    ocr_inputs (snd (detect_text env file original_path w)) = ocr_inputs w ++ called /\
    called `sublist_of` lines_images c (detect env c) /\
    (forall given, given ∈ lines_images c (detect env c) -> given ∉ called ->
       exists blk i call,
         blk ∈ detect env c /\ i < length (lines blk) /\
         given = line_image c blk i /\
         call ∈ line_prep_calls c blk i /\ raises env call <> None) /\
    ((forall blk i call, blk ∈ detect env c -> i < length (lines blk) ->
        call ∈ line_prep_calls c blk i -> raises env call = None) ->
     called = lines_images c (detect env c)) /\
    length called <= sum_list_with (fun blk => length (lines blk)) (detect env c).
Proof.
  destruct (detect_text_served env file original_path w w0 c Hinit Himg Hc Hdet)
    as (res & dbg & w2 & _ & Hrun).
  destruct (detect_text_facts env _ _ _ _ _ Hrun)
    as (c' & _ & _ & _ & Hc' & _ & _ & _ & _ & Hocr & _).
  rewrite Hc in Hc'. injection Hc' as <-.
  rewrite Hrun. cbn [snd] in *. exists (page_ocr_inputs env c).
  split; [exact Hocr|].
  split; [apply blocks_ocr_inputs_sublist|]. split; [|split].
  - intros given Hin Hnot. unfold lines_images in Hin.
    apply elem_of_concat in Hin as (l & Hl & Hgiven).
    apply list_elem_of_fmap in Hl as (blk & -> & Hblk).
    apply list_elem_of_fmap in Hgiven as (i & -> & Hi).
    apply elem_of_seq in Hi.
    destruct (line_ocr_input_cases env c blk i) as [Hsome | [_ (call & e & Hcall & Hr)]].
    + exfalso. apply Hnot. unfold page_ocr_inputs. apply elem_of_concat.
      exists (block_ocr_inputs env c blk). split; [by apply list_elem_of_fmap_2|].
      unfold block_ocr_inputs, line_indices. apply list_elem_of_omap.
      exists i. split; [apply elem_of_seq; lia | exact Hsome].
    + exists blk, i, call. split_and!; [done | lia | done | done | by rewrite Hr].
  - apply blocks_ocr_inputs_quiet.
  - rewrite <- (lines_images_length c). apply sublist_length, blocks_ocr_inputs_sublist.
Qed.

Lemma ocr_is_called_at_most_once_per_line_witness :
  ocr_inputs (snd (detect_text Sample.env0 Sample.upload None Sample.w0))
  = [FromArray (CvtColor COLOR_BGR2RGB
       (Rotate ROTATE_90_CLOCKWISE (Region Sample.page Sample.blkA 0 24)));
     FromArray (CvtColor COLOR_BGR2RGB
       (Rotate ROTATE_90_CLOCKWISE (Region Sample.page Sample.blkA 1 24)));
     FromArray (CvtColor COLOR_BGR2RGB (Region Sample.page Sample.blkC 0 20))].
Proof.
  destruct (ocr_is_called_at_most_once_per_line Sample.env0 Sample.upload None
              Sample.w0 Cases.ready Sample.page eq_refl eq_refl eq_refl eq_refl)
    as (called & Hocr & _ & _ & Hall & _).
  rewrite Hocr, Hall; [reflexivity|].
  intros blk i call _ _. apply sample_prep_quiet.
Defined.

(** ** Pages and blocks without text *)

(** X18: a page on which the detector finds no block is served:
    ["textBlocks"] is the empty list, the OCR model is not called, and a
    debug image, when one is written, shows the page with nothing drawn on
    it. *)
Theorem page_without_blocks (env : Env) (file : UploadFile)
    (original_path : option pystr) (w w0 : World) (c : Image)
    (Hinit : initialize_models env w = (inr tt, w0))
    (Himg : not_an_image file = false)
    (Hc : content file = ImageFile c)
    (Hdet : raises env (text_detector_call c) = None)
    (Hnone : detect env c = []) :
  exists resp w' ws,
    detect_text env file original_path w = (inr resp, w') /\
    resp !! "success"%string = Some (VBool true) /\
    resp !! "textBlocks"%string = Some (VList []) /\
    ocr_inputs w' = ocr_inputs w /\
    imwrites w' = imwrites w ++ ws /\
    forall p f ok, (p, f, ok) ∈ ws ->
      underlying f = underlying c /\ overlays f = overlays c.
Proof.
  destruct (detect_text_served env file original_path w w0 c Hinit Himg Hc Hdet)
    as (res & dbg & w2 & _ & Hrun).
  destruct (detect_text_facts env _ _ _ _ _ Hrun)
    as (c' & res' & dbg' & ws & Hc' & _ & _ & Hresp & _ & Hocr & Hws & _ & _ & _ & Hres).
  rewrite Hc in Hc'. injection Hc' as <-.
  unfold page_ocr_inputs, page_overlays in *. rewrite Hnone in *.
  cbn [fmap list_fmap concat blocks_overlays] in *. rewrite app_nil_r in Hocr.
  destruct (response_lookup env (page_results env c) (snd (shape env c))
              (fst (shape env c)) dbg res) as (Hs & Htb & _).
  unfold page_results in Htb at 2. rewrite Hnone in Htb.
  eexists _, _, ws. split; [exact Hrun|].
  split; [exact Hs|]. split; [exact Htb|]. split; [exact Hocr|]. split; [exact Hws|].
  intros p f ok Hin.
  assert (Ha : annotated false c [] f).
  { destruct res' as [p'|].
    - destruct Hres as (_ & _ & f' & -> & Ha). apply list_elem_of_singleton in Hin.
      by injection Hin as -> -> ->.
    - destruct Hres as [-> | (p' & f' & -> & Ha)].
      + apply elem_of_nil in Hin. destruct Hin.
      + apply list_elem_of_singleton in Hin. by injection Hin as -> -> ->. }
  destruct Ha as (Hu & _ & Ho). rewrite app_nil_r in Ho. done.
Qed.

Lemma page_without_blocks_witness :
  exists resp w' ws,
    detect_text Cases.no_text Sample.upload None Sample.w0 = (inr resp, w') /\
    resp !! "textBlocks"%string = Some (VList []) /\
    ocr_inputs w' = ocr_inputs Sample.w0 /\
    imwrites w' = imwrites Sample.w0 ++ ws.
Proof.
  destruct (page_without_blocks Cases.no_text Sample.upload None Sample.w0
              (snd (initialize_models Cases.no_text Sample.w0)) Sample.page
              eq_refl eq_refl eq_refl eq_refl eq_refl)
    as (resp & w' & ws & Hrun & _ & Htb & Hocr & Hws & _).
  exists resp, w', ws. split; [exact Hrun|]. split; [exact Htb|].
  split; [exact Hocr | exact Hws].
Defined.

(** X19: a block without lines gets its entry without an OCR call and
    without a look at the image: the state is unchanged, ["text"] is empty,
    ["text_lines"] is the empty list, ["lines"] is 0, the box is the
    detector's [xyxy] through [int()], and one block note is appended. *)
Theorem block_without_lines (env : Env) (img : nat) (blk_idx : nat)
    (blk : TextBlock) (debug_info : list DebugMsg) (w : World)
    (Hlines : lines blk = []) :
  exists result_blk,
    process_block env img blk_idx blk debug_info w
      = (inr (result_blk,
              debug_info ++ [MsgBlock (blk_idx + 1) (int_box (xyxy blk))
                               (vertical blk) (font_size blk) 0 []]), w) /\
    (let '(x1, y1, x2, y2) := int_box (xyxy blk) in
     result_blk !! "bbox"%string
       = Some (VList [VInt x1; VInt y1; VInt x2; VInt y2])) /\
    result_blk !! "text"%string = Some (VStr []) /\
    result_blk !! "text_lines"%string = Some (VList []) /\
    result_blk !! "lines"%string = Some (VInt 0).
Proof.
  unfold process_block. rewrite tight_bbox_fallback by (by rewrite Hlines).
  rewrite Hlines. cbn [length seq lines_loop]. unfold bind, ret. cbn [fst snd concat].
  eexists. split; [reflexivity|].
  destruct (int_box (xyxy blk)) as [[[x1 y1] x2] y2].
  destruct (result_blk_lookup blk x1 y1 x2 y2 [])
    as (Hb & _ & _ & _ & _ & Hl & _ & Ht & Htl).
  rewrite Hlines in Hl. done.
Qed.

Lemma block_without_lines_witness :
  exists result_blk,
    process_block Sample.env0 0 1 Sample.blkB [] Sample.w1
      = (inr (result_blk,
              [] ++ [MsgBlock (1 + 1) (int_box (xyxy Sample.blkB))
                       (vertical Sample.blkB) (font_size Sample.blkB) 0 []]),
         Sample.w1) /\
    result_blk !! "text"%string = Some (VStr []).
Proof.
  destruct (block_without_lines Sample.env0 0 1 Sample.blkB [] Sample.w1 eq_refl)
    as (r & Hrun & _ & Ht & _).
  exists r. split; [exact Hrun | exact Ht].
Defined.

(** ** The keys of a response *)

Lemma result_blk_dom (blk : TextBlock) (box : Z * Z * Z * Z) (texts : list pystr) :
  dom (result_blk_of blk box texts)
    = ({[ "bbox"; "width"; "height"; "vertical"; "font_size"; "lines";
          "confidence"; "text"; "text_lines" ]} : gset string)%string.
Proof.
  destruct box as [[[x1 y1] x2] y2]. unfold result_blk_of.
  rewrite !dom_insert_L, dom_empty_L. set_solver.
Qed.

Lemma response_dom (env : Env) (results : list (gmap string pyval)) (im_w im_h : Z)
    (debug_info : list DebugMsg) (debug_image_path : option pystr) :
  dom (response_of env results im_w im_h debug_info debug_image_path)
    = (({[ "success"; "textBlocks"; "imageSize"; "debug" ]} : gset string)
       ∪ match debug_image_path with
         | Some p => if truthy p then {[ "debugImagePath" ]} else ∅
         | None => ∅
         end)%string.
Proof.
  unfold response_of.
  destruct debug_image_path as [p|]; [destruct (truthy p)|];
    rewrite !dom_insert_L, dom_empty_L; set_solver.
Qed.

(** X20: a response of /ocr/detect has the keys success, textBlocks,
    imageSize and debug, with or without debugImagePath, and no other key;
    every entry of ["textBlocks"] has the nine keys bbox, width, height,
    vertical, font_size, lines, confidence, text and text_lines, and no
    other. *)
Theorem response_has_no_other_keys (env : Env) (file : UploadFile)
    (original_path : option pystr) (w w' : World) (resp : gmap string pyval)
    (Hrun : detect_text env file original_path w = (inr resp, w')) :
  (dom resp = ({[ "success"; "textBlocks"; "imageSize"; "debug" ]} : gset string)%string
   \/ dom resp = ({[ "success"; "textBlocks"; "imageSize"; "debug";
                     "debugImagePath" ]} : gset string)%string) /\
  exists entries,
    resp !! "textBlocks"%string = Some (VList (VDict <$> entries)) /\
    forall entry, entry ∈ entries ->
      dom entry = ({[ "bbox"; "width"; "height"; "vertical"; "font_size"; "lines";
                      "confidence"; "text"; "text_lines" ]} : gset string)%string.
Proof.
  destruct (detect_text_facts env _ _ _ _ _ Hrun)
    as (c & res & dbg & ws & _ & _ & _ & -> & _).
  split.
  - rewrite response_dom. destruct res as [p|]; [destruct (truthy p)|].
    + right. set_solver.
    + left. set_solver.
    + left. set_solver.
  - exists (page_results env c). split; [apply response_lookup|].
    intros entry Hin. unfold page_results in Hin.
    apply list_elem_of_fmap in Hin as (blk & -> & _). apply result_blk_dom.
Qed.

Lemma response_has_no_other_keys_witness :
  exists resp entries,
    fst (detect_text Sample.env0 Sample.upload None Sample.w0) = inr resp /\
    resp !! "textBlocks"%string = Some (VList (VDict <$> entries)) /\
    forall entry, entry ∈ entries ->
      dom entry = ({[ "bbox"; "width"; "height"; "vertical"; "font_size"; "lines";
                      "confidence"; "text"; "text_lines" ]} : gset string)%string.
Proof.
  destruct sample_request_served as (resp & w' & Hrun).
  destruct (response_has_no_other_keys Sample.env0 Sample.upload None Sample.w0 w'
              resp Hrun) as (_ & entries & Htb & Hdom).
  exists resp, entries. split; [by rewrite Hrun|]. split; [exact Htb | exact Hdom].
Defined.

(** ** What /ocr/text-only leaves behind *)

Lemma run_direct_ocr_frame (env : Env) (image_path : pystr) (w : World) :
  let w2 := snd (run_direct_ocr env image_path w) in
  imwrites w2 = imwrites w /\ fs w2 = fs w /\
  text_detector w2 = text_detector w /\ manga_ocr w2 = manga_ocr w /\
  exists called, ocr_inputs w2 = ocr_inputs w ++ called /\ length called <= 1.
Proof.
  cbn zeta.
  assert (Hsame : forall r, run_direct_ocr env image_path w = (r, w) ->
            imwrites (snd (run_direct_ocr env image_path w)) = imwrites w /\
            fs (snd (run_direct_ocr env image_path w)) = fs w /\
            text_detector (snd (run_direct_ocr env image_path w)) = text_detector w /\
            manga_ocr (snd (run_direct_ocr env image_path w)) = manga_ocr w /\
            exists called,
              ocr_inputs (snd (run_direct_ocr env image_path w))
                = ocr_inputs w ++ called /\ length called <= 1).
  { intros r ->. cbn [snd]. split_and!; try done.
    exists []. split; [by rewrite app_nil_r | cbn [length]; lia]. }
  destruct (decide (manga_ocr w = None)) as [Hmo | Hmo].
  { eapply Hsame. unfold run_direct_ocr, try_except.
    by rewrite bool_decide_eq_true_2. }
  destruct (fs w !! image_path) as [[c | bytes] |] eqn:Hfile.
  - rewrite (run_direct_ocr_eq env _ c) by done. cbn zeta.
    destruct (raises env (cv2_cvtColor c COLOR_BGR2RGB)).
    { cbn [snd imwrites fs ocr_inputs text_detector manga_ocr set_heap].
      split_and!; try done. exists []. split; [by rewrite app_nil_r | cbn [length]; lia]. }
    destruct (raises env (Image_fromarray _)).
    { cbn [snd imwrites fs ocr_inputs text_detector manga_ocr set_heap].
      split_and!; try done. exists []. split; [by rewrite app_nil_r | cbn [length]; lia]. }
    destruct (raises env (manga_ocr_call _));
      cbn [snd imwrites fs ocr_inputs text_detector manga_ocr set_heap set_ocr_inputs].
    all: repeat (split; [done|]).
    all: eexists [_]; (split; [reflexivity | cbn [length]; lia]).
  - eapply Hsame. unfold run_direct_ocr, try_except.
    rewrite bool_decide_eq_false_2 by done.
    unfold bind at 1. unfold cv2_imread. by rewrite Hfile.
  - eapply Hsame. unfold run_direct_ocr, try_except.
    rewrite bool_decide_eq_false_2 by done.
    unfold bind at 1. unfold cv2_imread. by rewrite Hfile.
Qed.

(** X21: whatever its outcome, a request to /ocr/text-only writes no image
    and calls the OCR model at most once; every file other than the
    temporary upload is at the end as the request's own
    [initialize_models()] left it, which is as it was before the request
    when both models were loaded already. *)
Theorem text_only_writes_no_image (env : Env) (file : UploadFile) (w : World) :
  let w' := snd (extract_text_only env file w) in
  imwrites w' = imwrites w /\
  (exists called, ocr_inputs w' = ocr_inputs w ++ called /\ length called <= 1) /\
  forall q, q <> tmp_file_name env ->
    fs w' !! q = fs (snd (initialize_models env w)) !! q /\
    (text_detector w <> None -> manga_ocr w <> None -> fs w' !! q = fs w !! q).
Proof.
  cbn zeta.
  assert (Hloaded : forall q (v : option File),
            v = fs (snd (initialize_models env w)) !! q ->
            v = fs (snd (initialize_models env w)) !! q /\
            (text_detector w <> None -> manga_ocr w <> None -> v = fs w !! q)).
  { intros q v Hq. split; [exact Hq|]. intros Htd Hmo.
    rewrite Hq. by rewrite initialize_models_ready. }
  destruct (initialize_models env w) as [[e0 | []] w0] eqn:Hinit.
  { destruct (initialize_models_frame env _ _ _ Hinit) as (_ & _ & Ho & Hi & _).
    unfold extract_text_only, bind. rewrite Hinit. cbn [snd].
    rewrite Ho, Hi. split_and!; try done.
    - exists []. split; [by rewrite app_nil_r | cbn [length]; lia].
    - intros q _. by apply Hloaded. }
  destruct (initialize_models_frame env _ _ _ Hinit) as (_ & _ & Ho & Hi & _).
  destruct (not_an_image file) eqn:Himg.
  { unfold extract_text_only, bind. rewrite Hinit, Himg. cbn [snd raise].
    rewrite Ho, Hi. split_and!; try done.
    - exists []. split; [by rewrite app_nil_r | cbn [length]; lia].
    - intros q _. by apply Hloaded. }
  rewrite (extract_text_only_eq env _ _ _ Hinit Himg).
  pose proof (run_direct_ocr_frame env (tmp_file_name env) (uploaded env file w0))
    as Hframe. cbn zeta in Hframe.
  destruct (run_direct_ocr _ _ _) as [r w2]. cbn [snd] in Hframe.
  destruct Hframe as (Hi2 & Hfs2 & _ & _ & called & Ho2 & Hlen).
  unfold uploaded in Hi2, Hfs2, Ho2. cbn [imwrites fs ocr_inputs set_fs] in Hi2, Hfs2, Ho2.
  assert (Hgoal : imwrites (unlinked env w2) = imwrites w /\
            (exists called, ocr_inputs (unlinked env w2) = ocr_inputs w ++ called
                            /\ length called <= 1) /\
            forall q, q <> tmp_file_name env ->
              fs (unlinked env w2) !! q = fs (snd (inr tt : Exn + unit, w0)) !! q /\
              (text_detector w <> None -> manga_ocr w <> None ->
               fs (unlinked env w2) !! q = fs w !! q)).
  { unfold unlinked. cbn [imwrites fs ocr_inputs set_fs]. split_and!.
    - by rewrite Hi2, Hi.
    - exists called. split; [by rewrite Ho2, Ho | done].
    - intros q Hq. apply Hloaded. cbn [snd].
      by rewrite lookup_delete_ne, Hfs2, lookup_insert_ne. }
  by destruct r.
Qed.
